(** * africa-payment-sdk-node: webhook verification and event normalisation

    A shallow embedding of the two payment providers of the SDK (the
    Stripe provider and the Paydunya provider of [providers/paydunya.ts]),
    of the canonical payment events they emit, and of the pieces of the
    JavaScript run time their webhook handlers rely on ([Number],
    [JSON.stringify], [JSON.parse], lodash's [mapValues]).

    Conventions of the embedding:
    - a JavaScript string is a Rocq [string], read as the UTF-8 bytes of
      the text; white space outside ASCII is not recognised as such, and
      [JSON.stringify] leaves every byte from 0x20 on as it is, but for the
      quote and the backslash;
    - a finite JavaScript number is an exact decimal [mant * 10 ^ expo]:
      rounding to binary64 and overflow are not modelled, and [-0] is
      identified with [0], as [===] does;
    - a JSON object is the list of its members in the order of the text,
      and an object used as a dictionary (metadata, headers) is a
      [gmap string _];
    - a property that a body may lack is an [option], [None] for
      [undefined]; the [null] and [undefined] results of a webhook handler
      are both [None];
    - the body of an [async] function is a computation in the monad [M]:
      it threads the [World] (the deliveries to the emitter, the console,
      the digests computed) and completes normally (the promise is
      fulfilled) or abruptly (the promise is rejected);
    - the subscribers of the emitter are outside the model, and so is what
      is on the other side of a call: the answers of Stripe, of Paydunya
      and of the parser of phone numbers are parameters of the operations
      that ask for them. *)

From Stdlib Require Import ZArith Ascii String List Bool Lia.
From stdpp Require Import base option list gmap strings.

Local Open Scope Z_scope.

(** ** Characters and digit strings *)

Module Chars.

Definition code (c : ascii) : Z := Z.of_N (N_of_ascii c).

Definition chr (n : Z) : ascii := ascii_of_N (Z.to_N n).

Definition quote : ascii := "034"%char.
Definition backslash : ascii := "\"%char.

Definition in_range (lo hi : Z) (c : ascii) : bool :=
  (lo <=? code c) && (code c <=? hi).

Definition is_digit (c : ascii) : bool := in_range 48 57 c.

(** ECMAScript white space and line terminators, ASCII part
    (TAB, LF, VT, FF, CR, SP). *)
Definition is_js_space (c : ascii) : bool :=
  in_range 9 13 c || (code c =? 32).

(** JSON white space: TAB, LF, CR, SP. *)
Definition is_json_space (c : ascii) : bool :=
  (code c =? 9) || (code c =? 10) || (code c =? 13) || (code c =? 32).

Definition digit_val (c : ascii) : Z := code c - 48.

Definition digit_chr (d : Z) : ascii := chr (48 + d).

(** Value of a hexadecimal digit, if [c] is one. *)
Definition hex_val (c : ascii) : option Z :=
  if in_range 48 57 c then Some (code c - 48)
  else if in_range 97 102 c then Some (code c - 87)
  else if in_range 65 70 c then Some (code c - 55)
  else None.

Definition hex_chr (d : Z) : ascii :=
  if d <? 10 then chr (48 + d) else chr (87 + d).

(** Value of a digit string in base [base], most significant first. *)
Fixpoint value_from (base acc : Z) (ds : list Z) : Z :=
  match ds with
  | [] => acc
  | d :: ds' => value_from base (base * acc + d) ds'
  end.

Definition dec_value (s : list ascii) : Z :=
  value_from 10 0 (map digit_val s).

(** Longest prefix of characters satisfying [p], and the rest. *)
Fixpoint span (p : ascii -> bool) (s : list ascii)
  : list ascii * list ascii :=
  match s with
  | c :: r =>
      if p c then let '(a, b) := span p r in (c :: a, b) else ([], s)
  | [] => ([], [])
  end.

Fixpoint digits_fuel (fuel : nat) (n : Z) (acc : list ascii) : list ascii :=
  match fuel with
  | O => acc
  | S f =>
      let acc' := digit_chr (n mod 10) :: acc in
      if n <? 10 then acc' else digits_fuel f (n / 10) acc'
  end.

(** Decimal digits of [n >= 0], without leading zeros ("0" for 0). *)
Definition digits (n : Z) : list ascii :=
  digits_fuel (S (Z.to_nat (Z.log2 n))) n [].

Fixpoint strip_zeros_rev (r : list ascii) : list ascii :=
  match r with
  | c :: r' => if code c =? 48 then strip_zeros_rev r' else r
  | [] => []
  end.

(** A digit string without its trailing zeros. *)
Definition strip_trailing_zeros (s : list ascii) : list ascii :=
  rev (strip_zeros_rev (rev s)).

Definition zeros (n : Z) : list ascii := repeat "0"%char (Z.to_nat n).

(** What [digits] computes: the digits of [n], no leading zero, the last
    one being [n mod 10]. *)
Record digits_of (n : Z) (ds : list ascii) : Prop := {
  digits_all : Forall (fun c => is_digit c = true) ds;
  digits_value : dec_value ds = n;
  digits_head : match ds with
                | c :: _ => 0 < n -> code c <> 48
                | [] => False
                end;
  digits_last : last ds = Some (digit_chr (n mod 10))
}.

End Chars.

(** ** JavaScript numbers *)

Module Js.
Import Chars.

(** A finite number [mant * 10 ^ expo]. The canonical form has
    [expo <= 0], and [mant] not divisible by ten when [expo < 0]. *)
Record decimal := Dec { mant : Z; expo : Z }.

Inductive number :=
| Num (d : decimal)
| NaN
| Infinity (negative : bool).

Fixpoint strip_tens (k : nat) (m : Z) : decimal :=
  match k with
  | O => Dec m 0
  | S k' =>
      if m mod 10 =? 0 then strip_tens k' (m / 10)
      else Dec m (- Z.of_nat k)
  end.

(** The canonical decimal equal to [m * 10 ^ e]. *)
Definition mk_decimal (m e : Z) : decimal :=
  if 0 <=? e then Dec (m * 10 ^ e) 0 else strip_tens (Z.to_nat (- e)) m.

Definition of_Z (z : Z) : number := Num (Dec z 0).

Definition canonical (d : decimal) : bool :=
  (expo d <=? 0) && ((expo d =? 0) || negb (mant d mod 10 =? 0)).

Definition negate (d : decimal) : decimal := Dec (- mant d) (expo d).

(** [ToBoolean] on strings: only the empty string is falsy. *)
Definition truthy (s : string) : bool :=
  match s with EmptyString => false | _ => true end.

(** *** StringToNumber (ECMA-262, 7.1.4.1.1) *)

(** ExponentPart (optional) up to the end of the input. *)
Definition exponent_part (s : list ascii) : option Z :=
  match s with
  | [] => Some 0
  | c :: r =>
      if (code c =? 101) || (code c =? 69) then
        let '(neg, ds) :=
          match r with
          | "+"%char :: r' => (false, r')
          | "-"%char :: r' => (true, r')
          | _ => (false, r)
          end in
        match ds with
        | [] => None
        | _ =>
            if forallb is_digit ds
            then Some (if neg then - dec_value ds else dec_value ds)
            else None
        end
      else None
  end.

(** StrUnsignedDecimalLiteral other than [Infinity]. *)
Definition unsigned_decimal (s : list ascii) : option decimal :=
  let '(ip, r1) := span is_digit s in
  let '(fp, r2) :=
    match r1 with
    | "."%char :: r => span is_digit r
    | _ => ([], r1)
    end in
  match ip, fp with
  | [], [] => None
  | _, _ =>
      match exponent_part r2 with
      | Some x =>
          Some (mk_decimal (dec_value (ip ++ fp)) (x - Z.of_nat (length fp)))
      | None => None
      end
  end.

Definition str_decimal_literal (s : list ascii) : option number :=
  let '(neg, u) :=
    match s with
    | "+"%char :: r => (false, r)
    | "-"%char :: r => (true, r)
    | _ => (false, s)
    end in
  if decide (u = list_ascii_of_string "Infinity") then Some (Infinity neg)
  else
    match unsigned_decimal u with
    | Some d => Some (Num (if neg then negate d else d))
    | None => None
    end.

Definition radix_digit (base : Z) (c : ascii) : option Z :=
  match hex_val c with
  | Some v => if v <? base then Some v else None
  | None => None
  end.

Fixpoint radix_digits (base : Z) (s : list ascii) : option (list Z) :=
  match s with
  | [] => Some []
  | c :: r =>
      match radix_digit base c, radix_digits base r with
      | Some v, Some vs => Some (v :: vs)
      | _, _ => None
      end
  end.

(** NonDecimalIntegerLiteral: [0x], [0o], [0b] prefixes, no sign. *)
Definition non_decimal_literal (s : list ascii) : option number :=
  match s with
  | "0"%char :: p :: (_ :: _) as ds =>
      let base :=
        if (code p =? 120) || (code p =? 88) then 16
        else if (code p =? 111) || (code p =? 79) then 8
        else if (code p =? 98) || (code p =? 66) then 2
        else 0 in
      match radix_digits base ds with
      | Some vs => Some (of_Z (value_from base 0 vs))
      | None => None
      end
  | _ => None
  end.

Definition trim_start (s : list ascii) : list ascii :=
  snd (span is_js_space s).

Definition trim (s : list ascii) : list ascii :=
  rev (trim_start (rev (trim_start s))).

(** The value of the literal, exactly: it is the number [Number]
    returns whenever that value is a binary64 number, as every integer
    up to [MAX_SAFE_INTEGER] is; beyond, [Number] rounds, and overflows
    to [Infinity]. *)
Definition StringToNumber (s : string) : number :=
  match trim (list_ascii_of_string s) with
  | [] => of_Z 0
  | t =>
      match non_decimal_literal t with
      | Some n => n
      | None =>
          match str_decimal_literal t with
          | Some n => n
          | None => NaN
          end
      end
  end.

(** [Number(v)] for [v : number | null]: [null] converts to [+0]. *)
Definition Number_of_nullable (v : option number) : number :=
  match v with
  | Some n => n
  | None => of_Z 0
  end.

(** [Number.MAX_SAFE_INTEGER]. *)
Definition MAX_SAFE_INTEGER : Z := 2 ^ 53 - 1.

End Js.

(** ** JSON values, [JSON.stringify] and [JSON.parse] *)

Module JSON.
Import Chars Js.

Unset Elimination Schemes.

Inductive Json :=
| JNull
| JBool (b : bool)
| JNum (d : decimal)
| JStr (s : string)
| JArr (elements : list Json)
| JObj (members : list (string * Json)).

Set Elimination Schemes.

(** *** Number::toString (ECMA-262, 6.1.6.1.20), radix 10 *)

Definition sign_char (x : Z) : ascii :=
  if x <? 0 then "-"%char else "+"%char.

Definition exponent_form (ds : list ascii) (n : Z) : list ascii :=
  let x := n - 1 in
  let xs := sign_char x :: digits (Z.abs x) in
  match strip_trailing_zeros ds with
  | [] => []
  | [c] => c :: "e"%char :: xs
  | c :: cs => c :: "."%char :: cs ++ "e"%char :: xs
  end.

Definition positive_to_string (m e : Z) : list ascii :=
  let ds := digits m in
  let n := Z.of_nat (length ds) + e in
  if (e =? 0) && (n <=? 21) then ds
  else if (0 <? n) && (n <=? 21) then
    take (Z.to_nat n) ds ++ "."%char :: drop (Z.to_nat n) ds
  else if (-6 <? n) && (n <=? 0) then
    "0"%char :: "."%char :: zeros (- n) ++ ds
  else exponent_form ds n.

Definition number_to_string (d : decimal) : list ascii :=
  let c := mk_decimal (mant d) (expo d) in
  if mant c =? 0 then ["0"%char]
  else if mant c <? 0 then "-"%char :: positive_to_string (- mant c) (expo c)
  else positive_to_string (mant c) (expo c).

(** *** QuoteJSONString (ECMA-262, 25.5.2.3) *)

Definition escape_char (c : ascii) : list ascii :=
  let n := code c in
  if n =? 34 then [backslash; quote]
  else if n =? 92 then [backslash; backslash]
  else if n =? 8 then [backslash; "b"%char]
  else if n =? 12 then [backslash; "f"%char]
  else if n =? 10 then [backslash; "n"%char]
  else if n =? 13 then [backslash; "r"%char]
  else if n =? 9 then [backslash; "t"%char]
  else if n <? 32 then
    [backslash; "u"%char; "0"%char; "0"%char; hex_chr (n / 16); hex_chr (n mod 16)]
  else [c].

Definition quote_chars (s : list ascii) : list ascii :=
  quote :: flat_map escape_char s ++ [quote].

Definition quote_string (s : string) : list ascii :=
  quote_chars (list_ascii_of_string s).

(** *** SerializeJSONProperty on JSON data, without gap *)

Fixpoint join (sep : ascii) (parts : list (list ascii)) : list ascii :=
  match parts with
  | [] => []
  | [p] => p
  | p :: ps => p ++ sep :: join sep ps
  end.

Fixpoint serialize (v : Json) : list ascii :=
  match v with
  | JNull => list_ascii_of_string "null"
  | JBool true => list_ascii_of_string "true"
  | JBool false => list_ascii_of_string "false"
  | JNum d => number_to_string d
  | JStr s => quote_string s
  | JArr l => "["%char :: join ","%char (map serialize l) ++ ["]"%char]
  | JObj ms =>
      "{"%char ::
        join ","%char
          (map (fun kv => quote_string (fst kv) ++ ":"%char :: serialize (snd kv)) ms)
        ++ ["}"%char]
  end.

Definition stringify (v : Json) : string :=
  string_of_list_ascii (serialize v).

(** *** JSON.parse *)

Definition skip_ws (s : list ascii) : list ascii :=
  snd (span is_json_space s).

(** UTF-8 bytes of the code point [cp]. *)
Definition utf8_encode (cp : Z) : list ascii :=
  if cp <? 128 then [chr cp]
  else if cp <? 2048 then
    [chr (192 + cp / 64); chr (128 + cp mod 64)]
  else if cp <? 65536 then
    [chr (224 + cp / 4096); chr (128 + (cp / 64) mod 64); chr (128 + cp mod 64)]
  else
    [chr (240 + cp / 262144); chr (128 + (cp / 4096) mod 64);
     chr (128 + (cp / 64) mod 64); chr (128 + cp mod 64)].

Definition hex4 (a b c d : ascii) : option Z :=
  match hex_val a, hex_val b, hex_val c, hex_val d with
  | Some x, Some y, Some z, Some w => Some (value_from 16 0 [x; y; z; w])
  | _, _, _, _ => None
  end.

Definition is_high_surrogate (u : Z) : bool := (55296 <=? u) && (u <? 56320).
Definition is_low_surrogate (u : Z) : bool := (56320 <=? u) && (u <? 57344).

Definition prepend (cs : list ascii) (r : option (list ascii * list ascii))
  : option (list ascii * list ascii) :=
  match r with
  | Some (s, rest) => Some (cs ++ s, rest)
  | None => None
  end.

(** The characters of a string literal after its opening quote, and the
    input after its closing quote. *)
Fixpoint parse_chars (s : list ascii) : option (list ascii * list ascii) :=
  match s with
  | [] => None
  | c :: r =>
      if code c =? 34 then Some ([], r)
      else if code c =? 92 then
        match r with
        | [] => None
        | e :: r1 =>
            if code e =? 117 then
              match r1 with
              | a :: b :: c' :: d :: r2 =>
                  match hex4 a b c' d with
                  | None => None
                  | Some u =>
                      if is_high_surrogate u then
                        (* a surrogate pair makes one code point *)
                        match r2 with
                        | b1 :: u1 :: a2 :: b2 :: c2 :: d2 :: r3 =>
                            match hex4 a2 b2 c2 d2 with
                            | Some l =>
                                if is_low_surrogate l
                                   && (code b1 =? 92) && (code u1 =? 117)
                                then
                                  prepend
                                    (utf8_encode
                                       (65536 + (u - 55296) * 1024 + (l - 56320)))
                                    (parse_chars r3)
                                else prepend (utf8_encode u) (parse_chars r2)
                            | None => prepend (utf8_encode u) (parse_chars r2)
                            end
                        | _ => prepend (utf8_encode u) (parse_chars r2)
                        end
                      else prepend (utf8_encode u) (parse_chars r2)
                  end
              | _ => None
              end
            else
              let plain (x : Z) := prepend [chr x] (parse_chars r1) in
              if code e =? 34 then plain 34
              else if code e =? 92 then plain 92
              else if code e =? 47 then plain 47
              else if code e =? 98 then plain 8
              else if code e =? 102 then plain 12
              else if code e =? 110 then plain 10
              else if code e =? 114 then plain 13
              else if code e =? 116 then plain 9
              else None
        end
      else if code c <? 32 then None
      else prepend [c] (parse_chars r)
  end.

Definition is_char (k : Z) (c : ascii) : bool := code c =? k.

(** ExponentPart, optional. *)
Definition parse_exponent (s : list ascii) : option (Z * list ascii) :=
  match s with
  | c :: r =>
      if is_char 101 c || is_char 69 c then
        let '(neg, r1) :=
          match r with
          | c' :: r' =>
              if is_char 43 c' then (false, r')
              else if is_char 45 c' then (true, r')
              else (false, r)
          | [] => (false, r)
          end in
        match span is_digit r1 with
        | ([], _) => None
        | (xs, r2) => Some (if neg then - dec_value xs else dec_value xs, r2)
        end
      else Some (0, s)
  | [] => Some (0, s)
  end.

(** Fraction, optional. *)
Definition parse_fraction (s : list ascii) : option (list ascii * list ascii) :=
  match s with
  | c :: r =>
      if is_char 46 c then
        match span is_digit r with
        | ([], _) => None
        | (fp, r') => Some (fp, r')
        end
      else Some ([], s)
  | [] => Some ([], s)
  end.

(** The integer part is [0] or starts with a non-zero digit. *)
Definition valid_int_part (ip : list ascii) : bool :=
  match ip with
  | [] => false
  | [_] => true
  | c :: _ => negb (is_char 48 c)
  end.

Definition parse_unsigned (s : list ascii) : option (decimal * list ascii) :=
  let '(ip, r1) := span is_digit s in
  if valid_int_part ip then
    match parse_fraction r1 with
    | Some (fp, r2) =>
        match parse_exponent r2 with
        | Some (x, r3) =>
            Some (mk_decimal (dec_value (ip ++ fp)) (x - Z.of_nat (length fp)), r3)
        | None => None
        end
    | None => None
    end
  else None.

Definition parse_number (s : list ascii) : option (decimal * list ascii) :=
  match s with
  | c :: r =>
      if is_char 45 c then
        match parse_unsigned r with
        | Some (d, r') => Some (negate d, r')
        | None => None
        end
      else parse_unsigned s
  | [] => None
  end.

(** A later member of the same name replaces the value of the earlier
    one, at the earlier one's place. *)
Fixpoint set_member (k : string) (v : Json) (ms : list (string * Json))
  : list (string * Json) :=
  match ms with
  | [] => [(k, v)]
  | (k', v') :: ms' =>
      if decide (k' = k) then (k', v) :: ms' else (k', v') :: set_member k v ms'
  end.

Definition object_of_members (ms : list (string * Json)) : Json :=
  JObj (fold_left (fun acc kv => set_member (fst kv) (snd kv) acc) ms []).

Fixpoint strip_prefix (p s : list ascii) : option (list ascii) :=
  match p, s with
  | [], _ => Some s
  | a :: p', b :: s' => if decide (a = b) then strip_prefix p' s' else None
  | _ :: _, [] => None
  end.

Definition keyword (kw : string) (v : Json) (s : list ascii)
  : option (Json * list ascii) :=
  match strip_prefix (list_ascii_of_string kw) s with
  | Some r => Some (v, r)
  | None => None
  end.

(** The grammar, one level at a time; the parsers of the levels below
    are parameters, and [parse_value] ties the knot with fuel. *)

Definition value_step
    (elements : list ascii -> option (list Json * list ascii))
    (members : list ascii -> option (list (string * Json) * list ascii))
    (s : list ascii) : option (Json * list ascii) :=
  match skip_ws s with
  | [] => None
  | c :: r =>
      if is_char 34 c then
        match parse_chars r with
        | Some (cs, r') => Some (JStr (string_of_list_ascii cs), r')
        | None => None
        end
      else if is_char 91 c then
        match skip_ws r with
        | [] => None
        | c' :: r' =>
            if is_char 93 c' then Some (JArr [], r')
            else
              match elements (c' :: r') with
              | Some (l, r'') => Some (JArr l, r'')
              | None => None
              end
        end
      else if is_char 123 c then
        match skip_ws r with
        | [] => None
        | c' :: r' =>
            if is_char 125 c' then Some (JObj [], r')
            else
              match members (c' :: r') with
              | Some (ms, r'') => Some (object_of_members ms, r'')
              | None => None
              end
        end
      else if is_char 110 c then keyword "null" JNull (c :: r)
      else if is_char 116 c then keyword "true" (JBool true) (c :: r)
      else if is_char 102 c then keyword "false" (JBool false) (c :: r)
      else
        match parse_number (c :: r) with
        | Some (d, r') => Some (JNum d, r')
        | None => None
        end
  end.

Definition elements_step
    (value : list ascii -> option (Json * list ascii))
    (elements : list ascii -> option (list Json * list ascii))
    (s : list ascii) : option (list Json * list ascii) :=
  match value s with
  | Some (v, r) =>
      match skip_ws r with
      | c :: r' =>
          if is_char 44 c then
            match elements r' with
            | Some (l, r'') => Some (v :: l, r'')
            | None => None
            end
          else if is_char 93 c then Some ([v], r')
          else None
      | [] => None
      end
  | None => None
  end.

Definition members_step
    (value : list ascii -> option (Json * list ascii))
    (members : list ascii -> option (list (string * Json) * list ascii))
    (s : list ascii) : option (list (string * Json) * list ascii) :=
  match skip_ws s with
  | c :: r =>
      if is_char 34 c then
        match parse_chars r with
        | Some (k, r1) =>
            match skip_ws r1 with
            | c1 :: r2 =>
                if is_char 58 c1 then
                  match value r2 with
                  | Some (v, r3) =>
                      let m := (string_of_list_ascii k, v) in
                      match skip_ws r3 with
                      | c3 :: r4 =>
                          if is_char 44 c3 then
                            match members r4 with
                            | Some (ms, r5) => Some (m :: ms, r5)
                            | None => None
                            end
                          else if is_char 125 c3 then Some ([m], r4)
                          else None
                      | [] => None
                      end
                  | None => None
                  end
                else None
            | [] => None
            end
        | None => None
        end
      else None
  | [] => None
  end.

Fixpoint parse_value (n : nat) (s : list ascii) {struct n}
  : option (Json * list ascii) :=
  match n with
  | O => None
  | S n' => value_step (parse_elements n') (parse_members n') s
  end
with parse_elements (n : nat) (s : list ascii) {struct n}
  : option (list Json * list ascii) :=
  match n with
  | O => None
  | S n' => elements_step (parse_value n') (parse_elements n') s
  end
with parse_members (n : nat) (s : list ascii) {struct n}
  : option (list (string * Json) * list ascii) :=
  match n with
  | O => None
  | S n' => members_step (parse_value n') (parse_members n') s
  end.

(** *** Auxiliary notions for the facts about [parse] *)

(** The input ends here, or goes on with a comma or a closing bracket:
    what follows a value inside a JSON text. *)
Definition delimited (rest : list ascii) : Prop :=
  match rest with
  | [] => True
  | c :: _ => code c = 44 \/ code c = 93 \/ code c = 125
  end.

(** The input does not go on with a character satisfying [p]. *)
Definition stops (p : ascii -> bool) (rest : list ascii) : Prop :=
  match rest with
  | [] => True
  | c :: _ => p c = false
  end.

(** Number of nodes of a value, a bound on the fuel [parse_value]
    needs for its text. *)
Fixpoint size (v : Json) : nat :=
  match v with
  | JArr l => S (list_sum (map (fun x => S (size x)) l))
  | JObj ms => S (list_sum (map (fun kv => S (size (snd kv))) ms))
  | _ => 1
  end.

(** A value as JavaScript has it: numbers in canonical form, and no
    object with two members of the same name. *)
Fixpoint well_formed (v : Json) : bool :=
  match v with
  | JNum d => canonical d
  | JArr l => forallb well_formed l
  | JObj ms =>
      bool_decide (NoDup (map fst ms))
      && forallb (fun kv => well_formed (snd kv)) ms
  | _ => true
  end.

(** [parse_value] with fuel [n] reads back the text of every
    well-formed value of size at most [n]. *)
Definition reads_back (n : nat) : Prop :=
  forall v rest,
    (size v <= n)%nat -> well_formed v = true -> delimited rest ->
    parse_value n (serialize v ++ rest) = Some (v, rest).

(** [JSON.parse text]: [None] stands for the SyntaxError it throws. *)
Definition parse (text : string) : option Json :=
  let s := list_ascii_of_string text in
  match parse_value (S (length s)) s with
  | Some (v, rest) =>
      match skip_ws rest with
      | [] => Some v
      | _ => None
      end
  | None => None
  end.

End JSON.

(** ** The SDK's shared types
    ([payment-provider.interface.ts], [payment-events.ts]) *)

Local Open Scope string_scope.
Local Open Scope list_scope.
Local Open Scope Z_scope.

Inductive PaymentMethod := WAVE | ORANGE_MONEY | CREDIT_CARD.

Inductive Currency := XOF.

(** The run-time value of a [Currency] member. *)
Definition Currency_value (c : Currency) : string :=
  match c with XOF => "XOF" end.

Inductive TransactionStatus := PENDING | SUCCESS | FAILED | CANCELLED.

Inductive PaymentEventType :=
| PAYMENT_INITIATED
| PAYMENT_SUCCESSFUL
| PAYMENT_FAILED
| PAYMENT_CANCELLED.

Module Customer.
Record t := {
  firstName : string;
  lastName : string;
  email : option string;
  phoneNumber : option string
}.
End Customer.

Module BasicCheckoutOptions.
Record t := {
  amount : Js.number;
  description : string;
  currency : Currency;
  transactionId : string;
  customer : Customer.t;
  metadata : option (gmap string JSON.Json);
  successRedirectUrl : option string;
  failureRedirectUrl : option string
}.
End BasicCheckoutOptions.

(** [WaveCheckoutOptions | OrangeMoneyCheckoutOptions]. *)
Inductive MobileMoneyCheckoutOptions :=
| WaveCheckout (basic : BasicCheckoutOptions.t)
| OrangeMoneyCheckout (basic : BasicCheckoutOptions.t) (authorizationCode : string).

Module CreditCardCheckoutOptions.
Record t := {
  basic : BasicCheckoutOptions.t;
  cardNumber : string;
  cardExpirationMonth : string;
  cardExpirationYear : string;
  cardCvv : string
}.
End CreditCardCheckoutOptions.

Module RedirectCheckoutOptions.
Record t := {
  amount : Js.number;
  description : string;
  currency : Currency;
  transactionId : string;
  customer : Customer.t;
  metadata : option (gmap string JSON.Json);
  paymentMethod : PaymentMethod;
  successRedirectUrl : string;
  failureRedirectUrl : string
}.
End RedirectCheckoutOptions.

Module MobileMoneyPayoutOptions.
Record t := {
  paymentMethod : PaymentMethod;
  amount : Js.number;
  currency : Currency;
  recipient_phoneNumber : string;
  transactionId : string;
  transactionReference : string;
  metadata : option (gmap string JSON.Json)
}.
End MobileMoneyPayoutOptions.

(** [CheckoutResult], [RefundResult] and [PayoutResult] have the same
    fields. *)
Module CheckoutResult.
Record t := {
  transactionId : string;
  transactionReference : string;
  transactionStatus : TransactionStatus;
  transactionAmount : Js.number;
  transactionCurrency : Currency;
  redirectUrl : option string
}.
End CheckoutResult.

Module HandleWebhookOptions.
Record t := {
  headers : option (gmap string string);
  providerName : option string
}.
End HandleWebhookOptions.

(** The canonical event: the object literal the providers build, with its
    [type] tag. Fields hold what the code stores in them at run time: the
    Paydunya provider copies [custom_data.transaction_id], of type [any]
    and possibly [undefined] ([None]), into [transactionId]; the Stripe
    provider casts [session.currency], a string or [null], to
    [Currency]. [redirectUrl], [reason] and [paymentProvider] are [None]
    where the literal has no such property. *)
Module PaymentEvent.
Record t := {
  type : PaymentEventType;
  transactionId : option JSON.Json;
  transactionReference : string;
  transactionAmount : Js.number;
  transactionCurrency : option string;
  paymentMethod : option PaymentMethod;
  metadata : option (gmap string JSON.Json);
  redirectUrl : option string;
  reason : option string;
  paymentProvider : option string
}.

(** The event carries a transaction id that is a non-empty string. *)
Definition has_transactionId (e : t) : Prop :=
  exists s, transactionId e = Some (JSON.JStr s) /\ s <> EmptyString.
End PaymentEvent.

(** Modelled from the spec: [payment-error.ts] is not among the sources.
    The spec (section 7) asks for "a distinguishable error condition";
    the members of [PaymentErrorType] are those the providers name, and
    [PaymentError] carries its message and its optional type tag as
    passed to [new PaymentError(message, type)]. *)
Inductive PaymentErrorType :=
| INVALID_AUTHORIZATION_CODE
| UNSUPPORTED_PAYMENT_METHOD
| INVALID_PHONE_NUMBER
| UNKNOWN_ERROR.

Inductive JsError :=
| PaymentError (message : string) (type : option PaymentErrorType)
| TypeError (message : string)
| OtherError (message : string).

(** ** Effects *)

Inductive Completion (A : Type) :=
| Normal (a : A)
| Throw (e : JsError).
Arguments Normal {A} a.
Arguments Throw {A} e.

(** What [await] makes of a settled promise. *)
Inductive Promise (A : Type) :=
| Fulfilled (a : A)
| Rejected (e : JsError).
Arguments Fulfilled {A} a.
Arguments Rejected {A} e.

Definition await {A} (c : Completion (Promise A)) : Completion A :=
  match c with
  | Normal (Fulfilled a) => Normal a
  | Normal (Rejected e) => Throw e
  | Throw e => Throw e
  end.

Inductive ConsoleLevel := Warn | Error.

(** The emitter handed to [useEventEmitter]; its subscribers are not part
    of the model. *)
Record EventEmitter2 := { emitter_name : string }.

Record World := {
  emitted : list (PaymentEventType * PaymentEvent.t);
  console : list (ConsoleLevel * string);
  digests : list string
}.

Definition World0 : World := {| emitted := []; console := []; digests := [] |}.

Definition M (A : Type) : Type := World -> Completion A * World.

Definition ret {A} (a : A) : M A := fun w => (Normal a, w).

Definition throw {A} (e : JsError) : M A := fun w => (Throw e, w).

Definition bind {A B} (m : M A) (k : A -> M B) : M B :=
  fun w =>
    match m w with
    | (Normal a, w') => k a w'
    | (Throw e, w') => (Throw e, w')
    end.

Notation "'let!' x ':=' m 'in' k" := (bind m (fun x => k))
  (at level 10, x name, m at level 100, k at level 200).
Notation "m ;;; k" := (bind m (fun _ => k))
  (at level 100, k at level 200, right associativity).

(** The world after more lines on the console, more deliveries to the
    emitter, one more digest. *)
Definition with_console (w : World) (lines : list (ConsoleLevel * string)) : World :=
  {| emitted := emitted w; console := console w ++ lines; digests := digests w |}.

Definition with_emitted (w : World)
    (events : list (PaymentEventType * PaymentEvent.t)) : World :=
  {| emitted := emitted w ++ events; console := console w; digests := digests w |}.

Definition with_digest (w : World) (data : string) : World :=
  {| emitted := emitted w; console := console w; digests := digests w ++ [data] |}.

(** [console.warn] and [console.error]. *)
Definition log (l : ConsoleLevel) (message : string) : M unit :=
  fun w => (Normal tt, with_console w [(l, message)]).

(** [this.eventEmitter?.emit(type, event)]. *)
Definition emit (eventEmitter : option EventEmitter2)
    (type : PaymentEventType) (event : PaymentEvent.t) : M unit :=
  fun w =>
    match eventEmitter with
    | Some _ => (Normal tt, with_emitted w [(type, event)])
    | None => (Normal tt, w)
    end.

(** [createHash(...).update(data).digest(...)] was run on [data]. *)
Definition record_digest (data : string) : M unit :=
  fun w => (Normal tt, with_digest w data).

(** Reading a property of [o], which throws when [o] is [undefined]. *)
Definition read_of {A} (o : option A) (property : string) : M A :=
  match o with
  | Some a => ret a
  | None =>
      throw (TypeError
               ("Cannot read properties of undefined (reading '" ++ property ++ "')")%string)
  end.

(** The part of the [PaymentProvider] interface both providers share. *)
Class PaymentProvider (P : Type) := {
  WebhookBody : Type;
  useEventEmitter : EventEmitter2 -> P -> P;
  handleWebhook : P -> WebhookBody -> HandleWebhookOptions.t -> M (option PaymentEvent.t)
}.

(** The value a webhook handler resolves to is the last event it handed to
    the emitter, and [null] when it handed over none. *)
Definition returns_last_emitted {P} `{PaymentProvider P} (p : P) : Prop :=
  forall body options w,
    exists events,
      emitted (snd (handleWebhook p body options w)) = emitted w ++ events
      /\ fst (handleWebhook p body options w) = Normal (last (snd <$> events)).

(** ** The Stripe provider *)

Module Stripe.

(** [Stripe.Checkout.Session], the fields the provider reads. *)
Module Session.
Record t := {
  id : string;
  url : option string;
  amount_total : option Js.number;
  currency : option string;
  metadata : option (gmap string string);
  payment_status : string
}.
End Session.

(** [Stripe.Event], with [data.object] read as a checkout session. *)
Module Event.
Record t := {
  type : string;
  data_object : Session.t
}.
End Event.

Module SessionCreateParams.
Record t := {
  customer_email : option string;
  payment_method_types : option (list string);
  price_data_currency : Currency;
  product_data_name : string;
  unit_amount : Js.number;
  quantity : Z;
  mode : string;
  success_url : string;
  cancel_url : string;
  metadata : gmap string string
}.
End SessionCreateParams.

(** The client of Stripe's library, as far as the provider calls it:
    [webhooks.constructEvent(rawBody, signature, secret)] returns the
    verified event or throws, [checkout.sessions.create(params)] returns
    the session or throws. The library also compares the time stamp of
    the signature with the clock, and Stripe's answer depends on the
    state of the account: a client stands for the library at the time
    of one call, and nothing is said of two calls in a row. *)
Record StripeClient := {
  webhooks_constructEvent : string -> string -> string -> Completion Event.t;
  checkout_sessions_create : SessionCreateParams.t -> Completion Session.t
}.

Record StripePaymentProviderConfig := {
  privateKey : string;
  webhookUrl : option string;
  config_webhookSecret : option string
}.

(** The provider at the time of a call. The constructor sets
    [webhookSecret] from the configuration, and [init] replaces it by the
    secret of the webhook endpoint it registers, if it registers one. *)
Record StripePaymentProvider := {
  config : StripePaymentProviderConfig;
  stripe : StripeClient;
  eventEmitter : option EventEmitter2;
  webhookSecret : option string
}.

(** [StripePaymentProvider.name], the name of the class. *)
Definition name : string := "StripePaymentProvider".

Definition useEventEmitter (e : EventEmitter2) (p : StripePaymentProvider)
  : StripePaymentProvider :=
  {| config := config p;
     stripe := stripe p;
     eventEmitter := Some e;
     webhookSecret := webhookSecret p |}.

Definition unsupported {A} (message : string) : Completion A :=
  Throw (PaymentError message (Some UNSUPPORTED_PAYMENT_METHOD)).

(** An [async] method whose body throws returns a rejected promise. *)
Definition async {A} (body : Completion A) : Completion (Promise A) :=
  match body with
  | Normal a => Normal (Fulfilled a)
  | Throw e => Normal (Rejected e)
  end.

Definition checkoutMobileMoney (p : StripePaymentProvider)
    (options : MobileMoneyCheckoutOptions)
  : Completion (Promise CheckoutResult.t) :=
  async (unsupported "Stripe does not support mobile money payments").

Definition checkoutCreditCard (p : StripePaymentProvider)
    (options : CreditCardCheckoutOptions.t)
  : Completion (Promise CheckoutResult.t) :=
  async (unsupported
           "Stripe does not support credit card payments. Use credit card tokens instead").

(** Not declared [async]: the error is thrown to the caller directly. *)
Definition payoutMobileMoney (p : StripePaymentProvider)
    (options : MobileMoneyPayoutOptions.t)
  : Completion (Promise CheckoutResult.t) :=
  unsupported "Stripe does not support mobile money payouts".

(** lodash's [mapValues(object, f)]; [mapValues] of [undefined] or
    [null] is the empty object. *)
Definition mapValues {A B} (object : option (gmap string A)) (f : A -> B)
  : gmap string B :=
  match object with
  | Some o => f <$> o
  | None => ∅
  end.

(** The [metadata] of the session [checkoutRedirect] creates. *)
Definition checkoutMetadata (options : RedirectCheckoutOptions.t)
  : gmap string string :=
  <["transactionId" := RedirectCheckoutOptions.transactionId options]>
    (mapValues (RedirectCheckoutOptions.metadata options) JSON.stringify).

Definition checkoutParams (options : RedirectCheckoutOptions.t)
  : SessionCreateParams.t :=
  {| SessionCreateParams.customer_email :=
       Customer.email (RedirectCheckoutOptions.customer options);
     SessionCreateParams.payment_method_types :=
       match RedirectCheckoutOptions.paymentMethod options with
       | CREDIT_CARD => Some ["card"]
       | _ => None
       end;
     SessionCreateParams.price_data_currency :=
       RedirectCheckoutOptions.currency options;
     SessionCreateParams.product_data_name :=
       RedirectCheckoutOptions.description options;
     SessionCreateParams.unit_amount := RedirectCheckoutOptions.amount options;
     SessionCreateParams.quantity := 1;
     SessionCreateParams.mode := "payment";
     SessionCreateParams.success_url :=
       RedirectCheckoutOptions.successRedirectUrl options;
     SessionCreateParams.cancel_url :=
       RedirectCheckoutOptions.failureRedirectUrl options;
     SessionCreateParams.metadata := checkoutMetadata options |}.

Definition checkoutRedirect (p : StripePaymentProvider)
    (options : RedirectCheckoutOptions.t) : Completion CheckoutResult.t :=
  match checkout_sessions_create (stripe p) (checkoutParams options) with
  | Throw e => Throw e
  | Normal checkoutSession =>
      match Session.url checkoutSession with
      | Some u =>
          if Js.truthy u then
            Normal
              {| CheckoutResult.transactionAmount :=
                   RedirectCheckoutOptions.amount options;
                 CheckoutResult.transactionCurrency :=
                   RedirectCheckoutOptions.currency options;
                 CheckoutResult.transactionId :=
                   RedirectCheckoutOptions.transactionId options;
                 CheckoutResult.transactionReference :=
                   Session.id checkoutSession;
                 CheckoutResult.transactionStatus := PENDING;
                 CheckoutResult.redirectUrl := Some u |}
          else
            Throw (PaymentError "Stripe did not return a checkout URL"
                     (Some UNKNOWN_ERROR))
      | None =>
          Throw (PaymentError "Stripe did not return a checkout URL"
                   (Some UNKNOWN_ERROR))
      end
  end.

(** [o?.[key]] when truthy: a present, non-empty string. *)
Definition truthy_entry (o : option (gmap string string)) (key : string)
  : option string :=
  match o with
  | Some m =>
      match m !! key with
      | Some s => if Js.truthy s then Some s else None
      | None => None
      end
  | None => None
  end.

Definition parseMetadata (metadata : option (gmap string string))
  : gmap string JSON.Json :=
  mapValues metadata
    (fun value =>
       match JSON.parse value with
       | Some v => v
       | None => JSON.JStr value
       end).

(** The object literal shared by the three events the handler builds. *)
Definition sessionEvent (type : PaymentEventType) (session : Session.t)
    (transactionId : string) (reason : option string) : PaymentEvent.t :=
  {| PaymentEvent.type := type;
     PaymentEvent.paymentMethod := Some CREDIT_CARD;
     PaymentEvent.transactionAmount :=
       Js.Number_of_nullable (Session.amount_total session);
     PaymentEvent.transactionCurrency := Session.currency session;
     PaymentEvent.transactionId := Some (JSON.JStr transactionId);
     PaymentEvent.transactionReference := Session.id session;
     PaymentEvent.metadata := Some (parseMetadata (Session.metadata session));
     PaymentEvent.redirectUrl := None;
     PaymentEvent.reason := reason;
     PaymentEvent.paymentProvider := Some name |}.

Definition emitSuccessfulPayment (p : StripePaymentProvider)
    (session : Session.t) : M (option PaymentEvent.t) :=
  match truthy_entry (Session.metadata session) "transactionId" with
  | None =>
      log Warn "No transaction ID found in stripe webhook" ;;;
      ret None
  | Some transactionId =>
      let paymentSuccessfulEvent :=
        sessionEvent PAYMENT_SUCCESSFUL session transactionId None in
      emit (eventEmitter p) PAYMENT_SUCCESSFUL paymentSuccessfulEvent ;;;
      ret (Some paymentSuccessfulEvent)
  end.

(** The handler after [constructEvent] has returned [event]. *)
Definition handleEvent (p : StripePaymentProvider) (event : Event.t)
  : M (option PaymentEvent.t) :=
  let session := Event.data_object event in
  if decide (Event.type event = "checkout.session.completed") then
    match truthy_entry (Session.metadata session) "transactionId" with
    | None =>
        log Warn "No transaction ID found in stripe webhook" ;;;
        ret None
    | Some transactionId =>
        let paymentInitiatedEvent :=
          sessionEvent PAYMENT_INITIATED session transactionId None in
        emit (eventEmitter p) PAYMENT_INITIATED paymentInitiatedEvent ;;;
        if decide (Session.payment_status session = "paid")
        then emitSuccessfulPayment p session
        else ret (Some paymentInitiatedEvent)
    end
  else if decide (Event.type event = "checkout.session.async_payment_succeeded") then
    emitSuccessfulPayment p session
  else if decide (Event.type event = "checkout.session.async_payment_failed") then
    match truthy_entry (Session.metadata session) "transactionId" with
    | None =>
        log Warn "No transaction ID found in stripe webhook" ;;;
        ret None
    | Some transactionId =>
        let paymentFailedEvent :=
          sessionEvent PAYMENT_FAILED session transactionId (Some "Payment failed") in
        emit (eventEmitter p) PAYMENT_FAILED paymentFailedEvent ;;;
        ret (Some paymentFailedEvent)
    end
  else ret None.

Definition handleWebhook (p : StripePaymentProvider) (rawBody : string)
    (options : HandleWebhookOptions.t) : M (option PaymentEvent.t) :=
  match truthy_entry (HandleWebhookOptions.headers options) "stripe-signature" with
  | None =>
      log Warn "No signature found in stripe webhook request" ;;;
      ret None
  | Some signature =>
      match webhookSecret p with
      | Some secret =>
          if Js.truthy secret then
            match webhooks_constructEvent (stripe p) rawBody signature secret with
            | Throw error =>
                log Warn "Error verifying stripe webhook signature" ;;;
                ret None
            | Normal event => handleEvent p event
            end
          else
            log Warn "No stripe webhook secret found" ;;;
            ret None
      | None =>
          log Warn "No stripe webhook secret found" ;;;
          ret None
      end
  end.

(** The request carries a signature, the provider has a secret, and
    [constructEvent] accepts the three and returns [event]. *)
Definition verified (p : StripePaymentProvider) (rawBody : string)
    (options : HandleWebhookOptions.t) (event : Event.t) : Prop :=
  exists signature secret,
    truthy_entry (HandleWebhookOptions.headers options) "stripe-signature"
    = Some signature
    /\ webhookSecret p = Some secret /\ Js.truthy secret = true
    /\ webhooks_constructEvent (stripe p) rawBody signature secret = Normal event.

(** What the handler does with a recognized event of a session that
    carries the transaction id: the events it hands to the emitter, in
    order. *)
Definition normalized (event : Event.t) (transactionId : string)
  : list (PaymentEventType * PaymentEvent.t) :=
  let session := Event.data_object event in
  let initiated :=
    (PAYMENT_INITIATED,
     sessionEvent PAYMENT_INITIATED session transactionId None) in
  let successful :=
    (PAYMENT_SUCCESSFUL,
     sessionEvent PAYMENT_SUCCESSFUL session transactionId None) in
  let failed :=
    (PAYMENT_FAILED,
     sessionEvent PAYMENT_FAILED session transactionId (Some "Payment failed")) in
  if decide (Event.type event = "checkout.session.completed") then
    if decide (Session.payment_status session = "paid")
    then [initiated; successful]
    else [initiated]
  else if decide (Event.type event = "checkout.session.async_payment_succeeded")
  then [successful]
  else if decide (Event.type event = "checkout.session.async_payment_failed")
  then [failed]
  else [].

(** The event types the handler acts on. *)
Definition recognized (type : string) : Prop :=
  type = "checkout.session.completed"
  \/ type = "checkout.session.async_payment_succeeded"
  \/ type = "checkout.session.async_payment_failed".

#[global] Instance provider : PaymentProvider StripePaymentProvider := {
  WebhookBody := string;
  useEventEmitter := useEventEmitter;
  handleWebhook := handleWebhook
}.

End Stripe.

(** ** The Paydunya provider ([providers/paydunya.ts]) *)

Module Paydunya.

Record PaydunyaPaymentProviderConfig := {
  masterKey : string;
  privateKey : string;
  publicKey : string;
  token : string;
  mode : string;
  store_name : string
}.

Module Invoice.
Record t := {
  token : string;
  total_amount : string;
  description : string
}.
End Invoice.

Module WebhookCustomer.
Record t := {
  name : string;
  phone : string;
  email : string;
  payment_method : string
}.
End WebhookCustomer.

(** [PaydunyaPaymentWebhookBody] as it arrives: the properties the
    handler reads. [hash] and the three nested objects are [None] when
    the body has no such property; the declared type has them all. *)
Module Body.
Record t := {
  response_code : string;
  response_text : string;
  hash : option string;
  invoice : option Invoice.t;
  custom_data : option (gmap string JSON.Json);
  status : string;
  customer : option WebhookCustomer.t
}.
End Body.

Record PaydunyaPaymentProvider := {
  config : PaydunyaPaymentProviderConfig;
  eventEmitter : option EventEmitter2;
  masterKeySha512Hash : string
}.

Section Constructor.
(** [createHash("sha512").update(data, "utf-8").digest("hex")] of
    Node's [crypto]. *)
Variable sha512_hex : string -> string.

Definition constructor (config : PaydunyaPaymentProviderConfig)
  : M PaydunyaPaymentProvider :=
  record_digest (masterKey config) ;;;
  ret {| config := config;
         eventEmitter := None;
         masterKeySha512Hash := sha512_hex (masterKey config) |}.
End Constructor.

Definition useEventEmitter (e : EventEmitter2) (p : PaydunyaPaymentProvider)
  : PaydunyaPaymentProvider :=
  {| config := config p;
     eventEmitter := Some e;
     masterKeySha512Hash := masterKeySha512Hash p |}.

Definition paymentMethod_of (payment_method : string) : option PaymentMethod :=
  if decide (payment_method = "wave_senegal") then Some WAVE
  else if decide (payment_method = "orange_money_senegal") then Some ORANGE_MONEY
  else None.

(** The object literal of the three events. *)
Definition eventLiteral (type : PaymentEventType)
    (paymentMethod : option PaymentMethod) (invoice : Invoice.t)
    (custom_data : gmap string JSON.Json) (reason : option string)
  : PaymentEvent.t :=
  {| PaymentEvent.type := type;
     PaymentEvent.paymentMethod := paymentMethod;
     PaymentEvent.transactionAmount :=
       Js.StringToNumber (Invoice.total_amount invoice);
     PaymentEvent.transactionCurrency := Some (Currency_value XOF);
     PaymentEvent.transactionId := custom_data !! "transaction_id";
     PaymentEvent.transactionReference := Invoice.token invoice;
     PaymentEvent.metadata := Some custom_data;
     PaymentEvent.redirectUrl := None;
     PaymentEvent.reason := reason;
     PaymentEvent.paymentProvider := None |}.

(** Its properties are evaluated in the order of the source:
    [body.invoice.total_amount] is read before
    [body.custom_data.transaction_id]. *)
Definition bodyEvent (type : PaymentEventType)
    (paymentMethod : option PaymentMethod) (body : Body.t)
    (reason : option string) : M PaymentEvent.t :=
  let! invoice := read_of (Body.invoice body) "total_amount" in
  let! custom_data := read_of (Body.custom_data body) "transaction_id" in
  ret (eventLiteral type paymentMethod invoice custom_data reason).

(** The handler after the two checks of the hash. Declared
    [Promise<void>]: every normal completion is [undefined]. *)
Definition handleVerified (p : PaydunyaPaymentProvider) (body : Body.t)
  : M (option PaymentEvent.t) :=
  let! customer := read_of (Body.customer body) "payment_method" in
  let paymentMethod :=
    paymentMethod_of (WebhookCustomer.payment_method customer) in
  if bool_decide (Body.status body = "completed")
     && bool_decide (Body.response_code body = "00") then
    let! paymentSuccessfulEvent :=
      bodyEvent PAYMENT_SUCCESSFUL paymentMethod body None in
    emit (eventEmitter p) PAYMENT_SUCCESSFUL paymentSuccessfulEvent ;;;
    ret None
  else if decide (Body.status body = "cancelled") then
    let! paymentCancelledEvent :=
      bodyEvent PAYMENT_CANCELLED paymentMethod body
        (Some (Body.response_text body)) in
    emit (eventEmitter p) PAYMENT_CANCELLED paymentCancelledEvent ;;;
    ret None
  else if decide (Body.status body = "failed") then
    let! paymentFailedEvent :=
      bodyEvent PAYMENT_FAILED paymentMethod body
        (Some (Body.response_text body)) in
    emit (eventEmitter p) PAYMENT_FAILED paymentFailedEvent ;;;
    ret None
  else ret None.

Definition handleWebhook (p : PaydunyaPaymentProvider) (body : Body.t)
  : M (option PaymentEvent.t) :=
  match Body.hash body with
  | Some hash =>
      if Js.truthy hash then
        if decide (hash <> masterKeySha512Hash p) then
          log Error "Invalid hash in Paydunya webhook body" ;;;
          ret None
        else handleVerified p body
      else
        log Error "Missing hash in Paydunya webhook body" ;;;
        ret None
  | None =>
      log Error "Missing hash in Paydunya webhook body" ;;;
      ret None
  end.

(** The body carries a non-empty hash equal to the cached digest. *)
Definition verified (p : PaydunyaPaymentProvider) (body : Body.t) : Prop :=
  exists hash,
    Body.hash body = Some hash /\ Js.truthy hash = true
    /\ hash = masterKeySha512Hash p.

(** The kind of event a status stands for, and the reason it carries. *)
Definition kind (body : Body.t) : option (PaymentEventType * option string) :=
  if bool_decide (Body.status body = "completed")
     && bool_decide (Body.response_code body = "00")
  then Some (PAYMENT_SUCCESSFUL, None)
  else if decide (Body.status body = "cancelled")
  then Some (PAYMENT_CANCELLED, Some (Body.response_text body))
  else if decide (Body.status body = "failed")
  then Some (PAYMENT_FAILED, Some (Body.response_text body))
  else None.

(** The statuses the handler acts on. *)
Definition recognized (body : Body.t) : Prop :=
  (Body.status body = "completed" /\ Body.response_code body = "00")
  \/ Body.status body = "cancelled"
  \/ Body.status body = "failed".

#[global] Instance provider : PaymentProvider PaydunyaPaymentProvider := {
  WebhookBody := Body.t;
  useEventEmitter := useEventEmitter;
  handleWebhook := fun p body _ => handleWebhook p body
}.

End Paydunya.

(** ** Concrete providers and webhooks, for the examples below *)

Module Examples.

(** Any function will do where a digest is called for: the provider only
    compares digests for equality. *)
Definition digest (data : string) : string := ("sha512:" ++ data)%string.

Definition emitter : EventEmitter2 := {| emitter_name := "payments" |}.

(** *** Stripe *)

(** A client whose [constructEvent] accepts the signature that equals
    the secret, and then returns [event]. *)
Definition client (event : Stripe.Event.t) : Stripe.StripeClient :=
  {| Stripe.webhooks_constructEvent :=
       fun rawBody signature secret =>
         if decide (signature = secret) then Normal event
         else Throw (OtherError "No signatures found matching the expected signature");
     Stripe.checkout_sessions_create :=
       fun params => Throw (OtherError "not connected") |}.

Definition stripe (event : Stripe.Event.t) : Stripe.StripePaymentProvider :=
  {| Stripe.config :=
       {| Stripe.privateKey := "sk_test";
          Stripe.webhookUrl := None;
          Stripe.config_webhookSecret := Some "whsec" |};
     Stripe.stripe := client event;
     Stripe.eventEmitter := Some emitter;
     Stripe.webhookSecret := Some "whsec" |}.

Definition signed : HandleWebhookOptions.t :=
  {| HandleWebhookOptions.headers := Some {[ "stripe-signature" := "whsec" ]};
     HandleWebhookOptions.providerName := None |}.

Definition session (payment_status : string) : Stripe.Session.t :=
  {| Stripe.Session.id := "cs_test_1";
     Stripe.Session.url := None;
     Stripe.Session.amount_total := Some (Js.of_Z 5000);
     Stripe.Session.currency := Some "XOF";
     Stripe.Session.metadata := Some {[ "transactionId" := "tx-42" ]};
     Stripe.Session.payment_status := payment_status |}.

Definition completed (payment_status : string) : Stripe.Event.t :=
  {| Stripe.Event.type := "checkout.session.completed";
     Stripe.Event.data_object := session payment_status |}.

Definition unsigned : HandleWebhookOptions.t :=
  {| HandleWebhookOptions.headers := None;
     HandleWebhookOptions.providerName := None |}.

(** A completed checkout whose session has no metadata. *)
Definition anonymous : Stripe.Event.t :=
  {| Stripe.Event.type := "checkout.session.completed";
     Stripe.Event.data_object :=
       {| Stripe.Session.id := "cs_test_2";
          Stripe.Session.url := None;
          Stripe.Session.amount_total := Some (Js.of_Z 5000);
          Stripe.Session.currency := Some "XOF";
          Stripe.Session.metadata := None;
          Stripe.Session.payment_status := "paid" |} |}.

Definition expired : Stripe.Event.t :=
  {| Stripe.Event.type := "checkout.session.expired";
     Stripe.Event.data_object := session "unpaid" |}.

Definition checkout (metadata : gmap string JSON.Json)
  : RedirectCheckoutOptions.t :=
  {| RedirectCheckoutOptions.amount := Js.of_Z 5000;
     RedirectCheckoutOptions.description := "Order";
     RedirectCheckoutOptions.currency := XOF;
     RedirectCheckoutOptions.transactionId := "tx-42";
     RedirectCheckoutOptions.customer :=
       {| Customer.firstName := "Awa";
          Customer.lastName := "Diop";
          Customer.email := None;
          Customer.phoneNumber := None |};
     RedirectCheckoutOptions.metadata := Some metadata;
     RedirectCheckoutOptions.paymentMethod := CREDIT_CARD;
     RedirectCheckoutOptions.successRedirectUrl := "https://shop.example/ok";
     RedirectCheckoutOptions.failureRedirectUrl := "https://shop.example/ko" |}.

(** The value [{a: 1}]. *)
Definition a_is_1 : JSON.Json := JSON.JObj [("a", JSON.JNum (Js.Dec 1 0))].

(** *** Paydunya *)

Definition paydunya : Paydunya.PaydunyaPaymentProvider :=
  {| Paydunya.config :=
       {| Paydunya.masterKey := "master-key";
          Paydunya.privateKey := "private";
          Paydunya.publicKey := "public";
          Paydunya.token := "token";
          Paydunya.mode := "test";
          Paydunya.store_name := "Shop" |};
     Paydunya.eventEmitter := Some emitter;
     Paydunya.masterKeySha512Hash := digest "master-key" |}.

Definition invoice : Paydunya.Invoice.t :=
  {| Paydunya.Invoice.token := "inv_1";
     Paydunya.Invoice.total_amount := "5000";
     Paydunya.Invoice.description := "Order" |}.

Definition wave_customer : Paydunya.WebhookCustomer.t :=
  {| Paydunya.WebhookCustomer.name := "Awa Diop";
     Paydunya.WebhookCustomer.phone := "770000000";
     Paydunya.WebhookCustomer.email := "awa@example.com";
     Paydunya.WebhookCustomer.payment_method := "wave_senegal" |}.

(** A body of the declared type, but for what the arguments say. *)
Definition body (hash : option string) (status : string)
    (custom_data : option (gmap string JSON.Json))
    (invoice : option Paydunya.Invoice.t)
    (customer : option Paydunya.WebhookCustomer.t) : Paydunya.Body.t :=
  {| Paydunya.Body.response_code := "00";
     Paydunya.Body.response_text := "Transaction Found";
     Paydunya.Body.hash := hash;
     Paydunya.Body.invoice := invoice;
     Paydunya.Body.custom_data := custom_data;
     Paydunya.Body.status := status;
     Paydunya.Body.customer := customer |}.

Definition tx42 : gmap string JSON.Json :=
  {[ "transaction_id" := JSON.JStr "tx-42" ]}.

End Examples.

(** ** Operations that call a provider's API *)

(** The body of an operation that also sends requests: it threads the
    [World] and the requests sent so far, oldest first. *)
Module Net.

Record t (R : Type) := make { world : World; sent : list R }.
Arguments make {R} world sent.
Arguments world {R} t.
Arguments sent {R} t.

Definition N (R A : Type) : Type := t R -> Completion A * t R.

Definition ret {R A} (a : A) : N R A := fun n => (Normal a, n).

Definition throw {R A} (e : JsError) : N R A := fun n => (Throw e, n).

Definition bind {R A B} (m : N R A) (k : A -> N R B) : N R B :=
  fun n =>
    match m n with
    | (Normal a, n') => k a n'
    | (Throw e, n') => (Throw e, n')
    end.

(** A computation on the world alone. *)
Definition lift {R A} (m : M A) : N R A :=
  fun n =>
    match m (world n) with
    | (c, w) => (c, make w (sent n))
    end.

(** [await] of a call: the request is sent, and the call completes as
    the other side decides. *)
Definition request {R A} (r : R) (response : Completion A) : N R A :=
  fun n => (response, make (world n) (sent n ++ [r])).

(** Nothing sent yet. *)
Definition start {R} (w : World) : t R := make w [].

End Net.

Notation "'let*' x ':=' m 'in' k" := (Net.bind m (fun x => k))
  (at level 10, x name, m at level 100, k at level 200).

(** ** The Stripe provider: set-up and refunds *)

Module StripeOperations.
Import Stripe.

(** [Stripe.WebhookEndpoint]; [secret] is only there on creation. *)
Module WebhookEndpoint.
Record t := {
  url : string;
  secret : option string
}.
End WebhookEndpoint.

Module WebhookEndpointCreateParams.
Record t := {
  enabled_events : list string;
  url : string
}.
End WebhookEndpointCreateParams.

(** [session.payment_intent] when it is not [null]: the id of the
    intent, or the expanded intent. *)
Inductive PaymentIntent :=
| IntentId (id : string)
| IntentObject (id : string).

(** The checkout session as [refund] reads it. *)
Module RetrievedSession.
Record t := {
  id : string;
  payment_intent : option PaymentIntent
}.
End RetrievedSession.

Module RefundCreateParams.
Record t := {
  payment_intent : string;
  amount : option Js.number;
  reason : string
}.
End RefundCreateParams.

Module Refund.
Record t := {
  id : string;
  amount : Js.number;
  currency : string
}.
End Refund.

Module RefundOptions.
Record t := {
  transactionId : string;
  refundedTransactionReference : string;
  refundedAmount : option Js.number;
  providerName : option string
}.
End RefundOptions.

(** [RefundResult] at run time: [transactionCurrency] holds the string
    [refund.currency], cast to [Currency]. *)
Module RefundResult.
Record t := {
  transactionId : string;
  transactionReference : string;
  transactionStatus : TransactionStatus;
  transactionAmount : Js.number;
  transactionCurrency : string
}.
End RefundResult.

(** The requests [init] and [refund] send to Stripe. *)
Inductive Call :=
| ListWebhookEndpoints
| CreateWebhookEndpoint (params : WebhookEndpointCreateParams.t)
| RetrieveSession (id : string)
| CreateRefund (params : RefundCreateParams.t).

(** Stripe's answers: [webhookEndpoints.list()], [webhookEndpoints.create],
    [checkout.sessions.retrieve] and [refunds.create] of the client. *)
Record Api := {
  webhookEndpoints_list : Completion (list WebhookEndpoint.t);
  webhookEndpoints_create :
    WebhookEndpointCreateParams.t -> Completion WebhookEndpoint.t;
  checkout_sessions_retrieve : string -> Completion (option RetrievedSession.t);
  refunds_create : RefundCreateParams.t -> Completion Refund.t
}.

(** The events [init] subscribes the endpoint to. *)
Definition enabled_events : list string :=
  [ "checkout.session.completed";
    "checkout.session.expired";
    "checkout.session.async_payment_succeeded";
    "checkout.session.async_payment_failed" ].

Definition with_webhookSecret (p : StripePaymentProvider)
    (secret : option string) : StripePaymentProvider :=
  {| config := config p;
     stripe := stripe p;
     eventEmitter := eventEmitter p;
     webhookSecret := secret |}.

(** [init]: the provider once the promise is fulfilled. *)
Definition init (api : Api) (p : StripePaymentProvider)
  : Net.N Call StripePaymentProvider :=
  match webhookUrl (config p) with
  | Some webhookUrl =>
      if Js.truthy webhookUrl then
        let* existingWebhooks :=
          Net.request ListWebhookEndpoints (webhookEndpoints_list api) in
        match
          find (fun webhook => bool_decide (WebhookEndpoint.url webhook = webhookUrl))
            existingWebhooks
        with
        | Some existingWebhook => Net.ret p
        | None =>
            let params :=
              {| WebhookEndpointCreateParams.enabled_events := enabled_events;
                 WebhookEndpointCreateParams.url := webhookUrl |} in
            let* installedWebhook :=
              Net.request (CreateWebhookEndpoint params)
                (webhookEndpoints_create api params) in
            Net.ret (with_webhookSecret p (WebhookEndpoint.secret installedWebhook))
        end
      else Net.ret p
  | None => Net.ret p
  end.

(** The constructor, followed until the promise of [init] has settled:
    [init] runs up to its first [await], the constructor stores the
    configured secret, and [init] goes on afterwards; when it fails the
    error is logged and the provider stays as constructed. *)
Definition constructor (client : StripeClient) (api : Api)
    (config : StripePaymentProviderConfig) : Net.N Call StripePaymentProvider :=
  let this :=
    {| Stripe.config := config;
       stripe := client;
       eventEmitter := None;
       webhookSecret := config_webhookSecret config |} in
  fun n =>
    match init api this n with
    | (Normal p, n') => (Normal p, n')
    | (Throw error, n') =>
        Net.lift (log Error "Error initializing stripe provider" ;;; ret this) n'
    end.

(** [isString(intent) ? intent : intent.id], for a truthy
    [payment_intent]; [null] and the empty string are falsy. *)
Definition intent_id (payment_intent : option PaymentIntent) : option string :=
  match payment_intent with
  | Some (IntentId id) => if Js.truthy id then Some id else None
  | Some (IntentObject id) => Some id
  | None => None
  end.

Definition refundParams (options : RefundOptions.t) (payment_intent : string)
  : RefundCreateParams.t :=
  {| RefundCreateParams.payment_intent := payment_intent;
     RefundCreateParams.amount := RefundOptions.refundedAmount options;
     RefundCreateParams.reason := "requested_by_customer" |}.

Definition refund (api : Api) (options : RefundOptions.t)
  : Net.N Call RefundResult.t :=
  let reference := RefundOptions.refundedTransactionReference options in
  let* checkoutSession :=
    Net.request (RetrieveSession reference) (checkout_sessions_retrieve api reference) in
  match checkoutSession with
  | None =>
      Net.throw
        (PaymentError ("No checkout session found with reference " ++ reference)%string
           (Some UNKNOWN_ERROR))
  | Some checkoutSession =>
      match intent_id (RetrievedSession.payment_intent checkoutSession) with
      | None =>
          Net.throw
            (PaymentError
               ("No payment intent found for checkout session "
                ++ RetrievedSession.id checkoutSession)%string
               (Some UNKNOWN_ERROR))
      | Some payment_intent =>
          let params := refundParams options payment_intent in
          let* refund := Net.request (CreateRefund params) (refunds_create api params) in
          Net.ret
            {| RefundResult.transactionAmount := Refund.amount refund;
               RefundResult.transactionCurrency := Refund.currency refund;
               RefundResult.transactionId := RefundOptions.transactionId options;
               RefundResult.transactionReference := Refund.id refund;
               RefundResult.transactionStatus := SUCCESS |}
      end
  end.

End StripeOperations.

(** ** The Paydunya provider: checkout *)

Module PaydunyaCheckout.
Import Paydunya.

(** The run-time value of a [PaymentMethod] member. *)
Definition PaymentMethod_value (m : PaymentMethod) : string :=
  match m with
  | WAVE => "WAVE"
  | ORANGE_MONEY => "ORANGE_MONEY"
  | CREDIT_CARD => "CREDIT_CARD"
  end.

(** [a === b] on [PaymentMethod]. *)
Definition same_method (a b : PaymentMethod) : bool :=
  match a, b with
  | WAVE, WAVE | ORANGE_MONEY, ORANGE_MONEY | CREDIT_CARD, CREDIT_CARD => true
  | _, _ => false
  end.

Module CheckoutCustomer.
Record t := {
  firstName : string;
  lastName : string;
  email : option string;
  phoneNumber : string
}.
End CheckoutCustomer.

(** [CheckoutOptions], the union of the three kinds of checkout:
    [authorizationCode] is there for Orange Money. *)
Module CheckoutOptions.
Record t := {
  amount : Js.number;
  description : string;
  currency : Currency;
  transactionId : string;
  customer : CheckoutCustomer.t;
  metadata : option (gmap string JSON.Json);
  paymentMethod : PaymentMethod;
  authorizationCode : option string
}.
End CheckoutOptions.

(** What the provider asks of a parsed phone number. *)
Module PhoneNumber.
Record t := {
  isValid : bool;
  isPossible : bool;
  nationalNumber : string
}.
End PhoneNumber.

(** The bodies of the three requests. *)
Inductive Request :=
| CreateInvoice (total_amount : Js.number) (description : string)
    (store_name : string) (custom_data : gmap string JSON.Json)
| WavePayment (wave_senegal_fullName wave_senegal_email wave_senegal_phone
                 wave_senegal_payment_token : string)
| OrangeMoneyPayment (customer_name customer_email phone_number : string)
    (authorization_code : option string) (invoice_token : string).

(** An object Paydunya answers with: the properties the provider reads,
    each [None] when the object has no such property, and the text
    [JSON.stringify] makes of the object. *)
Module ResponseData.
Record t := {
  response_code : option string;
  response_text : option string;
  token : option string;
  success : option bool;
  message : option string;
  url : option string;
  json : string
}.
End ResponseData.

(** [response.data]: what the body of the response was read as. It is
    [null] when there is no response or no body, a text when the body is
    not JSON (the page of a gateway, or the empty text), and otherwise
    the JSON value of the body. *)
Module Data.

Inductive t :=
| Null
| Boolean (b : bool)
| Number (d : Js.decimal)
| Text (s : string)
| Array (elements : list JSON.Json)
| Object (o : ResponseData.t).

(** [ToBoolean]. *)
Definition truthy (data : t) : bool :=
  match data with
  | Null => false
  | Boolean b => b
  | Number d => negb (Js.mant d =? 0)
  | Text s => Js.truthy s
  | Array _ | Object _ => true
  end.

(** [data?.property], and [data.property] on data that is not [null]:
    [undefined] unless [data] is an object that has the property. *)
Definition property {A} (read : ResponseData.t -> option A) (data : t) : option A :=
  match data with
  | Object o => read o
  | _ => None
  end.

(** [JSON.stringify(data)]. *)
Definition stringify (data : t) : string :=
  match data with
  | Null => JSON.stringify JSON.JNull
  | Boolean b => JSON.stringify (JSON.JBool b)
  | Number d => JSON.stringify (JSON.JNum d)
  | Text s => JSON.stringify (JSON.JStr s)
  | Array elements => JSON.stringify (JSON.JArr elements)
  | Object o => ResponseData.json o
  end.

(** [String(data)] for data that is [null], a boolean, a number or a
    text. *)
Definition to_text (data : t) : string :=
  match data with
  | Text s => s
  | _ => stringify data
  end.

(** [name in data ? data[name] : undefined]. The operator [in] throws a
    TypeError when its right operand is not an object; the text of the
    error is the engine's, here V8's. *)
Definition lookup {A} (name : string) (read : ResponseData.t -> option A)
    (data : t) : Completion (option A) :=
  match data with
  | Object o => Normal (read o)
  | Array _ => Normal None
  | _ =>
      Throw (TypeError
               ("Cannot use 'in' operator to search for '" ++ name ++ "' in "
                ++ to_text data)%string)
  end.

End Data.

(** apisauce's [ApiResponse]: [problem] is [null] on success, [status]
    is [null] when no response came. *)
Module ApiResponse.
Record t := {
  ok : bool;
  problem : option string;
  status : option Z;
  data : Data.t
}.
End ApiResponse.

(** What is outside the provider: [parsePhoneNumber(text, country)],
    which returns the parsed number or throws, and the answer of
    Paydunya to a request posted to [url]. *)
Record Environment := {
  parsePhoneNumber : string -> string -> Completion PhoneNumber.t;
  answer : string -> Request -> ApiResponse.t
}.

(** [String.prototype.endsWith]. *)
Definition endsWith (s suffix : string) : bool :=
  let s' := list_ascii_of_string s in
  let suffix' := list_ascii_of_string suffix in
  bool_decide (drop (length s' - length suffix') s' = suffix').

(** String concatenation with a value that may be [null] or
    [undefined]. *)
Definition text_or (absent : string) (o : option string) : string :=
  match o with
  | Some s => s
  | None => absent
  end.

Definition status_text (status : option Z) : string :=
  match status with
  | Some n => string_of_list_ascii (JSON.number_to_string (Js.Dec n 0))
  | None => "null"
  end.

Definition defaultErrorMessage (response : ApiResponse.t) : string :=
  ("Paydunya error: " ++ text_or "null" (ApiResponse.problem response)
   ++ ". Status: " ++ status_text (ApiResponse.status response)
   ++ ". Data: " ++ Data.stringify (ApiResponse.data response))%string.

(** The response transform the constructor installs. *)
Definition responseTransform (url : string) (response : ApiResponse.t)
  : Completion unit :=
  if endsWith url "/softpay/orange-money-senegal"
     && bool_decide (ApiResponse.status response = Some 422)
     && bool_decide
          (Data.property ResponseData.message (ApiResponse.data response)
           = Some "Invalid or expired OTP code!")
  then
    Throw (PaymentError "Invalid or expired OTP code!"
             (Some INVALID_AUTHORIZATION_CODE))
  else if negb (ApiResponse.ok response) then
    if Data.truthy (ApiResponse.data response) then
      match Data.lookup "message" ResponseData.message (ApiResponse.data response) with
      | Throw error => Throw error
      | Normal (Some message) => Throw (PaymentError message None)
      | Normal None =>
          match
            Data.lookup "response_text" ResponseData.response_text
              (ApiResponse.data response)
          with
          | Throw error => Throw error
          | Normal (Some response_text) => Throw (PaymentError response_text None)
          | Normal None => Throw (PaymentError (defaultErrorMessage response) None)
          end
      end
    else Throw (PaymentError (defaultErrorMessage response) None)
  else Normal tt.

(** [this.api.post(url, body)]: the request goes out, and the transform
    runs on the response before the caller sees it. *)
Definition post (env : Environment) (url : string) (request : Request)
  : Net.N (string * Request) ApiResponse.t :=
  let response := answer env url request in
  let* _ := Net.request (url, request) (responseTransform url response) in
  Net.ret response.

(** [{transaction_id: options.transactionId, ...options.metadata}]. *)
Definition customData (options : CheckoutOptions.t) : gmap string JSON.Json :=
  match CheckoutOptions.metadata options with
  | Some metadata => metadata
  | None => ∅
  end
  ∪ {[ "transaction_id" := JSON.JStr (CheckoutOptions.transactionId options) ]}.

Definition fullName (customer : CheckoutCustomer.t) : string :=
  string_of_list_ascii
    (Js.trim
       (list_ascii_of_string
          (CheckoutCustomer.firstName customer ++ " "
           ++ CheckoutCustomer.lastName customer)%string)).

Definition emailOrDefault (customer : CheckoutCustomer.t) : string :=
  match CheckoutCustomer.email customer with
  | Some email =>
      if Js.truthy email then email
      else (CheckoutCustomer.phoneNumber customer ++ "@yopmail.com")%string
  | None => (CheckoutCustomer.phoneNumber customer ++ "@yopmail.com")%string
  end.

(** The object [checkout] returns: a [CheckoutResult] with two more
    properties. *)
Module Result.
Record t := {
  success : bool;
  message : option string;
  transactionAmount : Js.number;
  transactionCurrency : Currency;
  transactionId : string;
  transactionReference : string;
  transactionStatus : TransactionStatus;
  redirectUrl : option string
}.
End Result.

Definition invoiceRequest (p : PaydunyaPaymentProvider)
    (options : CheckoutOptions.t) : Request :=
  CreateInvoice (CheckoutOptions.amount options)
    (CheckoutOptions.description options)
    (store_name (config p))
    (customData options).

Definition waveRequest (options : CheckoutOptions.t)
    (parsedCustomerPhoneNumber : PhoneNumber.t) (invoiceToken : string) : Request :=
  WavePayment (fullName (CheckoutOptions.customer options))
    (emailOrDefault (CheckoutOptions.customer options))
    (PhoneNumber.nationalNumber parsedCustomerPhoneNumber)
    invoiceToken.

Definition orangeMoneyRequest (options : CheckoutOptions.t)
    (parsedCustomerPhoneNumber : PhoneNumber.t) (invoiceToken : string) : Request :=
  OrangeMoneyPayment (fullName (CheckoutOptions.customer options))
    (emailOrDefault (CheckoutOptions.customer options))
    (PhoneNumber.nationalNumber parsedCustomerPhoneNumber)
    (CheckoutOptions.authorizationCode options)
    invoiceToken.

(** The two object literals at the end of [checkout]; [message] is
    [paydunyaPaymentResponse.message] and [redirectUrl] the value of
    ["url" in paydunyaPaymentResponse ? paydunyaPaymentResponse.url : undefined]. *)
Definition checkoutResult (options : CheckoutOptions.t) (invoiceToken : string)
    (message redirectUrl : option string) : Result.t :=
  {| Result.success := true;
     Result.message := message;
     Result.transactionAmount := CheckoutOptions.amount options;
     Result.transactionCurrency := CheckoutOptions.currency options;
     Result.transactionId := CheckoutOptions.transactionId options;
     Result.transactionReference := invoiceToken;
     Result.transactionStatus := PENDING;
     Result.redirectUrl := redirectUrl |}.

Definition paymentInitiatedEvent (options : CheckoutOptions.t)
    (invoiceToken : string) (redirectUrl : option string) : PaymentEvent.t :=
  {| PaymentEvent.type := PAYMENT_INITIATED;
     PaymentEvent.paymentMethod := Some (CheckoutOptions.paymentMethod options);
     PaymentEvent.transactionId :=
       Some (JSON.JStr (CheckoutOptions.transactionId options));
     PaymentEvent.transactionAmount := CheckoutOptions.amount options;
     PaymentEvent.transactionCurrency :=
       Some (Currency_value (CheckoutOptions.currency options));
     PaymentEvent.transactionReference := invoiceToken;
     PaymentEvent.redirectUrl := redirectUrl;
     PaymentEvent.metadata := CheckoutOptions.metadata options;
     PaymentEvent.reason := None;
     PaymentEvent.paymentProvider := None |}.

Definition paymentError {A} (message : string) : Net.N (string * Request) A :=
  Net.throw (PaymentError message None).

(** The payment request of [checkout], after the invoice: the value of
    [paydunyaPaymentResponse], which starts as [null]. *)
Definition requestPayment (env : Environment) (options : CheckoutOptions.t)
    (parsedCustomerPhoneNumber : PhoneNumber.t) (invoiceToken : string)
  : Net.N (string * Request) Data.t :=
  if same_method (CheckoutOptions.paymentMethod options) WAVE then
    let* paydunyaWaveResponse :=
      post env "/softpay/wave-senegal"
        (waveRequest options parsedCustomerPhoneNumber invoiceToken) in
    let waveData := ApiResponse.data paydunyaWaveResponse in
    if negb (Data.truthy waveData) then
      paymentError
        ("Paydunya error: "
         ++ text_or "null" (ApiResponse.problem paydunyaWaveResponse))%string
    else if negb (bool_decide (Data.property ResponseData.success waveData = Some true))
    then
      paymentError
        ("Paydunya error: "
         ++ text_or "undefined" (Data.property ResponseData.message waveData))%string
    else
      match Data.property ResponseData.url waveData with
      | Some (String _ _) => Net.ret waveData
      | _ =>
          paymentError
            ("Missing wave payment url in Paydunya response: "
             ++ text_or "undefined"
                  (Data.property ResponseData.message waveData))%string
      end
  else if same_method (CheckoutOptions.paymentMethod options) ORANGE_MONEY then
    let* paydunyaOrangeMoneyResponse :=
      post env "/softpay/orange-money-senegal"
        (orangeMoneyRequest options parsedCustomerPhoneNumber invoiceToken) in
    let orangeMoneyData := ApiResponse.data paydunyaOrangeMoneyResponse in
    if negb (Data.truthy orangeMoneyData) then
      paymentError
        ("Paydunya error: "
         ++ text_or "null" (ApiResponse.problem paydunyaOrangeMoneyResponse))%string
    else if negb (bool_decide
                    (Data.property ResponseData.success orangeMoneyData = Some true))
    then
      paymentError
        ("Paydunya error: "
         ++ text_or "undefined"
              (Data.property ResponseData.message orangeMoneyData))%string
    else Net.ret orangeMoneyData
  else Net.ret Data.Null.

(** The end of [checkout], once the payment has been requested. *)
Definition conclude (p : PaydunyaPaymentProvider) (options : CheckoutOptions.t)
    (invoiceToken : string) (paydunyaPaymentResponse : Data.t)
  : Net.N (string * Request) Result.t :=
  if negb (Data.truthy paydunyaPaymentResponse) then
    paymentError "Paydunya error: no payment response data"
  else
    match Data.lookup "url" ResponseData.url paydunyaPaymentResponse with
    | Throw error => Net.throw error
    | Normal redirectUrl =>
        let result :=
          checkoutResult options invoiceToken
            (Data.property ResponseData.message paydunyaPaymentResponse)
            redirectUrl in
        let paymentInitiatedEvent :=
          paymentInitiatedEvent options invoiceToken redirectUrl in
        let* _ :=
          Net.lift
            (emit (eventEmitter p) PAYMENT_INITIATED paymentInitiatedEvent) in
        Net.ret result
    end.

Definition checkout (env : Environment) (p : PaydunyaPaymentProvider)
    (options : CheckoutOptions.t) : Net.N (string * Request) Result.t :=
  let phoneNumber :=
    CheckoutCustomer.phoneNumber (CheckoutOptions.customer options) in
  if decide (Currency_value (CheckoutOptions.currency options) <> "XOF") then
    Net.throw
      (PaymentError
         ("Paydunya does not support the currency: "
          ++ Currency_value (CheckoutOptions.currency options))%string
         (Some UNSUPPORTED_PAYMENT_METHOD))
  else
    match parsePhoneNumber env phoneNumber "SN" with
    | Throw error => Net.throw error
    | Normal parsedCustomerPhoneNumber =>
        if negb (PhoneNumber.isValid parsedCustomerPhoneNumber) then
          Net.throw
            (PaymentError ("Invalid phone number: " ++ phoneNumber)%string
               (Some INVALID_PHONE_NUMBER))
        else if negb (PhoneNumber.isPossible parsedCustomerPhoneNumber) then
          Net.throw
            (PaymentError ("Phone number is not possible: " ++ phoneNumber)%string
               (Some INVALID_PHONE_NUMBER))
        else
          let* createInvoiceResponse :=
            post env "checkout-invoice/create" (invoiceRequest p options) in
          let invoiceData := ApiResponse.data createInvoiceResponse in
          if negb (Data.truthy invoiceData) then
            paymentError
              ("Paydunya error: "
               ++ text_or "null" (ApiResponse.problem createInvoiceResponse))%string
          else if decide (Data.property ResponseData.response_code invoiceData
                          <> Some "00")
          then
            paymentError
              ("Paydunya error: "
               ++ text_or "undefined"
                    (Data.property ResponseData.response_text invoiceData))%string
          else
            match Data.lookup "token" ResponseData.token invoiceData with
            | Throw error => Net.throw error
            | Normal None =>
                paymentError
                  ("Missing invoice token in Paydunya response: "
                   ++ text_or "undefined"
                        (Data.property ResponseData.response_text invoiceData))%string
            | Normal (Some invoiceToken) =>
                if negb (same_method (CheckoutOptions.paymentMethod options) WAVE)
                   && negb (same_method (CheckoutOptions.paymentMethod options)
                              ORANGE_MONEY)
                then
                  Net.throw
                    (PaymentError
                       ("Paydunya does not support the payment method: "
                        ++ PaymentMethod_value
                             (CheckoutOptions.paymentMethod options))%string
                       (Some UNSUPPORTED_PAYMENT_METHOD))
                else
                  let* paydunyaPaymentResponse :=
                    requestPayment env options parsedCustomerPhoneNumber
                      invoiceToken in
                  conclude p options invoiceToken paydunyaPaymentResponse
            end
    end.

End PaydunyaCheckout.

(** ** The Paydunya provider, earlier revision of the webhook handler *)

Module PaydunyaEarlier.
Import Paydunya.

(** The handler after the two checks of the hash: it acts on completed
    payments only, and reads [body.customer] only then. *)
Definition handleVerified (p : PaydunyaPaymentProvider) (body : Body.t)
  : M (option PaymentEvent.t) :=
  if bool_decide (Body.status body = "completed")
     && bool_decide (Body.response_code body = "00") then
    let! customer := read_of (Body.customer body) "payment_method" in
    match paymentMethod_of (WebhookCustomer.payment_method customer) with
    | None =>
        log Error
          ("Unknown payment method: " ++ WebhookCustomer.payment_method customer)%string ;;;
        ret None
    | Some paymentMethod =>
        let! paymentSuccessfulEvent :=
          bodyEvent PAYMENT_SUCCESSFUL (Some paymentMethod) body None in
        emit (eventEmitter p) PAYMENT_SUCCESSFUL paymentSuccessfulEvent ;;;
        ret None
    end
  else ret None.

Definition handleWebhook (p : PaydunyaPaymentProvider) (body : Body.t)
  : M (option PaymentEvent.t) :=
  match Body.hash body with
  | Some hash =>
      if Js.truthy hash then
        if decide (hash <> masterKeySha512Hash p) then
          log Error "Invalid hash in Paydunya webhook body" ;;;
          ret None
        else handleVerified p body
      else
        log Error "Missing hash in Paydunya webhook body" ;;;
        ret None
  | None =>
      log Error "Missing hash in Paydunya webhook body" ;;;
      ret None
  end.

End PaydunyaEarlier.

(** ** Concrete clients and answers, for the examples below *)

Module Scenarios.

(** *** Stripe *)

(** A client connected to a Stripe that opens the session [session]. *)
Definition checkout_client (session : Stripe.Session.t) : Stripe.StripeClient :=
  {| Stripe.webhooks_constructEvent :=
       Stripe.webhooks_constructEvent (Examples.client Examples.expired);
     Stripe.checkout_sessions_create := fun params => Normal session |}.

Definition checkout_provider (session : Stripe.Session.t)
  : Stripe.StripePaymentProvider :=
  {| Stripe.config := Stripe.config (Examples.stripe Examples.expired);
     Stripe.stripe := checkout_client session;
     Stripe.eventEmitter := None;
     Stripe.webhookSecret := Some "whsec" |}.

(** The session Stripe opens for the checkout of [Examples.checkout]. *)
Definition opened (metadata : gmap string JSON.Json) : Stripe.Session.t :=
  {| Stripe.Session.id := "cs_test_3";
     Stripe.Session.url := Some "https://checkout.stripe.com/c/pay/cs_test_3";
     Stripe.Session.amount_total := Some (Js.of_Z 5000);
     Stripe.Session.currency := Some "xof";
     Stripe.Session.metadata :=
       Some (Stripe.checkoutMetadata (Examples.checkout metadata));
     Stripe.Session.payment_status := "unpaid" |}.

Definition event_of (type : string) (session : Stripe.Session.t) : Stripe.Event.t :=
  {| Stripe.Event.type := type; Stripe.Event.data_object := session |}.

(** A Stripe that lists [endpoints], installs any endpoint it is asked
    for, finds [session] under every reference and refunds what it is
    asked to, or 5000 when no amount is given. *)
Definition api (endpoints : list StripeOperations.WebhookEndpoint.t)
    (session : option StripeOperations.RetrievedSession.t) : StripeOperations.Api :=
  {| StripeOperations.webhookEndpoints_list := Normal endpoints;
     StripeOperations.webhookEndpoints_create :=
       fun params =>
         Normal
           {| StripeOperations.WebhookEndpoint.url :=
                StripeOperations.WebhookEndpointCreateParams.url params;
              StripeOperations.WebhookEndpoint.secret := Some "whsec_installed" |};
     StripeOperations.checkout_sessions_retrieve := fun id => Normal session;
     StripeOperations.refunds_create :=
       fun params =>
         Normal
           {| StripeOperations.Refund.id := "re_1";
              StripeOperations.Refund.amount :=
                match StripeOperations.RefundCreateParams.amount params with
                | Some amount => amount
                | None => Js.of_Z 5000
                end;
              StripeOperations.Refund.currency := "xof" |} |}.

Definition hooked (secret : option string) : Stripe.StripePaymentProviderConfig :=
  {| Stripe.privateKey := "sk_test";
     Stripe.webhookUrl := Some "https://shop.example/webhooks/stripe";
     Stripe.config_webhookSecret := secret |}.

Definition endpoint : StripeOperations.WebhookEndpoint.t :=
  {| StripeOperations.WebhookEndpoint.url := "https://shop.example/webhooks/stripe";
     StripeOperations.WebhookEndpoint.secret := None |}.

Definition paid_session : StripeOperations.RetrievedSession.t :=
  {| StripeOperations.RetrievedSession.id := "cs_test_1";
     StripeOperations.RetrievedSession.payment_intent :=
       Some (StripeOperations.IntentObject "pi_1") |}.

Definition refund_of (amount : option Js.number) : StripeOperations.RefundOptions.t :=
  {| StripeOperations.RefundOptions.transactionId := "tx-43";
     StripeOperations.RefundOptions.refundedTransactionReference := "cs_test_1";
     StripeOperations.RefundOptions.refundedAmount := amount;
     StripeOperations.RefundOptions.providerName := None |}.

(** *** Paydunya *)

(** A verified body of the declared shape with the status "completed"
    and a response code other than "00". *)
Definition declined : Paydunya.Body.t :=
  {| Paydunya.Body.response_code := "05";
     Paydunya.Body.response_text := "Declined";
     Paydunya.Body.hash := Some (Examples.digest "master-key");
     Paydunya.Body.invoice := Some Examples.invoice;
     Paydunya.Body.custom_data := Some Examples.tx42;
     Paydunya.Body.status := "completed";
     Paydunya.Body.customer := Some Examples.wave_customer |}.

Definition parsed (isValid : bool) : PaydunyaCheckout.PhoneNumber.t :=
  {| PaydunyaCheckout.PhoneNumber.isValid := isValid;
     PaydunyaCheckout.PhoneNumber.isPossible := true;
     PaydunyaCheckout.PhoneNumber.nationalNumber := "770000000" |}.

Definition invoice_data : PaydunyaCheckout.ResponseData.t :=
  {| PaydunyaCheckout.ResponseData.response_code := Some "00";
     PaydunyaCheckout.ResponseData.response_text := Some "Checkout Invoice Created";
     PaydunyaCheckout.ResponseData.token := Some "inv_1";
     PaydunyaCheckout.ResponseData.success := None;
     PaydunyaCheckout.ResponseData.message := None;
     PaydunyaCheckout.ResponseData.url := None;
     PaydunyaCheckout.ResponseData.json :=
       JSON.stringify
         (JSON.JObj [("response_code", JSON.JStr "00");
                     ("response_text", JSON.JStr "Checkout Invoice Created");
                     ("token", JSON.JStr "inv_1")]) |}.

(** The invoice "inv_1" has been created. *)
Definition invoice_created : PaydunyaCheckout.ApiResponse.t :=
  {| PaydunyaCheckout.ApiResponse.ok := true;
     PaydunyaCheckout.ApiResponse.problem := None;
     PaydunyaCheckout.ApiResponse.status := Some 200;
     PaydunyaCheckout.ApiResponse.data := PaydunyaCheckout.Data.Object invoice_data |}.

Definition wave_data : PaydunyaCheckout.ResponseData.t :=
  {| PaydunyaCheckout.ResponseData.response_code := None;
     PaydunyaCheckout.ResponseData.response_text := None;
     PaydunyaCheckout.ResponseData.token := None;
     PaydunyaCheckout.ResponseData.success := Some true;
     PaydunyaCheckout.ResponseData.message := Some "Payment initiated";
     PaydunyaCheckout.ResponseData.url := Some "https://pay.wave.com/c/1";
     PaydunyaCheckout.ResponseData.json :=
       JSON.stringify
         (JSON.JObj [("success", JSON.JBool true);
                     ("message", JSON.JStr "Payment initiated");
                     ("url", JSON.JStr "https://pay.wave.com/c/1")]) |}.

(** The payment has been accepted, with a URL to redirect to. *)
Definition payment_accepted : PaydunyaCheckout.ApiResponse.t :=
  {| PaydunyaCheckout.ApiResponse.ok := true;
     PaydunyaCheckout.ApiResponse.problem := None;
     PaydunyaCheckout.ApiResponse.status := Some 200;
     PaydunyaCheckout.ApiResponse.data := PaydunyaCheckout.Data.Object wave_data |}.

(** The one-time code of Orange Money has been refused. *)
Definition otp_refused : PaydunyaCheckout.ApiResponse.t :=
  {| PaydunyaCheckout.ApiResponse.ok := false;
     PaydunyaCheckout.ApiResponse.problem := Some "CLIENT_ERROR";
     PaydunyaCheckout.ApiResponse.status := Some 422;
     PaydunyaCheckout.ApiResponse.data :=
       PaydunyaCheckout.Data.Object
         {| PaydunyaCheckout.ResponseData.response_code := None;
            PaydunyaCheckout.ResponseData.response_text := None;
            PaydunyaCheckout.ResponseData.token := None;
            PaydunyaCheckout.ResponseData.success := Some false;
            PaydunyaCheckout.ResponseData.message :=
              Some "Invalid or expired OTP code!";
            PaydunyaCheckout.ResponseData.url := None;
            PaydunyaCheckout.ResponseData.json :=
              JSON.stringify
                (JSON.JObj [("success", JSON.JBool false);
                            ("message", JSON.JStr "Invalid or expired OTP code!")]) |} |}.

(** Paydunya is down: the gateway answers 503 with [data]. *)
Definition unavailable (data : PaydunyaCheckout.Data.t) : PaydunyaCheckout.ApiResponse.t :=
  {| PaydunyaCheckout.ApiResponse.ok := false;
     PaydunyaCheckout.ApiResponse.problem := Some "SERVER_ERROR";
     PaydunyaCheckout.ApiResponse.status := Some 503;
     PaydunyaCheckout.ApiResponse.data := data |}.

(** An environment where phone numbers parse to [parsed isValid], and
    Paydunya answers [invoice] to the creation of an invoice and
    [payment] to a payment request. *)
Definition environment (isValid : bool)
    (invoice payment : PaydunyaCheckout.ApiResponse.t)
  : PaydunyaCheckout.Environment :=
  {| PaydunyaCheckout.parsePhoneNumber := fun text country => Normal (parsed isValid);
     PaydunyaCheckout.answer :=
       fun url request =>
         match request with
         | PaydunyaCheckout.CreateInvoice _ _ _ _ => invoice
         | _ => payment
         end |}.

Definition mobile_checkout (paymentMethod : PaymentMethod)
    (metadata : option (gmap string JSON.Json)) : PaydunyaCheckout.CheckoutOptions.t :=
  {| PaydunyaCheckout.CheckoutOptions.amount := Js.of_Z 5000;
     PaydunyaCheckout.CheckoutOptions.description := "Order";
     PaydunyaCheckout.CheckoutOptions.currency := XOF;
     PaydunyaCheckout.CheckoutOptions.transactionId := "tx-42";
     PaydunyaCheckout.CheckoutOptions.customer :=
       {| PaydunyaCheckout.CheckoutCustomer.firstName := "Awa";
          PaydunyaCheckout.CheckoutCustomer.lastName := "Diop";
          PaydunyaCheckout.CheckoutCustomer.email := None;
          PaydunyaCheckout.CheckoutCustomer.phoneNumber := "+221770000000" |};
     PaydunyaCheckout.CheckoutOptions.metadata := metadata;
     PaydunyaCheckout.CheckoutOptions.paymentMethod := paymentMethod;
     PaydunyaCheckout.CheckoutOptions.authorizationCode := Some "123456" |}.

(** A verified, completed body of the declared shape whose total
    amount is written with leading zeros. *)
Definition padded_invoice : Paydunya.Invoice.t :=
  {| Paydunya.Invoice.token := "inv_2";
     Paydunya.Invoice.total_amount := "007500";
     Paydunya.Invoice.description := "Order" |}.

Definition padded_body : Paydunya.Body.t :=
  Examples.body (Some (Examples.digest "master-key")) "completed"
    (Some Examples.tx42) (Some padded_invoice) (Some Examples.wave_customer).

Definition card_customer : Paydunya.WebhookCustomer.t :=
  {| Paydunya.WebhookCustomer.name := "Awa Diop";
     Paydunya.WebhookCustomer.phone := "770000000";
     Paydunya.WebhookCustomer.email := "awa@example.com";
     Paydunya.WebhookCustomer.payment_method := "card" |}.

(** A verified, completed body of the declared shape paid by card. *)
Definition card_body : Paydunya.Body.t :=
  Examples.body (Some (Examples.digest "master-key")) "completed"
    (Some Examples.tx42) (Some Examples.invoice) (Some card_customer).

End Scenarios.

(** ** Tactics *)

(** Texts are compared as right-nested concatenations. *)
Ltac flatten_text :=
  repeat (rewrite <- app_assoc || rewrite <- app_comm_cons || rewrite app_nil_l).

(** One step of a case analysis on what a computation branches on. *)
Ltac branch :=
  match goal with
  | |- context [match ?x with _ => _ end] =>
      lazymatch x with
      | context [match _ with _ => _ end] => fail
      | _ => destruct x eqn:?
      end
  end.

(** * Properties *)

(** ** Characters and digit strings *)

Module CharFacts.
Import Chars.

Lemma code_bounds c : 0 <= code c < 256.
Proof.
  unfold code. pose proof (N_ascii_bounded c). lia.
Qed.

Lemma code_chr n : 0 <= n < 256 -> code (chr n) = n.
Proof.
  intros H. unfold code, chr.
  rewrite N_ascii_embedding by lia. lia.
Qed.

Lemma chr_code c : chr (code c) = c.
Proof.
  unfold code, chr. rewrite N2Z.id. apply ascii_N_embedding.
Qed.

Lemma code_digit_chr d : 0 <= d <= 9 -> code (digit_chr d) = 48 + d.
Proof. intros H. unfold digit_chr. apply code_chr. lia. Qed.

Lemma is_digit_code c : is_digit c = true <-> 48 <= code c <= 57.
Proof. unfold is_digit, in_range. lia. Qed.

Lemma is_digit_digit_chr d : 0 <= d <= 9 -> is_digit (digit_chr d) = true.
Proof. intros H. apply is_digit_code. rewrite code_digit_chr; lia. Qed.

Lemma digit_val_digit_chr d : 0 <= d <= 9 -> digit_val (digit_chr d) = d.
Proof. intros H. unfold digit_val. rewrite code_digit_chr; lia. Qed.

Lemma value_from_acc base ds : forall acc,
  value_from base acc ds
  = acc * base ^ Z.of_nat (length ds) + value_from base 0 ds.
Proof.
  induction ds as [|d ds IH]; intros acc; simpl length; simpl value_from.
  - rewrite Z.pow_0_r. lia.
  - rewrite IH, (IH (base * 0 + d)).
    rewrite Nat2Z.inj_succ, Z.pow_succ_r by lia. ring.
Qed.

Lemma value_from_app base l1 : forall l2 acc,
  value_from base acc (l1 ++ l2) = value_from base (value_from base acc l1) l2.
Proof.
  induction l1 as [|d l1 IH]; intros l2 acc; [reflexivity|].
  simpl. apply IH.
Qed.

Lemma dec_value_app a b :
  dec_value (a ++ b) = dec_value a * 10 ^ Z.of_nat (length b) + dec_value b.
Proof.
  unfold dec_value. rewrite map_app, value_from_app, value_from_acc.
  rewrite length_map. reflexivity.
Qed.

Lemma dec_value_snoc a c : dec_value (a ++ [c]) = 10 * dec_value a + digit_val c.
Proof. rewrite dec_value_app. unfold dec_value at 2. simpl. lia. Qed.

Lemma dec_value_repeat n s : dec_value (repeat "0"%char n ++ s) = dec_value s.
Proof.
  induction n as [|n IH]; [reflexivity|].
  simpl repeat. rewrite <- app_comm_cons.
  change (dec_value ("0"%char :: repeat "0"%char n ++ s))
    with (value_from 10 (10 * 0 + 0) (map digit_val (repeat "0"%char n ++ s))).
  exact IH.
Qed.

Lemma dec_value_zeros k s : dec_value (zeros k ++ s) = dec_value s.
Proof. apply dec_value_repeat. Qed.

Lemma all_digits_repeat n : Forall (fun c => is_digit c = true) (repeat "0"%char n).
Proof. induction n; simpl; constructor; auto. Qed.

Lemma code_48 c : code c = 48 -> c = "0"%char.
Proof. intros H. rewrite <- (chr_code c), H. reflexivity. Qed.

Lemma strip_zeros_rev_spec r :
  exists k, r = repeat "0"%char k ++ strip_zeros_rev r
            /\ match strip_zeros_rev r with
               | c :: _ => code c <> 48
               | [] => True
               end.
Proof.
  induction r as [|c r (k & Heq & Hhd)].
  - exists O. split; [reflexivity|exact I].
  - simpl. destruct (Z.eqb_spec (code c) 48) as [H48|Hne].
    + exists (S k). split; [|exact Hhd].
      simpl. rewrite (code_48 c H48). f_equal. exact Heq.
    + exists O. split; [reflexivity|exact Hne].
Qed.

Lemma rev_repeat_zero k : rev (repeat "0"%char k) = repeat "0"%char k.
Proof.
  induction k as [|k IH]; [reflexivity|].
  simpl. rewrite IH. symmetry. apply repeat_cons.
Qed.

Lemma strip_trailing_zeros_spec ds :
  exists k, ds = strip_trailing_zeros ds ++ repeat "0"%char k
            /\ match last (strip_trailing_zeros ds) with
               | Some c => code c <> 48
               | None => True
               end.
Proof.
  unfold strip_trailing_zeros.
  destruct (strip_zeros_rev_spec (rev ds)) as (k & Heq & Hhd).
  exists k. split.
  - rewrite <- (rev_involutive ds) at 1.
    rewrite Heq at 1. rewrite rev_app_distr, rev_repeat_zero. reflexivity.
  - destruct (strip_zeros_rev (rev ds)) as [|c r]; [exact I|].
    simpl rev. rewrite last_snoc. exact Hhd.
Qed.

Lemma dec_value_nonneg s : Forall (fun c => is_digit c = true) s -> 0 <= dec_value s.
Proof.
  induction s as [|c s IH] using rev_ind; intros H.
  - unfold dec_value. simpl. lia.
  - apply Forall_app in H as [Hs Hc]. inversion Hc as [|? ? Hd _]; subst.
    rewrite dec_value_snoc. specialize (IH Hs).
    apply is_digit_code in Hd. unfold digit_val. lia.
Qed.

Lemma single_digit n : 0 <= n < 10 -> digits_of n [digit_chr (n mod 10)].
Proof.
  intros H. rewrite Z.mod_small by lia.
  split.
  - repeat constructor. apply is_digit_digit_chr. lia.
  - unfold dec_value. simpl. rewrite digit_val_digit_chr; lia.
  - intros Hp. rewrite code_digit_chr; lia.
  - simpl. rewrite Z.mod_small by lia. reflexivity.
Qed.

Lemma digits_fuel_spec f : forall n acc,
  0 <= n < 10 ^ Z.of_nat (S f) ->
  exists ds, digits_fuel (S f) n acc = ds ++ acc /\ digits_of n ds.
Proof.
  induction f as [|f IH]; intros n acc Hn.
  - change (10 ^ Z.of_nat 1) with 10 in Hn.
    exists [digit_chr (n mod 10)]. simpl digits_fuel.
    destruct (Z.ltb_spec n 10); [|lia].
    split; [reflexivity|].
    apply single_digit. lia.
  - simpl digits_fuel. destruct (Z.ltb_spec n 10) as [Hlt|Hge].
    + exists [digit_chr (n mod 10)]. split; [reflexivity|].
      apply single_digit. lia.
    + assert (Hq : 0 <= n / 10 < 10 ^ Z.of_nat (S f)).
      { rewrite Nat2Z.inj_succ, Z.pow_succ_r in Hn by lia.
        split; [apply Z.div_pos; lia|].
        apply Z.div_lt_upper_bound; lia. }
      destruct (IH (n / 10) (digit_chr (n mod 10) :: acc) Hq)
        as (ds & Heq & Hds).
      exists (ds ++ [digit_chr (n mod 10)]).
      split.
      { change (digits_fuel (S f) (n / 10) (digit_chr (n mod 10) :: acc)
                = (ds ++ [digit_chr (n mod 10)]) ++ acc).
        rewrite Heq, <- app_assoc. reflexivity. }
      pose proof (Z.mod_pos_bound n 10 ltac:(lia)) as Hm.
      destruct Hds as [Hall Hval Hhead Hlast].
      split.
      * apply Forall_app. split; [exact Hall|].
        repeat constructor. apply is_digit_digit_chr. lia.
      * rewrite dec_value_snoc, Hval, digit_val_digit_chr by lia.
        pose proof (Z.div_mod n 10 ltac:(lia)). lia.
      * destruct ds as [|c ds]; [contradiction|].
        simpl. intros _. apply Hhead.
        apply Z.div_str_pos. lia.
      * rewrite last_snoc. reflexivity.
Qed.

Lemma digits_spec n : 0 <= n -> digits_of n (digits n).
Proof.
  intros Hn. unfold digits.
  destruct (digits_fuel_spec (Z.to_nat (Z.log2 n)) n []) as (ds & Heq & Hds).
  - split; [exact Hn|].
    rewrite Nat2Z.inj_succ, Z2Nat.id by apply Z.log2_nonneg.
    destruct (Z.eq_dec n 0) as [->|Hne]; [reflexivity|].
    pose proof (Z.log2_spec n ltac:(lia)) as [_ Hlt].
    eapply Z.lt_le_trans; [exact Hlt|].
    apply Z.pow_le_mono_l. lia.
  - rewrite Heq, app_nil_r. exact Hds.
Qed.

End CharFacts.

(** ** Numbers: [parse_number] inverts [number_to_string] *)

Module NumberFacts.
Import Chars Js JSON CharFacts.

Lemma canonical_spec d :
  canonical d = true <-> expo d <= 0 /\ (expo d < 0 -> mant d mod 10 <> 0).
Proof. unfold canonical. lia. Qed.

Lemma mk_decimal_canonical m e :
  e <= 0 -> (e < 0 -> m mod 10 <> 0) -> mk_decimal m e = Dec m e.
Proof.
  intros He Hm. unfold mk_decimal.
  destruct (Z.leb_spec 0 e) as [H0|Hneg].
  - assert (e = 0) as -> by lia. f_equal. lia.
  - destruct (Z.to_nat (- e)) as [|k] eqn:Hk; [lia|].
    simpl strip_tens.
    destruct (Z.eqb_spec (m mod 10) 0) as [Hz|_]; [specialize (Hm Hneg); lia|].
    f_equal. lia.
Qed.

Lemma span_stop p ds rest :
  Forall (fun c => p c = true) ds -> stops p rest ->
  span p (ds ++ rest) = (ds, rest).
Proof.
  intros Hds Hrest. induction Hds as [|c ds Hc _ IH].
  - destruct rest as [|c r]; [reflexivity|]. simpl in *. rewrite Hrest. reflexivity.
  - simpl. rewrite Hc, IH. reflexivity.
Qed.

Lemma delimited_stops_digit rest : delimited rest -> stops is_digit rest.
Proof.
  destruct rest as [|c r]; [trivial|]. simpl. unfold is_digit, in_range. lia.
Qed.

Lemma parse_exponent_none rest :
  delimited rest -> parse_exponent rest = Some (0, rest).
Proof.
  destruct rest as [|c r]; [reflexivity|]. simpl. unfold is_char.
  intros H.
  destruct (Z.eqb_spec (code c) 101); [lia|].
  destruct (Z.eqb_spec (code c) 69); [lia|]. reflexivity.
Qed.

Lemma parse_fraction_none rest :
  delimited rest -> parse_fraction rest = Some ([], rest).
Proof.
  destruct rest as [|c r]; [reflexivity|]. simpl. unfold is_char.
  intros H. destruct (Z.eqb_spec (code c) 46); [lia|]. reflexivity.
Qed.

Lemma parse_fraction_exp_stop c r :
  is_char 101 c = true -> parse_fraction (c :: r) = Some ([], c :: r).
Proof.
  unfold is_char. intros H. simpl. unfold is_char.
  destruct (Z.eqb_spec (code c) 46); [lia|]. reflexivity.
Qed.

Lemma parse_fraction_some fp rest :
  fp <> [] -> Forall (fun c => is_digit c = true) fp -> stops is_digit rest ->
  parse_fraction ("."%char :: fp ++ rest) = Some (fp, rest).
Proof.
  intros Hne Hfp Hrest. unfold parse_fraction.
  change (is_char 46 "."%char) with true. cbv iota.
  rewrite span_stop by assumption.
  destruct fp; [contradiction|reflexivity].
Qed.

Lemma parse_exponent_some x rest :
  delimited rest ->
  parse_exponent ("e"%char :: sign_char x :: digits (Z.abs x) ++ rest)
  = Some (x, rest).
Proof.
  intros Hrest. unfold parse_exponent.
  change (is_char 101 "e"%char) with true. cbv iota. simpl orb. cbv iota.
  destruct (digits_spec (Z.abs x) ltac:(lia)) as [Hall Hval Hhead _].
  unfold sign_char. destruct (Z.ltb_spec x 0) as [Hneg|Hpos].
  - change (is_char 43 "-"%char) with false.
    change (is_char 45 "-"%char) with true. cbv iota.
    rewrite span_stop by auto using delimited_stops_digit.
    destruct (digits (Z.abs x)); [contradiction|].
    rewrite Hval. do 2 f_equal. lia.
  - change (is_char 43 "+"%char) with true. cbv iota.
    rewrite span_stop by auto using delimited_stops_digit.
    destruct (digits (Z.abs x)); [contradiction|].
    rewrite Hval. do 2 f_equal. lia.
Qed.

Lemma parse_unsigned_eq ip tail fp r2 x r3 :
  Forall (fun c => is_digit c = true) ip ->
  valid_int_part ip = true ->
  stops is_digit tail ->
  parse_fraction tail = Some (fp, r2) ->
  parse_exponent r2 = Some (x, r3) ->
  parse_unsigned (ip ++ tail)
  = Some (mk_decimal (dec_value (ip ++ fp)) (x - Z.of_nat (length fp)), r3).
Proof.
  intros Hip Hvalid Htail Hfrac Hexp. unfold parse_unsigned.
  rewrite span_stop by assumption.
  rewrite Hvalid, Hfrac, Hexp. reflexivity.
Qed.

Lemma valid_int_part_head c ds : code c <> 48 -> valid_int_part (c :: ds) = true.
Proof.
  intros H. destruct ds; [reflexivity|]. simpl. unfold is_char.
  destruct (Z.eqb_spec (code c) 48); [contradiction|reflexivity].
Qed.

Lemma stops_digit_e r : stops is_digit ("e"%char :: r).
Proof. reflexivity. Qed.

Lemma stops_digit_dot r : stops is_digit ("."%char :: r).
Proof. reflexivity. Qed.

(** The exponent notation of [v * 10 ^ x'], where [s] holds the digits
    of [v] and [x'] counts from the last digit of [s]. *)
Lemma parse_exponent_form c cs x rest :
  Forall (fun a => is_digit a = true) (c :: cs) ->
  delimited rest ->
  parse_unsigned
    (match cs with
     | [] => c :: "e"%char :: sign_char x :: digits (Z.abs x)
     | _ => c :: "."%char :: cs ++ "e"%char :: sign_char x :: digits (Z.abs x)
     end ++ rest)
  = Some (mk_decimal (dec_value (c :: cs)) (x - Z.of_nat (length cs)), rest).
Proof.
  intros Hs Hrest. inversion Hs as [|? ? Hc Hcs]; subst.
  destruct cs as [|c2 cs].
  - change ((c :: "e"%char :: sign_char x :: digits (Z.abs x)) ++ rest)
      with ([c] ++ "e"%char :: sign_char x :: digits (Z.abs x) ++ rest).
    erewrite parse_unsigned_eq;
      [reflexivity | auto | reflexivity | apply stops_digit_e
      | apply parse_fraction_exp_stop; reflexivity
      | apply parse_exponent_some; assumption].
  - set (fp := c2 :: cs) in *.
    replace ((c :: "."%char :: fp ++ "e"%char :: sign_char x :: digits (Z.abs x)) ++ rest)
      with ([c] ++ "."%char :: fp ++ ("e"%char :: sign_char x :: digits (Z.abs x) ++ rest)).
    2:{ simpl. rewrite <- app_assoc. reflexivity. }
    erewrite parse_unsigned_eq;
      [reflexivity | auto | reflexivity | apply stops_digit_dot
      | apply parse_fraction_some; [discriminate | assumption | apply stops_digit_e]
      | apply parse_exponent_some; assumption].
Qed.

Lemma dec_value_all_zero k : dec_value (repeat "0"%char k) = 0.
Proof.
  rewrite <- (app_nil_r (repeat "0"%char k)). rewrite dec_value_repeat. reflexivity.
Qed.

(** Branch "k <= n <= 21" of Number::toString: an integer. *)
Lemma parse_integer_form m rest :
  0 < m -> delimited rest ->
  parse_unsigned (digits m ++ rest) = Some (Dec m 0, rest).
Proof.
  intros Hm Hrest.
  destruct (digits_spec m ltac:(lia)) as [Hall Hval Hhead _].
  erewrite parse_unsigned_eq;
    [ | exact Hall
      | destruct (digits m); [contradiction|];
        apply valid_int_part_head; apply Hhead; exact Hm
      | apply delimited_stops_digit; exact Hrest
      | apply parse_fraction_none; exact Hrest
      | apply parse_exponent_none; exact Hrest ].
  rewrite app_nil_r, Hval.
  f_equal. f_equal. apply mk_decimal_canonical; lia.
Qed.

(** Branch "0 < n <= 21": digits with a decimal point inside. *)
Lemma parse_fraction_form m e rest :
  0 < m -> e < 0 -> m mod 10 <> 0 -> delimited rest ->
  0 < Z.of_nat (length (digits m)) + e ->
  parse_unsigned
    ((take (Z.to_nat (Z.of_nat (length (digits m)) + e)) (digits m)
      ++ "."%char :: drop (Z.to_nat (Z.of_nat (length (digits m)) + e)) (digits m))
     ++ rest)
  = Some (Dec m e, rest).
Proof.
  intros Hm He Hcan Hrest Hn.
  destruct (digits_spec m ltac:(lia)) as [Hall Hval Hhead _].
  set (ds := digits m) in *.
  set (k := Z.to_nat (Z.of_nat (length ds) + e)).
  assert (Hk : (0 < k < length ds)%nat) by lia.
  rewrite <- app_assoc, <- app_comm_cons.
  assert (Hsplit : take k ds ++ drop k ds = ds) by apply take_drop.
  assert (Hall' : Forall (fun c => is_digit c = true) (take k ds)
                  /\ Forall (fun c => is_digit c = true) (drop k ds)).
  { apply Forall_app. rewrite Hsplit. exact Hall. }
  destruct Hall' as [Htake Hdrop].
  erewrite parse_unsigned_eq;
    [ | exact Htake | | apply stops_digit_dot
      | apply parse_fraction_some;
        [ | exact Hdrop | apply delimited_stops_digit; exact Hrest ]
      | apply parse_exponent_none; exact Hrest ].
  - rewrite Hsplit, Hval, length_drop.
    f_equal. f_equal.
    replace (0 - Z.of_nat (length ds - k)) with e by lia.
    apply mk_decimal_canonical; lia.
  - destruct ds as [|c ds']; [contradiction|].
    destruct k as [|k']; [lia|]. simpl take.
    apply valid_int_part_head. apply Hhead. exact Hm.
  - intros Hnil. apply (f_equal (@length ascii)) in Hnil.
    rewrite length_drop in Hnil. simpl in Hnil. lia.
Qed.

(** Branch "-6 < n <= 0": a fraction below one. *)
Lemma parse_small_form m e rest :
  0 < m -> e < 0 -> m mod 10 <> 0 -> delimited rest ->
  Z.of_nat (length (digits m)) + e <= 0 ->
  parse_unsigned
    (("0"%char :: "."%char
        :: zeros (- (Z.of_nat (length (digits m)) + e)) ++ digits m) ++ rest)
  = Some (Dec m e, rest).
Proof.
  intros Hm He Hcan Hrest Hn.
  destruct (digits_spec m ltac:(lia)) as [Hall Hval Hhead _].
  set (ds := digits m) in *.
  set (z := zeros (- (Z.of_nat (length ds) + e))).
  change (("0"%char :: "."%char :: z ++ ds) ++ rest)
    with (["0"%char] ++ "."%char :: (z ++ ds) ++ rest).
  erewrite parse_unsigned_eq;
    [ | repeat constructor | reflexivity | apply stops_digit_dot
      | apply parse_fraction_some;
        [ | apply Forall_app; split; [apply all_digits_repeat | exact Hall]
          | apply delimited_stops_digit; exact Hrest ]
      | apply parse_exponent_none; exact Hrest ].
  - change (["0"%char] ++ z ++ ds) with (repeat "0"%char 1 ++ z ++ ds).
    subst z. rewrite dec_value_repeat, dec_value_zeros, Hval.
    rewrite length_app. unfold zeros. rewrite repeat_length.
    f_equal. f_equal.
    replace (0 - Z.of_nat (Z.to_nat (- (Z.of_nat (length ds) + e)) + length ds))
      with e by lia.
    apply mk_decimal_canonical; lia.
  - destruct ds; [contradiction|]. destruct z; discriminate.
Qed.

(** Last branch: exponent notation. *)
Lemma parse_exponent_form_digits m e rest :
  0 < m -> e <= 0 -> (e < 0 -> m mod 10 <> 0) -> delimited rest ->
  parse_unsigned
    (exponent_form (digits m) (Z.of_nat (length (digits m)) + e) ++ rest)
  = Some (Dec m e, rest).
Proof.
  intros Hm He Hcan Hrest.
  destruct (digits_spec m ltac:(lia)) as [Hall Hval Hhead Hlast].
  set (ds := digits m) in *.
  unfold exponent_form.
  destruct (strip_trailing_zeros_spec ds) as (k & Hsplit & Hnz).
  set (s := strip_trailing_zeros ds) in *.
  assert (Hs : Forall (fun c => is_digit c = true) s).
  { rewrite Hsplit in Hall. apply Forall_app in Hall. tauto. }
  assert (Hv : m = dec_value s * 10 ^ Z.of_nat k).
  { rewrite <- Hval, Hsplit, dec_value_app, dec_value_all_zero, repeat_length. lia. }
  assert (Hl : length ds = (length s + k)%nat).
  { rewrite Hsplit at 1. rewrite length_app, repeat_length. reflexivity. }
  destruct s as [|c cs] eqn:Hseq.
  { (* the digits of a positive number are not all zero *)
    exfalso. simpl in Hsplit. rewrite Hsplit in Hhead.
    destruct k; [contradiction|]. simpl in Hhead.
    apply (Hhead Hm). reflexivity. }
  rewrite (parse_exponent_form c cs _ rest Hs Hrest).
  f_equal. f_equal. rewrite Hl. simpl length.
  replace (Z.of_nat (S (length cs) + k) + e - 1 - Z.of_nat (length cs))
    with (Z.of_nat k + e) by lia.
  destruct (Z.eq_dec e 0) as [->|Hne].
  - unfold mk_decimal. rewrite Z.add_0_r.
    destruct (Z.leb_spec 0 (Z.of_nat k)); [|lia].
    rewrite <- Hv. reflexivity.
  - assert (k = O) as ->.
    { destruct k as [|k']; [reflexivity|]. exfalso.
      rewrite Hsplit in Hlast. simpl repeat in Hlast.
      rewrite repeat_cons, app_assoc, last_snoc in Hlast.
      injection Hlast as Hlast.
      apply (f_equal code) in Hlast.
      pose proof (Z.mod_pos_bound m 10 ltac:(lia)).
      rewrite code_digit_chr in Hlast by lia.
      change (code "0"%char) with 48 in Hlast.
      apply Hcan; lia. }
    simpl Z.of_nat in *. rewrite Z.pow_0_r, Z.mul_1_r in Hv.
    rewrite <- Hv. simpl. apply mk_decimal_canonical; lia.
Qed.

Lemma parse_unsigned_positive m e rest :
  0 < m -> e <= 0 -> (e < 0 -> m mod 10 <> 0) -> delimited rest ->
  parse_unsigned (positive_to_string m e ++ rest) = Some (Dec m e, rest).
Proof.
  intros Hm He Hcan Hrest. unfold positive_to_string.
  set (n := Z.of_nat (length (digits m)) + e).
  destruct (Z.eqb_spec e 0) as [He0|He0];
    destruct (Z.leb_spec n 21) as [Hn21|Hn21];
    destruct (Z.ltb_spec 0 n) as [Hn0|Hn0];
    destruct (Z.ltb_spec (-6) n) as [Hn6|Hn6];
    destruct (Z.leb_spec n 0) as [Hn0'|Hn0'];
    simpl andb; cbv iota; try lia;
    first
      [ subst e; apply parse_integer_form; assumption
      | apply parse_fraction_form; assumption || lia
      | apply parse_small_form; assumption || lia
      | apply parse_exponent_form_digits; assumption ].
Qed.

Lemma parse_unsigned_head s r :
  parse_unsigned s = Some r ->
  exists c s', s = c :: s' /\ is_digit c = true.
Proof.
  unfold parse_unsigned. destruct s as [|c s']; [discriminate|].
  simpl span. destruct (is_digit c) eqn:Hc.
  - intros _. eauto.
  - discriminate.
Qed.

Lemma parse_number_minus r :
  parse_number ("-"%char :: r)
  = match parse_unsigned r with
    | Some (d, r') => Some (negate d, r')
    | None => None
    end.
Proof. reflexivity. Qed.

Lemma parse_number_digit s r :
  parse_unsigned s = Some r -> parse_number s = Some r.
Proof.
  intros Hp. destruct (parse_unsigned_head _ _ Hp) as (c & s' & -> & Hc).
  unfold parse_number. apply is_digit_code in Hc. unfold is_char.
  destruct (Z.eqb_spec (code c) 45); [lia|]. exact Hp.
Qed.

Lemma parse_number_to_string d rest :
  canonical d = true -> delimited rest ->
  parse_number (number_to_string d ++ rest) = Some (d, rest).
Proof.
  intros Hcan Hrest. apply canonical_spec in Hcan as [He Hm].
  destruct d as [m e]. simpl in He, Hm.
  unfold number_to_string. simpl mant. simpl expo.
  rewrite mk_decimal_canonical by assumption. simpl mant. simpl expo.
  destruct (Z.eqb_spec m 0) as [->|Hne].
  - assert (e = 0) as ->.
    { destruct (Z.eq_dec e 0); [assumption|].
      exfalso; apply Hm; [lia|reflexivity]. }
    apply parse_number_digit.
    rewrite (parse_unsigned_eq ["0"%char] rest [] rest 0 rest);
      [ reflexivity | repeat constructor | reflexivity
        | apply delimited_stops_digit; exact Hrest
        | apply parse_fraction_none; exact Hrest
        | apply parse_exponent_none; exact Hrest ].
  - destruct (Z.ltb_spec m 0) as [Hneg|Hpos].
    + rewrite <- app_comm_cons, parse_number_minus.
      rewrite parse_unsigned_positive; try assumption; try lia.
      * unfold negate. simpl. rewrite Z.opp_involutive. reflexivity.
      * intros He0 Hz. apply Hm; [exact He0|].
        revert Hz. Z.div_mod_to_equations. lia.
    + apply parse_number_digit.
      apply parse_unsigned_positive; try assumption; lia.
Qed.

End NumberFacts.

(** ** Strings: [parse_chars] inverts [quote_chars] *)

Module StringFacts.
Import Chars Js JSON CharFacts.

Lemma parse_chars_escape c tail :
  parse_chars (escape_char c ++ tail) = prepend [c] (parse_chars tail).
Proof.
  destruct c as [[] [] [] [] [] [] [] []]; reflexivity.
Qed.

Lemma parse_chars_quote s rest :
  parse_chars (flat_map escape_char s ++ quote :: rest) = Some (s, rest).
Proof.
  induction s as [|c s IH]; [reflexivity|].
  simpl flat_map. rewrite <- app_assoc, parse_chars_escape, IH. reflexivity.
Qed.

Lemma parse_quote_string s rest :
  exists r, quote_string s ++ rest = quote :: r
            /\ parse_chars r = Some (list_ascii_of_string s, rest).
Proof.
  unfold quote_string, quote_chars.
  exists (flat_map escape_char (list_ascii_of_string s) ++ quote :: rest).
  split.
  - simpl. rewrite <- app_assoc. reflexivity.
  - apply parse_chars_quote.
Qed.

End StringFacts.

(** ** [JSON.parse] inverts [JSON.stringify] *)

Module JsonFacts.
Import Chars Js JSON CharFacts NumberFacts StringFacts.

Lemma parse_value_S n s :
  parse_value (S n) s = value_step (parse_elements n) (parse_members n) s.
Proof. reflexivity. Qed.

Lemma parse_elements_S n s :
  parse_elements (S n) s = elements_step (parse_value n) (parse_elements n) s.
Proof. reflexivity. Qed.

Lemma parse_members_S n s :
  parse_members (S n) s = members_step (parse_value n) (parse_members n) s.
Proof. reflexivity. Qed.

Lemma skip_ws_stop c s : is_json_space c = false -> skip_ws (c :: s) = c :: s.
Proof. intros H. unfold skip_ws. simpl. rewrite H. reflexivity. Qed.

Lemma not_space c : 32 < code c -> is_json_space c = false.
Proof. unfold is_json_space. lia. Qed.

Lemma is_char_true k c : code c = k -> is_char k c = true.
Proof. unfold is_char. lia. Qed.

Lemma is_char_false k c : code c <> k -> is_char k c = false.
Proof. unfold is_char. lia. Qed.

Lemma parse_number_head s r :
  parse_number s = Some r ->
  exists c s', s = c :: s' /\ (code c = 45 \/ 48 <= code c <= 57).
Proof.
  unfold parse_number. destruct s as [|c s']; [discriminate|].
  unfold is_char. destruct (Z.eqb_spec (code c) 45) as [H45|H45].
  - intros _. eauto.
  - intros Hp. apply parse_unsigned_head in Hp as (c' & s'' & Heq & Hc).
    injection Heq as -> ->. apply is_digit_code in Hc. eauto.
Qed.

Lemma parse_value_number n s d r :
  parse_number s = Some (d, r) -> parse_value (S n) s = Some (JNum d, r).
Proof.
  intros Hp. destruct (parse_number_head _ _ Hp) as (c & s' & -> & Hc).
  rewrite parse_value_S. unfold value_step.
  rewrite skip_ws_stop by (apply not_space; lia).
  rewrite !is_char_false by lia. rewrite Hp. reflexivity.
Qed.

Lemma parse_value_string n s rest :
  parse_value (S n) (quote_string s ++ rest) = Some (JStr s, rest).
Proof.
  destruct (parse_quote_string s rest) as (r & -> & Hr).
  rewrite parse_value_S. unfold value_step.
  rewrite skip_ws_stop by reflexivity.
  rewrite (is_char_true 34 quote) by reflexivity.
  rewrite Hr, string_of_list_ascii_of_string. reflexivity.
Qed.

Lemma set_member_fresh k v ms :
  k ∉ map fst ms -> set_member k v ms = ms ++ [(k, v)].
Proof.
  induction ms as [|[k' v'] ms IH]; intros Hk; [reflexivity|].
  simpl in *. apply not_elem_of_cons in Hk as [Hne Hk].
  destruct (decide (k' = k)); [congruence|]. rewrite IH by assumption. reflexivity.
Qed.

Lemma fold_set_member ms : forall acc,
  NoDup (map fst (acc ++ ms)) ->
  fold_left (fun a kv => set_member (fst kv) (snd kv) a) ms acc = acc ++ ms.
Proof.
  induction ms as [|[k v] ms IH]; intros acc Hnd.
  - rewrite app_nil_r. reflexivity.
  - simpl fold_left. rewrite set_member_fresh.
    + rewrite IH; rewrite <- app_assoc; [reflexivity|exact Hnd].
    + rewrite map_app in Hnd. apply NoDup_app in Hnd as (_ & Hdisj & _).
      intros Hin. apply (Hdisj k Hin). simpl. left.
Qed.

Lemma object_of_members_nodup ms :
  NoDup (map fst ms) -> object_of_members ms = JObj ms.
Proof.
  intros H. unfold object_of_members. rewrite fold_set_member; [reflexivity|exact H].
Qed.

Lemma size_pos v : (1 <= size v)%nat.
Proof. destruct v; simpl; lia. Qed.

Lemma number_head d :
  canonical d = true ->
  exists c r, number_to_string d = c :: r /\ (code c = 45 \/ 48 <= code c <= 57).
Proof.
  intros Hd.
  pose proof (parse_number_to_string d [] Hd I) as Hp.
  rewrite app_nil_r in Hp. exact (parse_number_head _ _ Hp).
Qed.

(** The text of a value starts with a character that is neither white
    space nor a closing bracket. *)
Lemma serialize_head v :
  well_formed v = true ->
  exists c r, serialize v = c :: r
              /\ 32 < code c /\ code c <> 93 /\ code c <> 125.
Proof.
  intros Hwf. destruct v as [|[]|d|s|l|ms].
  - do 2 eexists. split; [reflexivity|]. vm_compute. repeat split; discriminate.
  - do 2 eexists. split; [reflexivity|]. vm_compute. repeat split; discriminate.
  - do 2 eexists. split; [reflexivity|]. vm_compute. repeat split; discriminate.
  - destruct (number_head d Hwf) as (c & r & Heq & Hc).
    exists c, r. split; [exact Heq|]. lia.
  - do 2 eexists. split; [reflexivity|]. vm_compute. repeat split; discriminate.
  - do 2 eexists. split; [reflexivity|]. vm_compute. repeat split; discriminate.
  - do 2 eexists. split; [reflexivity|]. vm_compute. repeat split; discriminate.
Qed.

Lemma join_cons sep p q ps :
  join sep (p :: q :: ps) = p ++ sep :: join sep (q :: ps).
Proof. reflexivity. Qed.

Lemma delimited_comma r : delimited (","%char :: r).
Proof. left. reflexivity. Qed.

Lemma delimited_bracket r : delimited ("]"%char :: r).
Proof. right. left. reflexivity. Qed.

Lemma delimited_brace r : delimited ("}"%char :: r).
Proof. right. right. reflexivity. Qed.

Lemma elements_read_back N :
  (forall n, (n <= N)%nat -> reads_back n) ->
  forall l k rest,
    l <> [] ->
    (list_sum (map (fun x => S (size x)) l) <= k)%nat -> (k <= S N)%nat ->
    forallb well_formed l = true ->
    parse_elements k (join ","%char (map serialize l) ++ "]"%char :: rest)
    = Some (l, rest).
Proof.
  intros IH l. induction l as [|v l IHl]; intros k rest Hne Hsz Hk Hwf;
    [contradiction|].
  simpl in Hsz, Hwf. apply andb_true_iff in Hwf as [Hv Hl].
  destruct k as [|k]; [lia|].
  rewrite parse_elements_S. unfold elements_step.
  destruct l as [|v2 l].
  - simpl map. simpl join.
    rewrite (IH k ltac:(lia) v _ ltac:(simpl in Hsz; lia) Hv (delimited_bracket rest)).
    rewrite skip_ws_stop by reflexivity.
    reflexivity.
  - change (map serialize (v :: v2 :: l))
      with (serialize v :: serialize v2 :: map serialize l).
    rewrite join_cons, <- app_assoc, <- app_comm_cons.
    rewrite (IH k ltac:(lia) v _ ltac:(lia) Hv (delimited_comma _)).
    rewrite skip_ws_stop by reflexivity.
    change (is_char 44 ","%char) with true. cbv iota.
    change (serialize v2 :: map serialize l) with (map serialize (v2 :: l)).
    rewrite (IHl k rest ltac:(discriminate) ltac:(lia) ltac:(lia) Hl).
    reflexivity.
Qed.

Lemma members_read_back N :
  (forall n, (n <= N)%nat -> reads_back n) ->
  forall ms k rest,
    ms <> [] ->
    (list_sum (map (fun kv => S (size (snd kv))) ms) <= k)%nat -> (k <= S N)%nat ->
    forallb (fun kv => well_formed (snd kv)) ms = true ->
    parse_members k
      (join ","%char
         (map (fun kv => quote_string (fst kv) ++ ":"%char :: serialize (snd kv)) ms)
       ++ "}"%char :: rest)
    = Some (ms, rest).
Proof.
  intros IH ms.
  set (member_text := fun kv : string * Json =>
                        quote_string (fst kv) ++ ":"%char :: serialize (snd kv)).
  induction ms as [|[key v] ms IHms]; intros k rest Hne Hsz Hk Hwf;
    [contradiction|].
  simpl in Hsz, Hwf. apply andb_true_iff in Hwf as [Hv Hms].
  destruct k as [|k]; [lia|].
  rewrite parse_members_S. unfold members_step.
  destruct ms as [|m2 ms].
  - simpl map. simpl join. unfold member_text at 1. simpl fst. simpl snd.
    flatten_text.
    destruct (parse_quote_string key
                (":"%char :: serialize v ++ "}"%char :: rest)) as (r & Heq & Hr).
    rewrite Heq.
    rewrite skip_ws_stop by reflexivity.
    rewrite (is_char_true 34 quote) by reflexivity.
    rewrite Hr, skip_ws_stop by reflexivity.
    change (is_char 58 ":"%char) with true. cbv iota.
    rewrite (IH k ltac:(lia) v _ ltac:(lia) Hv (delimited_brace rest)).
    rewrite skip_ws_stop by reflexivity.
    rewrite string_of_list_ascii_of_string. reflexivity.
  - change (map member_text ((key, v) :: m2 :: ms))
      with (member_text (key, v) :: member_text m2 :: map member_text ms).
    rewrite join_cons. unfold member_text at 1. simpl fst. simpl snd.
    flatten_text.
    destruct (parse_quote_string key
                (":"%char :: serialize v ++ ","%char ::
                   join ","%char (member_text m2 :: map member_text ms)
                   ++ "}"%char :: rest)) as (r & Heq & Hr).
    rewrite Heq.
    rewrite skip_ws_stop by reflexivity.
    rewrite (is_char_true 34 quote) by reflexivity.
    rewrite Hr, skip_ws_stop by reflexivity.
    change (is_char 58 ":"%char) with true. cbv iota.
    rewrite (IH k ltac:(lia) v _ ltac:(lia) Hv (delimited_comma _)).
    rewrite skip_ws_stop by reflexivity.
    change (is_char 44 ","%char) with true. cbv iota.
    change (member_text m2 :: map member_text ms) with (map member_text (m2 :: ms)).
    rewrite (IHms k rest ltac:(discriminate) ltac:(lia) ltac:(lia) Hms).
    rewrite string_of_list_ascii_of_string. reflexivity.
Qed.

Lemma join_head sep c r ps tail :
  exists r', join sep ((c :: r) :: ps) ++ tail = c :: r'.
Proof. destruct ps; simpl; eexists; reflexivity. Qed.

Lemma quote_string_head key tail :
  exists r, quote_string key ++ tail = quote :: r.
Proof. unfold quote_string, quote_chars. simpl. eexists. reflexivity. Qed.

Lemma serialize_arr l :
  serialize (JArr l) = "["%char :: join ","%char (map serialize l) ++ ["]"%char].
Proof. reflexivity. Qed.

Lemma serialize_obj ms :
  serialize (JObj ms)
  = "{"%char ::
      join ","%char
        (map (fun kv => quote_string (fst kv) ++ ":"%char :: serialize (snd kv)) ms)
      ++ ["}"%char].
Proof. reflexivity. Qed.

Lemma reads_back_all N : forall n, (n <= N)%nat -> reads_back n.
Proof.
  induction N as [|N IH]; intros n Hn v rest Hsz Hwf Hrest.
  { pose proof (size_pos v). lia. }
  destruct (Nat.eq_dec n (S N)) as [->|Hne];
    [|apply (IH n ltac:(lia)); assumption].
  destruct v as [|[]|d|s|l|ms].
  - rewrite parse_value_S. reflexivity.
  - rewrite parse_value_S. reflexivity.
  - rewrite parse_value_S. reflexivity.
  - apply parse_value_number. simpl serialize.
    apply parse_number_to_string; assumption.
  - apply parse_value_string.
  - rewrite serialize_arr. simpl in Hsz, Hwf. flatten_text.
    rewrite parse_value_S. unfold value_step.
    rewrite skip_ws_stop by reflexivity.
    change (is_char 34 "["%char) with false.
    change (is_char 91 "["%char) with true. cbv iota.
    destruct l as [|v l].
    + simpl map. simpl join. simpl app.
      rewrite skip_ws_stop by reflexivity. reflexivity.
    + pose proof Hwf as Hwf'. simpl in Hwf'.
      apply andb_true_iff in Hwf' as [Hv _].
      destruct (serialize_head v Hv) as (c & r & Heq & Hc1 & Hc2 & Hc3).
      pose proof (elements_read_back N IH (v :: l) N rest
                    ltac:(discriminate) ltac:(lia) ltac:(lia) Hwf) as He.
      destruct (join_head ","%char c r (map serialize l) ("]"%char :: rest))
        as (r' & Hj).
      simpl map in He |- *. rewrite Heq in He |- *. rewrite Hj in He |- *.
      rewrite skip_ws_stop by (apply not_space; lia).
      rewrite is_char_false by lia. rewrite He. reflexivity.
  - rewrite serialize_obj. simpl in Hsz, Hwf. flatten_text.
    apply andb_true_iff in Hwf as [Hnd Hwf]. apply bool_decide_eq_true in Hnd.
    rewrite parse_value_S. unfold value_step.
    rewrite skip_ws_stop by reflexivity.
    change (is_char 34 "{"%char) with false.
    change (is_char 91 "{"%char) with false.
    change (is_char 123 "{"%char) with true. cbv iota.
    destruct ms as [|[key v] ms].
    + simpl map. simpl join. simpl app.
      rewrite skip_ws_stop by reflexivity. reflexivity.
    + pose proof (members_read_back N IH ((key, v) :: ms) N rest
                    ltac:(discriminate) ltac:(lia) ltac:(lia) Hwf) as He.
      rewrite <- (object_of_members_nodup _ Hnd).
      destruct (quote_string_head key (":"%char :: serialize v)) as (r & Heq).
      match type of He with
      | context [map ?f ((key, v) :: ms)] =>
          change (map f ((key, v) :: ms))
            with ((quote_string key ++ ":"%char :: serialize v) :: map f ms)
            in He |- *;
          destruct (join_head ","%char quote r (map f ms) ("}"%char :: rest))
            as (r' & Hj)
      end.
      rewrite Heq in He |- *. rewrite Hj in He |- *.
      rewrite skip_ws_stop by reflexivity.
      rewrite (is_char_false 125 quote) by discriminate.
      rewrite He. reflexivity.
Qed.

Lemma list_sum_le {A} (f g : A -> nat) l :
  Forall (fun x => (f x <= g x)%nat) l ->
  (list_sum (map f l) <= list_sum (map g l))%nat.
Proof. induction 1; simpl; lia. Qed.

Lemma join_length sep parts :
  (list_sum (map (fun p => S (length p)) parts) <= S (length (join sep parts)))%nat.
Proof.
  induction parts as [|p [|q ps] IH].
  - simpl. lia.
  - simpl. lia.
  - rewrite join_cons. change (map (fun p0 => S (length p0)) (p :: q :: ps))
      with (S (length p) :: map (fun p0 => S (length p0)) (q :: ps)).
    rewrite length_app.
    change (length (sep :: join sep (q :: ps)))
      with (S (length (join sep (q :: ps)))).
    set (X := list_sum (map (fun p0 : list ascii => S (length p0)) (q :: ps))) in *.
    set (Y := length (join sep (q :: ps))) in *.
    change (list_sum (S (length p) :: map (fun p0 : list ascii => S (length p0)) (q :: ps)))
      with (S (length p) + X)%nat.
    lia.
Qed.

Lemma size_le_length n : forall v,
  (size v <= n)%nat -> well_formed v = true ->
  (size v <= length (serialize v))%nat.
Proof.
  induction n as [|n IH]; intros v Hn Hwf.
  { pose proof (size_pos v). lia. }
  destruct v as [|[]|d|s|l|ms]; try (simpl; lia).
  - destruct (number_head d Hwf) as (c & r & Heq & _).
    simpl. rewrite Heq. simpl. lia.
  - rewrite serialize_arr. simpl in Hn, Hwf. simpl size.
    cbn [length]. rewrite length_app. cbn [length].
    pose proof (join_length ","%char (map serialize l)) as Hj.
    rewrite map_map in Hj.
    assert (Hle : (list_sum (map (fun x => S (size x)) l)
                   <= list_sum (map (fun x => S (length (serialize x))) l))%nat).
    { apply list_sum_le. clear Hj.
      induction l as [|x l IHl]; constructor.
      - simpl in Hn, Hwf. apply andb_true_iff in Hwf as [Hx _].
        apply le_n_S, IH; [lia|exact Hx].
      - simpl in Hn, Hwf. apply andb_true_iff in Hwf as [_ Hl].
        apply IHl; [lia|exact Hl]. }
    lia.
  - rewrite serialize_obj. simpl in Hn, Hwf. simpl size.
    apply andb_true_iff in Hwf as [_ Hwf].
    cbn [length]. rewrite length_app. cbn [length].
    match goal with
    | |- context [join ?sep (map ?f ms)] =>
        pose proof (join_length sep (map f ms)) as Hj
    end.
    rewrite map_map in Hj.
    assert (Hle : (list_sum (map (fun kv => S (size (snd kv))) ms)
                   <= list_sum
                        (map (fun kv =>
                                S (length (quote_string (fst kv)
                                           ++ ":"%char :: serialize (snd kv)))) ms))%nat).
    { apply list_sum_le. clear Hj.
      induction ms as [|[k x] ms IHms]; constructor.
      - simpl in Hn, Hwf. apply andb_true_iff in Hwf as [Hx _].
        cbn [fst snd]. rewrite length_app. cbn [length].
        pose proof (IH x ltac:(lia) Hx). lia.
      - simpl in Hn, Hwf. apply andb_true_iff in Hwf as [_ Hl].
        apply IHms; [lia|exact Hl]. }
    lia.
Qed.

(** [JSON.parse(JSON.stringify(v))] is [v]. *)
Theorem parse_stringify v :
  well_formed v = true -> parse (stringify v) = Some v.
Proof.
  intros Hwf. unfold parse, stringify.
  rewrite list_ascii_of_string_of_list_ascii.
  pose proof (size_le_length (size v) v ltac:(lia) Hwf) as Hsz.
  pose proof (reads_back_all _ _ (Nat.le_refl (S (length (serialize v))))
                v [] ltac:(lia) Hwf I) as Hp.
  rewrite app_nil_r in Hp. rewrite Hp. reflexivity.
Qed.

End JsonFacts.

(** ** The Stripe provider *)

Module StripeFacts.
Import Stripe.

Lemma stripe_verified p rawBody options event :
  verified p rawBody options event ->
  Stripe.handleWebhook p rawBody options = handleEvent p event.
Proof.
  intros (signature & secret & Hsig & Hsecret & Htruthy & Hevent).
  unfold Stripe.handleWebhook. rewrite Hsig, Hsecret, Htruthy, Hevent. reflexivity.
Qed.

Lemma verified_useEventEmitter e p rawBody options event :
  verified p rawBody options event ->
  verified (Stripe.useEventEmitter e p) rawBody options event.
Proof. intros H. exact H. Qed.

(** The example provider accepts the example request. *)
Lemma example_verified event :
  verified (Examples.stripe event) "{}" Examples.signed event.
Proof. exists "whsec", "whsec". repeat split; reflexivity. Qed.

(** Without a verified event the handler logs one warning and returns
    [null]. *)
Lemma stripe_unverified p rawBody options w :
  (forall event, ~ verified p rawBody options event) ->
  exists message,
    Stripe.handleWebhook p rawBody options w
    = (Normal None, with_console w [(Warn, message)]).
Proof.
  intros Hnot. unfold Stripe.handleWebhook.
  destruct (truthy_entry _ _) as [signature|] eqn:Hsig; [|eexists; reflexivity].
  destruct (webhookSecret p) as [secret|] eqn:Hsecret; [|eexists; reflexivity].
  destruct (Js.truthy secret) eqn:Htruthy; [|eexists; reflexivity].
  destruct (webhooks_constructEvent _ _ _ _) as [event|error] eqn:Hevent;
    [|eexists; reflexivity].
  exfalso. apply (Hnot event). exists signature, secret. auto.
Qed.

Lemma stripe_verified_or_not p rawBody options :
  (exists event, verified p rawBody options event)
  \/ (forall event, ~ verified p rawBody options event).
Proof.
  unfold verified.
  destruct (truthy_entry _ _) as [signature|] eqn:Hsig;
    [|right; intros ev (? & ? & ? & _); discriminate].
  destruct (webhookSecret p) as [secret|] eqn:Hsecret;
    [|right; intros ev (? & ? & ? & ? & _); discriminate].
  destruct (Js.truthy secret) eqn:Htruthy;
    [|right; intros ev (? & ? & _ & [= <-] & ? & _); congruence].
  destruct (webhooks_constructEvent (stripe p) rawBody signature secret)
    as [event|error] eqn:Hevent.
  - left. exists event, signature, secret. auto.
  - right. intros ev (? & ? & [= <-] & [= <-] & _ & ?). congruence.
Qed.

(** A session without a usable transaction id: one warning, [null]. *)
Lemma handleEvent_uncorrelated p event w :
  recognized (Event.type event) ->
  truthy_entry (Session.metadata (Event.data_object event)) "transactionId" = None ->
  handleEvent p event w
  = (Normal None,
     with_console w [(Warn, "No transaction ID found in stripe webhook")]).
Proof.
  intros Hrec Hid. unfold handleEvent, emitSuccessfulPayment. rewrite Hid.
  repeat case_decide; try reflexivity.
  exfalso. destruct Hrec as [?|[?|?]]; contradiction.
Qed.

(** An event type the handler does not act on: nothing happens. *)
Lemma handleEvent_unrecognized p event w :
  ~ recognized (Event.type event) ->
  handleEvent p event w = (Normal None, w).
Proof.
  intros Hnot. unfold handleEvent, recognized in *.
  repeat case_decide; try reflexivity; exfalso; apply Hnot; auto.
Qed.

(** A recognized event of a correlated session: the handler hands the
    events of [normalized] to the emitter, if it has one, and returns
    the last of them. *)
Lemma handleEvent_correlated p event transactionId w :
  truthy_entry (Session.metadata (Event.data_object event)) "transactionId"
  = Some transactionId ->
  handleEvent p event w
  = (Normal (last (snd <$> normalized event transactionId)),
     match eventEmitter p with
     | Some _ => with_emitted w (normalized event transactionId)
     | None => w
     end).
Proof.
  intros Hid. unfold handleEvent, emitSuccessfulPayment, normalized.
  rewrite Hid. unfold bind, emit, ret, with_emitted.
  repeat case_decide; destruct (eventEmitter p); simpl;
    rewrite <- ?app_assoc; try reflexivity;
    destruct w; rewrite ?app_nil_r; reflexivity.
Qed.

Lemma recognized_dec type : recognized type \/ ~ recognized type.
Proof.
  unfold recognized.
  destruct (decide (type = "checkout.session.completed")); [auto|].
  destruct (decide (type = "checkout.session.async_payment_succeeded")); [auto|].
  destruct (decide (type = "checkout.session.async_payment_failed")); [auto|].
  right. intros [?|[?|?]]; contradiction.
Qed.

Lemma normalized_events event transactionId :
  Forall (fun te =>
            exists reason,
              snd te = sessionEvent (fst te) (Event.data_object event)
                         transactionId reason)
    (normalized event transactionId).
Proof.
  unfold normalized. repeat case_decide; repeat constructor; simpl; eauto.
Qed.

(** With an emitter attached, the handler returns the last event it
    emitted, and [null] when it emitted none. *)
Lemma stripe_returns_last_emitted e p :
  returns_last_emitted (Stripe.useEventEmitter e p).
Proof.
  intros rawBody options w. simpl.
  destruct (stripe_verified_or_not (Stripe.useEventEmitter e p) rawBody options)
    as [[event Hv]|Hnot].
  - rewrite (stripe_verified _ _ _ _ Hv).
    destruct (truthy_entry (Session.metadata (Event.data_object event))
                "transactionId") as [tid|] eqn:Hid.
    + rewrite (handleEvent_correlated _ _ _ _ Hid). simpl.
      exists (normalized event tid). split; reflexivity.
    + destruct (recognized_dec (Event.type event)) as [Hrec|Hrec].
      * rewrite (handleEvent_uncorrelated _ _ _ Hrec Hid). simpl.
        exists []. rewrite app_nil_r. split; reflexivity.
      * rewrite (handleEvent_unrecognized _ _ _ Hrec). simpl.
        exists []. rewrite app_nil_r. split; reflexivity.
  - destruct (stripe_unverified _ _ _ w Hnot) as [message ->]. simpl.
    exists []. rewrite app_nil_r. split; reflexivity.
Qed.

(** Every event the handler emits carries the session's transaction id,
    a non-empty string. *)
Lemma stripe_events_carry_transactionId p rawBody options w :
  exists events,
    emitted (snd (Stripe.handleWebhook p rawBody options w)) = emitted w ++ events
    /\ Forall (fun te => PaymentEvent.has_transactionId (snd te)) events.
Proof.
  destruct (stripe_verified_or_not p rawBody options) as [[event Hv]|Hnot].
  - rewrite (stripe_verified _ _ _ _ Hv).
    destruct (truthy_entry (Session.metadata (Event.data_object event))
                "transactionId") as [tid|] eqn:Hid.
    + rewrite (handleEvent_correlated _ _ _ _ Hid). simpl.
      assert (Htid : tid <> EmptyString).
      { unfold truthy_entry in Hid.
        destruct (Session.metadata _) as [m|]; [|discriminate].
        destruct (m !! "transactionId") as [s0|]; [|discriminate].
        destruct (Js.truthy s0) eqn:Ht; [|discriminate].
        injection Hid as <-. intros ->. discriminate. }
      destruct (eventEmitter p).
      * exists (normalized event tid). split; [reflexivity|].
        eapply Forall_impl; [apply normalized_events|].
        intros [ty ev] [reason Hev]. simpl in *. subst ev.
        exists tid. split; [reflexivity|exact Htid].
      * exists []. rewrite app_nil_r. split; [reflexivity|constructor].
    + destruct (recognized_dec (Event.type event)) as [Hrec|Hrec].
      * rewrite (handleEvent_uncorrelated _ _ _ Hrec Hid). simpl.
        exists []. rewrite app_nil_r. split; [reflexivity|constructor].
      * rewrite (handleEvent_unrecognized _ _ _ Hrec). simpl.
        exists []. rewrite app_nil_r. split; [reflexivity|constructor].
  - destruct (stripe_unverified _ _ _ w Hnot) as [message ->]. simpl.
    exists []. rewrite app_nil_r. split; [reflexivity|constructor].
Qed.

End StripeFacts.

(** ** The Paydunya provider *)

Module PaydunyaFacts.
Import Paydunya.

Lemma verified_dec p body : verified p body \/ ~ verified p body.
Proof.
  unfold verified. destruct (Body.hash body) as [h|];
    [|right; intros (? & ? & _); discriminate].
  destruct (Js.truthy h) eqn:Ht;
    [|right; intros (? & [= <-] & ? & _); congruence].
  destruct (decide (h = masterKeySha512Hash p)) as [->|Hne].
  - left. eauto.
  - right. intros (? & [= <-] & _ & ?). contradiction.
Qed.

(** A missing or wrong hash: one error on the console, [undefined]. *)
Lemma paydunya_unverified p body w :
  ~ verified p body ->
  exists message,
    Paydunya.handleWebhook p body w
    = (Normal None, with_console w [(Error, message)]).
Proof.
  intros Hnot. unfold Paydunya.handleWebhook.
  destruct (Body.hash body) as [h|] eqn:Hh; [|eexists; reflexivity].
  destruct (Js.truthy h) eqn:Ht; [|eexists; reflexivity].
  case_decide as Heq; [eexists; reflexivity|].
  exfalso. apply Hnot. exists h. auto.
Qed.

Lemma paydunya_verified p body :
  verified p body -> Paydunya.handleWebhook p body = handleVerified p body.
Proof.
  intros (h & Hh & Ht & ->). unfold Paydunya.handleWebhook. rewrite Hh, Ht.
  destruct (decide (masterKeySha512Hash p <> masterKeySha512Hash p));
    [congruence|reflexivity].
Qed.

(** A verified body without the [customer] object: the handler throws. *)
Lemma handleWebhook_without_customer p body w :
  verified p body -> Body.customer body = None ->
  exists message, Paydunya.handleWebhook p body w = (Throw (TypeError message), w).
Proof.
  intros Hv Hc. rewrite (paydunya_verified _ _ Hv).
  unfold handleVerified. rewrite Hc. eexists. reflexivity.
Qed.

(** A verified body with its [customer] and a status the handler does
    not act on: nothing happens. *)
Lemma handleWebhook_unrecognized p body customer w :
  verified p body -> Body.customer body = Some customer -> kind body = None ->
  Paydunya.handleWebhook p body w = (Normal None, w).
Proof.
  intros Hv Hc Hk. rewrite (paydunya_verified _ _ Hv).
  unfold handleVerified, kind in *. rewrite Hc.
  unfold bind, read_of, ret.
  destruct (bool_decide _ && bool_decide _); [discriminate|].
  destruct (decide (Body.status body = "cancelled")); [discriminate|].
  destruct (decide (Body.status body = "failed")); [discriminate|].
  reflexivity.
Qed.

(** A verified body of the declared shape: at most one event, handed to
    the emitter if there is one, and [undefined] returned. *)
Lemma handleWebhook_well_typed p body customer invoice custom_data w :
  verified p body ->
  Body.customer body = Some customer ->
  Body.invoice body = Some invoice ->
  Body.custom_data body = Some custom_data ->
  Paydunya.handleWebhook p body w
  = (Normal None,
     match kind body, eventEmitter p with
     | Some (type, reason), Some _ =>
         with_emitted w
           [(type,
             eventLiteral type
               (paymentMethod_of (WebhookCustomer.payment_method customer))
               invoice custom_data reason)]
     | _, _ => w
     end).
Proof.
  intros Hv Hc Hi Hd. rewrite (paydunya_verified _ _ Hv).
  unfold handleVerified, kind, bodyEvent. rewrite Hc, Hi, Hd.
  unfold bind, read_of, ret, emit.
  destruct (bool_decide _ && bool_decide _);
    [|destruct (decide (Body.status body = "cancelled"));
      [|destruct (decide (Body.status body = "failed"))]];
    destruct (eventEmitter p); reflexivity.
Qed.

(** A verified body with a recognized status but no [invoice] or no
    [custom_data]: the handler throws. *)
Lemma handleWebhook_without_objects p body customer w :
  verified p body -> Body.customer body = Some customer ->
  kind body <> None ->
  Body.invoice body = None \/ Body.custom_data body = None ->
  exists message, Paydunya.handleWebhook p body w = (Throw (TypeError message), w).
Proof.
  intros Hv Hc Hk Hnone. rewrite (paydunya_verified _ _ Hv).
  unfold handleVerified, kind, bodyEvent in *. rewrite Hc.
  unfold bind, read_of, ret, throw.
  destruct (bool_decide _ && bool_decide _);
    [|destruct (decide (Body.status body = "cancelled"));
      [|destruct (decide (Body.status body = "failed")); [|congruence]]];
    destruct (Body.invoice body), (Body.custom_data body);
    destruct Hnone; try discriminate; eexists; reflexivity.
Qed.

Lemma kind_recognized body : kind body <> None <-> recognized body.
Proof.
  unfold kind, recognized.
  destruct (bool_decide (Body.status body = "completed")) eqn:H1;
    destruct (bool_decide (Body.response_code body = "00")) eqn:H2;
    simpl; repeat case_decide;
    try apply bool_decide_eq_true in H1; try apply bool_decide_eq_true in H2;
    try apply bool_decide_eq_false in H1; try apply bool_decide_eq_false in H2;
    split; try congruence; auto; intros [[? ?]|[?|?]]; congruence.
Qed.

End PaydunyaFacts.

(** * The claims of the specification *)

Import StripeFacts PaydunyaFacts.

(** C1, as the code has it. The Stripe handler never completes abruptly:
    without a verified event it logs one warning and returns [null], and
    so it does for a recognized event whose session has no usable
    transaction id. The Paydunya handler logs one error and returns
    nothing when the hash is missing or wrong, and completes normally on
    every body that has the [customer], [invoice] and [custom_data]
    objects of its declared type. *)
Theorem handlers_complete_on_declared_inputs :
  (forall p rawBody options w,
      exists result, fst (Stripe.handleWebhook p rawBody options w) = Normal result)
  /\ (forall p rawBody options w,
         (forall event, ~ Stripe.verified p rawBody options event) ->
         exists message,
           Stripe.handleWebhook p rawBody options w
           = (Normal None, with_console w [(Warn, message)]))
  /\ (forall p rawBody options event w,
         Stripe.verified p rawBody options event ->
         Stripe.recognized (Stripe.Event.type event) ->
         Stripe.truthy_entry
           (Stripe.Session.metadata (Stripe.Event.data_object event))
           "transactionId" = None ->
         Stripe.handleWebhook p rawBody options w
         = (Normal None,
            with_console w [(Warn, "No transaction ID found in stripe webhook")]))
  /\ (forall p body w,
         ~ Paydunya.verified p body ->
         exists message,
           Paydunya.handleWebhook p body w
           = (Normal None, with_console w [(Error, message)]))
  /\ (forall p body w,
         is_Some (Paydunya.Body.customer body) ->
         is_Some (Paydunya.Body.invoice body) ->
         is_Some (Paydunya.Body.custom_data body) ->
         exists result, fst (Paydunya.handleWebhook p body w) = Normal result).
Proof.
  split; [|split; [|split; [|split]]].
  - intros p rawBody options w.
    destruct (stripe_verified_or_not p rawBody options) as [[event Hv]|Hnot].
    + rewrite (stripe_verified _ _ _ _ Hv).
      destruct (Stripe.truthy_entry
                  (Stripe.Session.metadata (Stripe.Event.data_object event))
                  "transactionId") as [tid|] eqn:Hid.
      * rewrite (handleEvent_correlated _ _ _ _ Hid). eexists. reflexivity.
      * destruct (recognized_dec (Stripe.Event.type event)) as [Hrec|Hrec].
        -- rewrite (handleEvent_uncorrelated _ _ _ Hrec Hid). eexists. reflexivity.
        -- rewrite (handleEvent_unrecognized _ _ _ Hrec). eexists. reflexivity.
    + destruct (stripe_unverified _ _ _ w Hnot) as [message ->].
      eexists. reflexivity.
  - intros p rawBody options w Hnot.
    exact (stripe_unverified _ _ _ w Hnot).
  - intros p rawBody options event w Hv Hrec Hid.
    rewrite (stripe_verified _ _ _ _ Hv).
    exact (handleEvent_uncorrelated _ _ _ Hrec Hid).
  - intros p body w Hnot.
    exact (paydunya_unverified _ _ w Hnot).
  - intros p body w [customer Hc] [invoice Hi] [custom_data Hd].
    destruct (verified_dec p body) as [Hv|Hnot].
    + rewrite (handleWebhook_well_typed _ _ _ _ _ w Hv Hc Hi Hd).
      eexists. reflexivity.
    + destruct (paydunya_unverified _ _ w Hnot) as [message ->].
      eexists. reflexivity.
Qed.

(** C1 as stated fails: a verified Paydunya body with a recognized status
    and no [invoice] object makes the handler throw. *)
Lemma paydunya_throws_without_invoice :
  fst (Paydunya.handleWebhook Examples.paydunya
         (Examples.body (Some (Examples.digest "master-key")) "completed"
            (Some Examples.tx42) None (Some Examples.wave_customer))
         World0)
  = Throw (TypeError "Cannot read properties of undefined (reading 'total_amount')").
Proof. reflexivity. Qed.

(** A witness of C1's theorem: an unsigned request, a session without
    metadata, a body without hash and a body of the declared shape. *)
Lemma handlers_complete_on_declared_inputs_witness :
  (exists message,
      Stripe.handleWebhook (Examples.stripe Examples.expired) "{}"
        Examples.unsigned World0
      = (Normal None, with_console World0 [(Warn, message)]))
  /\ Stripe.handleWebhook (Examples.stripe Examples.anonymous) "{}"
       Examples.signed World0
     = (Normal None,
        with_console World0 [(Warn, "No transaction ID found in stripe webhook")])
  /\ (exists message,
         Paydunya.handleWebhook Examples.paydunya
           (Examples.body None "completed" (Some Examples.tx42)
              (Some Examples.invoice) (Some Examples.wave_customer))
           World0
         = (Normal None, with_console World0 [(Error, message)]))
  /\ (exists result,
         fst (Paydunya.handleWebhook Examples.paydunya
                (Examples.body (Some (Examples.digest "master-key")) "completed"
                   (Some Examples.tx42) (Some Examples.invoice)
                   (Some Examples.wave_customer))
                World0)
         = Normal result).
Proof.
  destruct handlers_complete_on_declared_inputs as (_ & H2 & H3 & H4 & H5).
  split; [|split; [|split]].
  - apply H2. intros event (signature & secret & Hsig & _).
    vm_compute in Hsig. discriminate.
  - apply (H3 _ _ _ Examples.anonymous).
    + apply example_verified.
    + left. reflexivity.
    + reflexivity.
  - apply H4. intros (hash & Hhash & _). vm_compute in Hhash. discriminate.
  - apply H5; eexists; reflexivity.
Defined.

(** C2, as the code has it. The Stripe handler, once an emitter has been
    set, returns the last event it handed to the emitter and [null] when
    it handed over none; on a verified event of a type it acts on, whose
    session carries a transaction id, it hands over at least one event
    and returns the last. The Paydunya handler, declared [Promise<void>],
    returns nothing on every webhook, whatever it emitted. *)
Theorem returned_event_is_last_emitted :
  (forall e p, returns_last_emitted (Stripe.useEventEmitter e p))
  /\ (forall e p rawBody options event transactionId w,
         Stripe.verified p rawBody options event ->
         Stripe.recognized (Stripe.Event.type event) ->
         Stripe.truthy_entry
           (Stripe.Session.metadata (Stripe.Event.data_object event))
           "transactionId" = Some transactionId ->
         exists events result,
           Stripe.handleWebhook (Stripe.useEventEmitter e p) rawBody options w
           = (Normal (Some result), with_emitted w events)
           /\ last (snd <$> events) = Some result)
  /\ (forall p body w,
         fst (Paydunya.handleWebhook p body w) = Normal None
         \/ exists message,
             fst (Paydunya.handleWebhook p body w) = Throw (TypeError message)).
Proof.
  split; [|split].
  - intros e p. apply stripe_returns_last_emitted.
  - intros e p rawBody options event transactionId w Hv Hrec Hid.
    rewrite (stripe_verified _ _ _ _ (verified_useEventEmitter e p _ _ _ Hv)).
    rewrite (handleEvent_correlated _ _ _ _ Hid).
    cbn [Stripe.eventEmitter Stripe.useEventEmitter].
    unfold Stripe.normalized.
    destruct Hrec as [Ht|[Ht|Ht]]; rewrite Ht.
    + destruct (decide (Stripe.Session.payment_status
                          (Stripe.Event.data_object event) = "paid"));
        do 2 eexists; split; reflexivity.
    + do 2 eexists; split; reflexivity.
    + do 2 eexists; split; reflexivity.
  - intros p body w.
    destruct (verified_dec p body) as [Hv|Hnot].
    + destruct (Paydunya.Body.customer body) as [customer|] eqn:Hc.
      * destruct (Paydunya.kind body) as [[type reason]|] eqn:Hk.
        -- destruct (Paydunya.Body.invoice body) as [invoice|] eqn:Hi;
             [destruct (Paydunya.Body.custom_data body) as [custom_data|] eqn:Hd|].
           ++ rewrite (handleWebhook_well_typed _ _ _ _ _ w Hv Hc Hi Hd).
              left. reflexivity.
           ++ destruct (handleWebhook_without_objects p body customer w Hv Hc)
                as [message ->]; [congruence|auto|].
              right. eexists. reflexivity.
           ++ destruct (handleWebhook_without_objects p body customer w Hv Hc)
                as [message ->]; [congruence|auto|].
              right. eexists. reflexivity.
        -- rewrite (handleWebhook_unrecognized _ _ _ w Hv Hc Hk).
           left. reflexivity.
      * destruct (handleWebhook_without_customer p body w Hv Hc) as [message ->].
        right. eexists. reflexivity.
    + destruct (paydunya_unverified _ _ w Hnot) as [message ->].
      left. reflexivity.
Qed.

(** A witness of C2's theorem: the paid session of the examples. *)
Lemma returned_event_is_last_emitted_witness :
  exists events result,
    Stripe.handleWebhook
      (Stripe.useEventEmitter Examples.emitter
         (Examples.stripe (Examples.completed "paid")))
      "{}" Examples.signed World0
    = (Normal (Some result), with_emitted World0 events)
    /\ last (snd <$> events) = Some result.
Proof.
  apply (proj1 (proj2 returned_event_is_last_emitted) Examples.emitter
           (Examples.stripe (Examples.completed "paid")) "{}" Examples.signed
           (Examples.completed "paid") "tx-42" World0).
  - apply example_verified.
  - left. reflexivity.
  - reflexivity.
Defined.

(** C2 as stated fails for the Paydunya provider: on a verified body of
    the declared shape with status "completed" its handler hands a
    PAYMENT_SUCCESSFUL event to the emitter and returns nothing, so it
    does not return the last event it emitted. *)
Theorem paydunya_returns_nothing_after_emitting :
  let body :=
    Examples.body (Some (Examples.digest "master-key")) "completed"
      (Some Examples.tx42) (Some Examples.invoice) (Some Examples.wave_customer) in
  Paydunya.handleWebhook Examples.paydunya body World0
  = (Normal None,
     with_emitted World0
       [(PAYMENT_SUCCESSFUL,
         Paydunya.eventLiteral PAYMENT_SUCCESSFUL (Some WAVE) Examples.invoice
           Examples.tx42 None)])
  /\ ~ returns_last_emitted Examples.paydunya.
Proof.
  intros body. split; [reflexivity|].
  intros Hret.
  destruct (Hret body Examples.unsigned World0) as (events & Hemitted & Hresult).
  simpl in Hemitted, Hresult.
  change (Paydunya.handleWebhook Examples.paydunya body World0)
    with (@Normal (option PaymentEvent.t) None,
          with_emitted World0
            [(PAYMENT_SUCCESSFUL,
              Paydunya.eventLiteral PAYMENT_SUCCESSFUL (Some WAVE) Examples.invoice
                Examples.tx42 None)]) in Hemitted, Hresult.
  simpl in Hemitted, Hresult. subst events. discriminate.
Qed.

(** C3, evaluated where the code departs from it: a verified Paydunya body
    of the declared shape whose [custom_data] has no [transaction_id].
    The handler emits a PAYMENT_SUCCESSFUL event whose [transactionId] is
    [undefined]. *)
Theorem paydunya_emits_without_transaction_id :
  let body :=
    Examples.body (Some (Examples.digest "master-key")) "completed"
      (Some ∅) (Some Examples.invoice) (Some Examples.wave_customer) in
  let event :=
    Paydunya.eventLiteral PAYMENT_SUCCESSFUL (Some WAVE) Examples.invoice ∅ None in
  Paydunya.handleWebhook Examples.paydunya body World0
  = (Normal None, with_emitted World0 [(PAYMENT_SUCCESSFUL, event)])
  /\ PaymentEvent.transactionId event = None
  /\ ~ PaymentEvent.has_transactionId event.
Proof.
  intros body event. split; [reflexivity|]. split; [reflexivity|].
  intros (s & Hs & _). discriminate.
Qed.

(** C4. The constructor digests the master key once and caches the
    digest; the handler computes no digest; a body whose hash is missing
    or differs from the cached digest yields no result and no event, so
    that an event is emitted only if the hash equals the digest. *)
Theorem paydunya_hash_gate (sha512_hex : string -> string) :
  (forall config w,
      Paydunya.constructor sha512_hex config w
      = (Normal {| Paydunya.config := config;
                   Paydunya.eventEmitter := None;
                   Paydunya.masterKeySha512Hash :=
                     sha512_hex (Paydunya.masterKey config) |},
         with_digest w (Paydunya.masterKey config)))
  /\ (forall p body w,
         digests (snd (Paydunya.handleWebhook p body w)) = digests w)
  /\ (forall p body w,
         Paydunya.Body.hash body <> Some (Paydunya.masterKeySha512Hash p) ->
         fst (Paydunya.handleWebhook p body w) = Normal None
         /\ emitted (snd (Paydunya.handleWebhook p body w)) = emitted w)
  /\ (forall p body w,
         emitted (snd (Paydunya.handleWebhook p body w)) <> emitted w ->
         Paydunya.Body.hash body = Some (Paydunya.masterKeySha512Hash p)).
Proof.
  assert (Hgate : forall p body w,
             Paydunya.Body.hash body <> Some (Paydunya.masterKeySha512Hash p) ->
             fst (Paydunya.handleWebhook p body w) = Normal None
             /\ emitted (snd (Paydunya.handleWebhook p body w)) = emitted w).
  { intros p body w Hne.
    destruct (paydunya_unverified p body w) as [message ->].
    - intros (hash & Hhash & _ & ->). contradiction.
    - split; reflexivity. }
  split; [|split; [|split]].
  - intros config w. reflexivity.
  - intros p body w.
    destruct (verified_dec p body) as [Hv|Hnot].
    + rewrite (paydunya_verified _ _ Hv).
      unfold Paydunya.handleVerified, Paydunya.bodyEvent, bind, read_of, ret, throw, emit.
      destruct (Paydunya.Body.customer body); [|reflexivity].
      destruct (bool_decide _ && bool_decide _);
        [|destruct (decide (Paydunya.Body.status body = "cancelled"));
          [|destruct (decide (Paydunya.Body.status body = "failed"))]];
        destruct (Paydunya.Body.invoice body), (Paydunya.Body.custom_data body),
          (Paydunya.eventEmitter p); reflexivity.
    + destruct (paydunya_unverified _ _ w Hnot) as [message ->].
      reflexivity.
  - exact Hgate.
  - intros p body w Hemitted.
    destruct (decide (Paydunya.Body.hash body
                      = Some (Paydunya.masterKeySha512Hash p))) as [Heq|Hne];
      [exact Heq|].
    exfalso. apply Hemitted. apply (Hgate p body w Hne).
Qed.

(** A witness of C4's theorem: a body whose hash is not the digest, and the
    contrapositive on a body that made the handler emit. *)
Lemma paydunya_hash_gate_witness :
  (fst (Paydunya.handleWebhook Examples.paydunya
          (Examples.body (Some "0000") "completed" (Some Examples.tx42)
             (Some Examples.invoice) (Some Examples.wave_customer))
          World0)
   = Normal None
   /\ emitted (snd (Paydunya.handleWebhook Examples.paydunya
                      (Examples.body (Some "0000") "completed" (Some Examples.tx42)
                         (Some Examples.invoice) (Some Examples.wave_customer))
                      World0))
      = emitted World0)
  /\ Paydunya.Body.hash
       (Examples.body (Some (Examples.digest "master-key")) "completed"
          (Some Examples.tx42) (Some Examples.invoice)
          (Some Examples.wave_customer))
     = Some (Paydunya.masterKeySha512Hash Examples.paydunya).
Proof.
  destruct (paydunya_hash_gate Examples.digest) as (_ & _ & H3 & H4).
  split.
  - apply H3. vm_compute. discriminate.
  - apply (H4 Examples.paydunya _ World0). vm_compute. discriminate.
Defined.

(** C5. A verified "checkout.session.completed" event whose session has
    [metadata.transactionId = "tx-42"], [amount_total = 5000] and currency
    "XOF": when the session is paid, the handler emits PAYMENT_INITIATED,
    then PAYMENT_SUCCESSFUL, and returns the latter, with these three
    values; otherwise it emits PAYMENT_INITIATED alone and returns it.
    The events go to the emitter set by [useEventEmitter]; the value
    returned is the same without one. *)
Theorem completed_checkout_scenario p rawBody options event metadata w :
  Stripe.verified p rawBody options event ->
  Stripe.Event.type event = "checkout.session.completed" ->
  Stripe.Session.metadata (Stripe.Event.data_object event) = Some metadata ->
  metadata !! "transactionId" = Some "tx-42" ->
  Stripe.Session.amount_total (Stripe.Event.data_object event)
  = Some (Js.of_Z 5000) ->
  Stripe.Session.currency (Stripe.Event.data_object event) = Some "XOF" ->
  let session := Stripe.Event.data_object event in
  let initiated := Stripe.sessionEvent PAYMENT_INITIATED session "tx-42" None in
  let successful := Stripe.sessionEvent PAYMENT_SUCCESSFUL session "tx-42" None in
  (PaymentEvent.type initiated = PAYMENT_INITIATED
   /\ PaymentEvent.type successful = PAYMENT_SUCCESSFUL
   /\ PaymentEvent.transactionId successful = Some (JSON.JStr "tx-42")
   /\ PaymentEvent.transactionAmount successful = Js.of_Z 5000
   /\ PaymentEvent.transactionCurrency successful = Some "XOF")
  /\ (Stripe.Session.payment_status session = "paid" ->
      (forall e,
          Stripe.handleWebhook (Stripe.useEventEmitter e p) rawBody options w
          = (Normal (Some successful),
             with_emitted w
               [(PAYMENT_INITIATED, initiated); (PAYMENT_SUCCESSFUL, successful)]))
      /\ fst (Stripe.handleWebhook p rawBody options w) = Normal (Some successful))
  /\ (Stripe.Session.payment_status session <> "paid" ->
      (forall e,
          Stripe.handleWebhook (Stripe.useEventEmitter e p) rawBody options w
          = (Normal (Some initiated),
             with_emitted w [(PAYMENT_INITIATED, initiated)]))
      /\ fst (Stripe.handleWebhook p rawBody options w) = Normal (Some initiated)).
Proof.
  intros Hv Htype Hmeta Hid Hamount Hcurrency session initiated successful.
  assert (Hentry : Stripe.truthy_entry (Stripe.Session.metadata session)
                     "transactionId" = Some "tx-42").
  { unfold Stripe.truthy_entry, session. rewrite Hmeta, Hid. reflexivity. }
  assert (Hrun : forall q,
             Stripe.verified q rawBody options event ->
             Stripe.handleWebhook q rawBody options w
             = (Normal
                  (last (snd <$>
                           (if decide (Stripe.Session.payment_status session = "paid")
                            then [(PAYMENT_INITIATED, initiated);
                                  (PAYMENT_SUCCESSFUL, successful)]
                            else [(PAYMENT_INITIATED, initiated)]))),
                match Stripe.eventEmitter q with
                | Some _ =>
                    with_emitted w
                      (if decide (Stripe.Session.payment_status session = "paid")
                       then [(PAYMENT_INITIATED, initiated);
                             (PAYMENT_SUCCESSFUL, successful)]
                       else [(PAYMENT_INITIATED, initiated)])
                | None => w
                end)).
  { intros q Hq. rewrite (stripe_verified _ _ _ _ Hq).
    rewrite (handleEvent_correlated q event "tx-42" w Hentry).
    unfold Stripe.normalized. rewrite Htype. reflexivity. }
  split; [|split].
  - unfold successful, initiated, Stripe.sessionEvent, session.
    cbn [PaymentEvent.type PaymentEvent.transactionId
         PaymentEvent.transactionAmount PaymentEvent.transactionCurrency].
    rewrite Hamount, Hcurrency. repeat split; reflexivity.
  - intros Hpaid. split.
    + intros e. rewrite (Hrun _ (verified_useEventEmitter e p _ _ _ Hv)).
      destruct (decide (Stripe.Session.payment_status session = "paid"));
        [reflexivity|contradiction].
    + rewrite (Hrun _ Hv).
      destruct (decide (Stripe.Session.payment_status session = "paid"));
        [reflexivity|contradiction].
  - intros Hunpaid. split.
    + intros e. rewrite (Hrun _ (verified_useEventEmitter e p _ _ _ Hv)).
      destruct (decide (Stripe.Session.payment_status session = "paid"));
        [contradiction|reflexivity].
    + rewrite (Hrun _ Hv).
      destruct (decide (Stripe.Session.payment_status session = "paid"));
        [contradiction|reflexivity].
Qed.

(** A witness of C5's theorem: the paid session of the scenario. *)
Lemma completed_checkout_scenario_witness :
  let session := Examples.session "paid" in
  Stripe.handleWebhook
    (Stripe.useEventEmitter Examples.emitter
       (Examples.stripe (Examples.completed "paid")))
    "{}" Examples.signed World0
  = (Normal (Some (Stripe.sessionEvent PAYMENT_SUCCESSFUL session "tx-42" None)),
     with_emitted World0
       [(PAYMENT_INITIATED,
         Stripe.sessionEvent PAYMENT_INITIATED session "tx-42" None);
        (PAYMENT_SUCCESSFUL,
         Stripe.sessionEvent PAYMENT_SUCCESSFUL session "tx-42" None)]).
Proof.
  refine (proj1 (proj1 (proj2
            (completed_checkout_scenario
               (Examples.stripe (Examples.completed "paid"))
               "{}" Examples.signed (Examples.completed "paid")
               {[ "transactionId" := "tx-42" ]} World0
               _ _ _ _ _ _)) _) Examples.emitter);
    try reflexivity.
  apply example_verified.
Defined.

(** C6, as the code has it. A metadata value [v] given at checkout under a
    key other than "transactionId" is embedded as [JSON.stringify(v)] and
    decoded back to [v] by the webhook handler ([v] ranges over JSON data:
    [well_formed] only asks for numbers in canonical form and objects
    without repeated names); a metadata string that [JSON.parse] rejects is
    decoded as the same string; and a handler that returns an event
    decoded the session's metadata that way and wrote nothing on the
    console. *)
Theorem metadata_round_trip :
  (forall options metadata key v,
      RedirectCheckoutOptions.metadata options = Some metadata ->
      metadata !! key = Some v ->
      key <> "transactionId" ->
      JSON.well_formed v = true ->
      Stripe.parseMetadata
        (Some (Stripe.SessionCreateParams.metadata (Stripe.checkoutParams options)))
        !! key
      = Some v)
  /\ (forall (metadata : gmap string string) key value,
         metadata !! key = Some value ->
         JSON.parse value = None ->
         Stripe.parseMetadata (Some metadata) !! key = Some (JSON.JStr value))
  /\ (forall p rawBody options w result,
         fst (Stripe.handleWebhook p rawBody options w) = Normal (Some result) ->
         console (snd (Stripe.handleWebhook p rawBody options w)) = console w
         /\ exists event,
             Stripe.verified p rawBody options event
             /\ PaymentEvent.metadata result
                = Some (Stripe.parseMetadata
                          (Stripe.Session.metadata (Stripe.Event.data_object event)))).
Proof.
  split; [|split].
  - intros options metadata key v Hmeta Hkey Hne Hwf.
    unfold Stripe.checkoutParams. simpl Stripe.SessionCreateParams.metadata.
    unfold Stripe.parseMetadata, Stripe.checkoutMetadata, Stripe.mapValues.
    rewrite Hmeta, lookup_fmap, lookup_insert_ne by congruence.
    rewrite lookup_fmap, Hkey. simpl.
    rewrite (JsonFacts.parse_stringify v Hwf). reflexivity.
  - intros metadata key value Hkey Hparse.
    unfold Stripe.parseMetadata, Stripe.mapValues.
    rewrite lookup_fmap, Hkey. simpl. rewrite Hparse. reflexivity.
  - intros p rawBody options w result.
    destruct (stripe_verified_or_not p rawBody options) as [[event Hv]|Hnot].
    + rewrite (stripe_verified _ _ _ _ Hv).
      destruct (Stripe.truthy_entry
                  (Stripe.Session.metadata (Stripe.Event.data_object event))
                  "transactionId") as [tid|] eqn:Hid.
      * rewrite (handleEvent_correlated _ _ _ _ Hid). simpl.
        intros [= Hlast]. split.
        -- destruct (Stripe.eventEmitter p); reflexivity.
        -- exists event. split; [exact Hv|].
           apply last_Some_elem_of in Hlast.
           apply list_elem_of_fmap in Hlast as ([ty ev] & -> & Hin).
           pose proof (normalized_events event tid) as Hall.
           rewrite Forall_forall in Hall.
           destruct (Hall _ Hin) as [reason ->]. reflexivity.
      * destruct (recognized_dec (Stripe.Event.type event)) as [Hrec|Hrec].
        -- rewrite (handleEvent_uncorrelated _ _ _ Hrec Hid). discriminate.
        -- rewrite (handleEvent_unrecognized _ _ _ Hrec). discriminate.
    + destruct (stripe_unverified _ _ _ w Hnot) as [message ->].
      discriminate.
Qed.

(** A witness of C6's theorem: the value [{a: 1}] under the key "order", a
    plain text, and the paid session of the scenario. *)
Lemma metadata_round_trip_witness :
  Stripe.parseMetadata
    (Some (Stripe.SessionCreateParams.metadata
             (Stripe.checkoutParams
                (Examples.checkout {[ "order" := Examples.a_is_1 ]}))))
    !! "order"
  = Some Examples.a_is_1
  /\ Stripe.parseMetadata (Some {[ "note" := "leave at the door" ]}) !! "note"
     = Some (JSON.JStr "leave at the door")
  /\ console
       (snd (Stripe.handleWebhook (Examples.stripe (Examples.completed "paid"))
               "{}" Examples.signed World0))
     = console World0.
Proof.
  destruct metadata_round_trip as (H1 & H2 & H3).
  split; [|split].
  - apply (H1 _ {[ "order" := Examples.a_is_1 ]}).
    + reflexivity.
    + reflexivity.
    + discriminate.
    + reflexivity.
  - apply H2.
    + reflexivity.
    + vm_compute. reflexivity.
  - eapply H3. vm_compute. reflexivity.
Defined.

(** C6 as stated fails for the key the provider reserves: a value given
    under "transactionId" is encoded, then replaced by the transaction id
    of the checkout, and the handler decodes that. *)
Lemma reserved_key_is_not_recovered :
  let metadata : gmap string JSON.Json := {[ "transactionId" := Examples.a_is_1 ]} in
  metadata !! "transactionId" = Some Examples.a_is_1
  /\ JSON.well_formed Examples.a_is_1 = true
  /\ Stripe.parseMetadata
       (Some (Stripe.SessionCreateParams.metadata
                (Stripe.checkoutParams (Examples.checkout metadata))))
       !! "transactionId"
     = Some (JSON.JStr "tx-42").
Proof.
  intros metadata. split; [reflexivity|]. split; [reflexivity|].
  unfold Stripe.checkoutParams. simpl Stripe.SessionCreateParams.metadata.
  unfold Stripe.parseMetadata, Stripe.checkoutMetadata, Stripe.mapValues.
  rewrite lookup_fmap, lookup_insert_eq. reflexivity.
Qed.

(** The text of [{a: 1}], and its decoding. *)
Example a_is_1_text :
  JSON.stringify Examples.a_is_1
  = string_of_list_ascii
      ["{"; Chars.quote; "a"; Chars.quote; ":"; "1"; "}"]%char
  /\ JSON.parse (JSON.stringify Examples.a_is_1) = Some Examples.a_is_1.
Proof. split; reflexivity. Qed.

(** C7, as the code has it. A verified Stripe event of a type the handler
    does not act on yields [null], no event and no log line; so does a
    verified Paydunya body with a status it does not act on, provided the
    body has the [customer] object, which the handler reads before it
    looks at the status. *)
Theorem unrecognized_webhooks_yield_nothing :
  (forall p rawBody options event w,
      Stripe.verified p rawBody options event ->
      ~ Stripe.recognized (Stripe.Event.type event) ->
      Stripe.handleWebhook p rawBody options w = (Normal None, w))
  /\ (forall p body customer w,
         Paydunya.verified p body ->
         ~ Paydunya.recognized body ->
         Paydunya.Body.customer body = Some customer ->
         Paydunya.handleWebhook p body w = (Normal None, w)).
Proof.
  split.
  - intros p rawBody options event w Hv Hnot.
    rewrite (stripe_verified _ _ _ _ Hv).
    apply handleEvent_unrecognized. exact Hnot.
  - intros p body customer w Hv Hnot Hc.
    apply (handleWebhook_unrecognized p body customer w Hv Hc).
    destruct (Paydunya.kind body) eqn:Hk; [|reflexivity].
    exfalso. apply Hnot. apply kind_recognized. congruence.
Qed.

(** A witness of C7's theorem: an expired checkout session, and a pending
    invoice. *)
Lemma unrecognized_webhooks_yield_nothing_witness :
  Stripe.handleWebhook (Examples.stripe Examples.expired) "{}" Examples.signed World0
  = (Normal None, World0)
  /\ Paydunya.handleWebhook Examples.paydunya
       (Examples.body (Some (Examples.digest "master-key")) "pending"
          (Some Examples.tx42) (Some Examples.invoice)
          (Some Examples.wave_customer))
       World0
     = (Normal None, World0).
Proof.
  destruct unrecognized_webhooks_yield_nothing as (H1 & H2).
  split.
  - apply (H1 _ _ _ Examples.expired).
    + apply example_verified.
    + intros [H|[H|H]]; vm_compute in H; discriminate.
  - apply (H2 _ _ Examples.wave_customer).
    + exists (Examples.digest "master-key"). repeat split; reflexivity.
    + intros [[H _]|[H|H]]; vm_compute in H; discriminate.
    + reflexivity.
Defined.

(** C7 as stated fails: a verified Paydunya body with the unrecognized
    status "pending" and no [customer] object makes the handler throw
    instead of returning. *)
Lemma paydunya_throws_on_pending_without_customer :
  let body :=
    Examples.body (Some (Examples.digest "master-key")) "pending"
      (Some Examples.tx42) (Some Examples.invoice) None in
  Paydunya.verified Examples.paydunya body
  /\ ~ Paydunya.recognized body
  /\ fst (Paydunya.handleWebhook Examples.paydunya body World0)
     = Throw (TypeError
                "Cannot read properties of undefined (reading 'payment_method')").
Proof.
  intros body. split; [|split].
  - exists (Examples.digest "master-key"). repeat split; reflexivity.
  - intros [[H _]|[H|H]]; vm_compute in H; discriminate.
  - reflexivity.
Qed.

(** C8. The three operations Stripe cannot perform raise a PaymentError
    tagged UNSUPPORTED_PAYMENT_METHOD on every input: the two [async]
    checkouts reject their promise with it, the payout throws it. *)
Theorem stripe_unsupported_operations (p : Stripe.StripePaymentProvider) :
  (forall options,
      Stripe.checkoutMobileMoney p options
      = Normal (Rejected (PaymentError "Stripe does not support mobile money payments"
                            (Some UNSUPPORTED_PAYMENT_METHOD))))
  /\ (forall options,
         Stripe.checkoutCreditCard p options
         = Normal (Rejected
                     (PaymentError
                        "Stripe does not support credit card payments. Use credit card tokens instead"
                        (Some UNSUPPORTED_PAYMENT_METHOD))))
  /\ (forall options,
         Stripe.payoutMobileMoney p options
         = Throw (PaymentError "Stripe does not support mobile money payouts"
                    (Some UNSUPPORTED_PAYMENT_METHOD)))
  /\ (forall mobile card payout,
         exists m1 m2 m3,
           await (Stripe.checkoutMobileMoney p mobile)
           = Throw (PaymentError m1 (Some UNSUPPORTED_PAYMENT_METHOD))
           /\ await (Stripe.checkoutCreditCard p card)
              = Throw (PaymentError m2 (Some UNSUPPORTED_PAYMENT_METHOD))
           /\ await (Stripe.payoutMobileMoney p payout)
              = Throw (PaymentError m3 (Some UNSUPPORTED_PAYMENT_METHOD))).
Proof.
  repeat split. intros mobile card payout.
  do 3 eexists. repeat split.
Qed.



(** C9 on the example: the amount "5000" of the webhook is the number 5000
    of the event the handler emits. *)
Example paydunya_amount_5000 :
  PaymentEvent.transactionAmount <$>
    (snd <$>
       emitted (snd (Paydunya.handleWebhook Examples.paydunya
                       (Examples.body (Some (Examples.digest "master-key"))
                          "completed" (Some Examples.tx42)
                          (Some Examples.invoice) (Some Examples.wave_customer))
                       World0)))
  = [Js.of_Z 5000].
Proof. reflexivity. Qed.

(** C10. Every event the Stripe handler emits, and the event it returns,
    has the payment method CREDIT_CARD. *)
Theorem stripe_events_are_credit_card p rawBody options w :
  (exists events,
      emitted (snd (Stripe.handleWebhook p rawBody options w)) = emitted w ++ events
      /\ Forall (fun te => PaymentEvent.paymentMethod (snd te) = Some CREDIT_CARD)
           events)
  /\ match fst (Stripe.handleWebhook p rawBody options w) with
     | Normal (Some event) => PaymentEvent.paymentMethod event = Some CREDIT_CARD
     | _ => True
     end.
Proof.
  destruct (stripe_verified_or_not p rawBody options) as [[event Hv]|Hnot].
  - rewrite (stripe_verified _ _ _ _ Hv).
    destruct (Stripe.truthy_entry
                (Stripe.Session.metadata (Stripe.Event.data_object event))
                "transactionId") as [tid|] eqn:Hid.
    + rewrite (handleEvent_correlated _ _ _ _ Hid). simpl.
      pose proof (normalized_events event tid) as Hall.
      assert (Hcard : Forall (fun te => PaymentEvent.paymentMethod (snd te)
                                        = Some CREDIT_CARD)
                        (Stripe.normalized event tid)).
      { eapply Forall_impl; [exact Hall|].
        intros [ty ev] [reason Hev]. simpl in *. subst ev. reflexivity. }
      split.
      * destruct (Stripe.eventEmitter p).
        -- exists (Stripe.normalized event tid). split; [reflexivity|exact Hcard].
        -- exists []. rewrite app_nil_r. split; [reflexivity|constructor].
      * destruct (last (snd <$> Stripe.normalized event tid)) as [ev|] eqn:Hlast;
          [|exact I].
        apply last_Some_elem_of in Hlast.
        apply list_elem_of_fmap in Hlast as ([ty ev'] & -> & Hin).
        rewrite Forall_forall in Hcard. exact (Hcard _ Hin).
    + destruct (recognized_dec (Stripe.Event.type event)) as [Hrec|Hrec].
      * rewrite (handleEvent_uncorrelated _ _ _ Hrec Hid). simpl.
        split; [|exact I].
        exists []. rewrite app_nil_r. split; [reflexivity|constructor].
      * rewrite (handleEvent_unrecognized _ _ _ Hrec). simpl.
        split; [|exact I].
        exists []. rewrite app_nil_r. split; [reflexivity|constructor].
  - destruct (stripe_unverified _ _ _ w Hnot) as [message ->].
    simpl. split; [|exact I].
    exists []. rewrite app_nil_r. split; [reflexivity|constructor].
Qed.

(** * Further properties of the code *)

(** ** The events of the Stripe handler *)

(** X2. The value the Stripe handler returns and the lines it logs are
    the same with and without an emitter; without one nothing is
    delivered. *)
Theorem stripe_result_ignores_emitter e p rawBody options w :
  fst (Stripe.handleWebhook (Stripe.useEventEmitter e p) rawBody options w)
  = fst (Stripe.handleWebhook p rawBody options w)
  /\ console (snd (Stripe.handleWebhook (Stripe.useEventEmitter e p)
                     rawBody options w))
     = console (snd (Stripe.handleWebhook p rawBody options w))
  /\ emitted
       (snd (Stripe.handleWebhook
               {| Stripe.config := Stripe.config p;
                  Stripe.stripe := Stripe.stripe p;
                  Stripe.eventEmitter := None;
                  Stripe.webhookSecret := Stripe.webhookSecret p |}
               rawBody options w))
     = emitted w.
Proof.
  assert (Hrun : forall q,
             Stripe.stripe q = Stripe.stripe p ->
             Stripe.webhookSecret q = Stripe.webhookSecret p ->
             fst (Stripe.handleWebhook q rawBody options w)
             = fst (Stripe.handleWebhook p rawBody options w)
             /\ console (snd (Stripe.handleWebhook q rawBody options w))
                = console (snd (Stripe.handleWebhook p rawBody options w))
             /\ (Stripe.eventEmitter q = None ->
                 emitted (snd (Stripe.handleWebhook q rawBody options w))
                 = emitted w)).
  { intros q Hclient Hsecret. unfold Stripe.handleWebhook.
    rewrite Hclient, Hsecret.
    destruct (Stripe.truthy_entry _ _) as [signature|]; [|auto].
    destruct (Stripe.webhookSecret p) as [secret|]; [|auto].
    destruct (Js.truthy secret); [|auto].
    destruct (Stripe.webhooks_constructEvent _ _ _ _) as [event|error]; [|auto].
    destruct (Stripe.truthy_entry
                (Stripe.Session.metadata (Stripe.Event.data_object event))
                "transactionId") as [tid|] eqn:Hid.
    - rewrite !(handleEvent_correlated _ _ _ _ Hid).
      split; [reflexivity|]. split.
      + destruct (Stripe.eventEmitter q), (Stripe.eventEmitter p); reflexivity.
      + intros ->. reflexivity.
    - destruct (recognized_dec (Stripe.Event.type event)) as [Hrec|Hrec].
      + rewrite !(handleEvent_uncorrelated _ _ _ Hrec Hid). auto.
      + rewrite !(handleEvent_unrecognized _ _ _ Hrec). auto. }
  destruct (Hrun (Stripe.useEventEmitter e p) eq_refl eq_refl) as (H1 & H2 & _).
  split; [exact H1|]. split; [exact H2|].
  apply Hrun; reflexivity.
Qed.

(** X3. Every event the Stripe handler hands to the emitter is delivered
    on the channel of its own type and is built from the session of a
    verified event: the session's id as the reference, [Number] of its
    [amount_total] (0 when it is [null]) as the amount, its currency, the
    provider's name, no redirect URL, and the reason "Payment failed" on
    a PAYMENT_FAILED event and none on the others. *)
Theorem stripe_event_provenance p rawBody options w :
  exists events,
    emitted (snd (Stripe.handleWebhook p rawBody options w)) = emitted w ++ events
    /\ Forall
         (fun te =>
            exists event,
              Stripe.verified p rawBody options event
              /\ let session := Stripe.Event.data_object event in
                 PaymentEvent.type (snd te) = fst te
                 /\ PaymentEvent.transactionReference (snd te)
                    = Stripe.Session.id session
                 /\ PaymentEvent.transactionAmount (snd te)
                    = match Stripe.Session.amount_total session with
                      | Some amount => amount
                      | None => Js.of_Z 0
                      end
                 /\ PaymentEvent.transactionCurrency (snd te)
                    = Stripe.Session.currency session
                 /\ PaymentEvent.paymentProvider (snd te)
                    = Some "StripePaymentProvider"
                 /\ PaymentEvent.redirectUrl (snd te) = None
                 /\ PaymentEvent.reason (snd te)
                    = match fst te with
                      | PAYMENT_FAILED => Some "Payment failed"
                      | _ => None
                      end)
         events.
Proof.
  destruct (stripe_verified_or_not p rawBody options) as [[event Hv]|Hnot].
  - rewrite (stripe_verified _ _ _ _ Hv).
    destruct (Stripe.truthy_entry
                (Stripe.Session.metadata (Stripe.Event.data_object event))
                "transactionId") as [tid|] eqn:Hid.
    + rewrite (handleEvent_correlated _ _ _ _ Hid).
      destruct (Stripe.eventEmitter p).
      * exists (Stripe.normalized event tid). split; [reflexivity|].
        unfold Stripe.normalized.
        repeat case_decide; repeat constructor; exists event;
          (split; [exact Hv|]); simpl; repeat split; reflexivity.
      * exists []. rewrite app_nil_r. split; [reflexivity|constructor].
    + destruct (recognized_dec (Stripe.Event.type event)) as [Hrec|Hrec].
      * rewrite (handleEvent_uncorrelated _ _ _ Hrec Hid). simpl.
        exists []. rewrite app_nil_r. split; [reflexivity|constructor].
      * rewrite (handleEvent_unrecognized _ _ _ Hrec). simpl.
        exists []. rewrite app_nil_r. split; [reflexivity|constructor].
  - destruct (stripe_unverified _ _ _ w Hnot) as [message ->]. simpl.
    exists []. rewrite app_nil_r. split; [reflexivity|constructor].
Qed.

(** X4. A verified "checkout.session.async_payment_succeeded" event of a
    session that carries a transaction id yields exactly one
    PAYMENT_SUCCESSFUL event, and a verified
    "checkout.session.async_payment_failed" event exactly one
    PAYMENT_FAILED event with the reason "Payment failed"; the event is
    returned, whatever the session's [payment_status], and nothing is
    logged. *)
Theorem stripe_async_payment_events e p rawBody options event transactionId w :
  Stripe.verified p rawBody options event ->
  Stripe.truthy_entry (Stripe.Session.metadata (Stripe.Event.data_object event))
    "transactionId" = Some transactionId ->
  let session := Stripe.Event.data_object event in
  let successful :=
    Stripe.sessionEvent PAYMENT_SUCCESSFUL session transactionId None in
  let failed :=
    Stripe.sessionEvent PAYMENT_FAILED session transactionId
      (Some "Payment failed") in
  (Stripe.Event.type event = "checkout.session.async_payment_succeeded" ->
   Stripe.handleWebhook (Stripe.useEventEmitter e p) rawBody options w
   = (Normal (Some successful), with_emitted w [(PAYMENT_SUCCESSFUL, successful)]))
  /\ (Stripe.Event.type event = "checkout.session.async_payment_failed" ->
      Stripe.handleWebhook (Stripe.useEventEmitter e p) rawBody options w
      = (Normal (Some failed), with_emitted w [(PAYMENT_FAILED, failed)])).
Proof.
  intros Hv Hid session successful failed.
  rewrite (stripe_verified _ _ _ _ (verified_useEventEmitter e p _ _ _ Hv)).
  rewrite (handleEvent_correlated _ _ _ _ Hid).
  unfold Stripe.normalized.
  split; intros ->; reflexivity.
Qed.

(** A witness of X4: a failed asynchronous payment of the example
    session. *)
Lemma stripe_async_payment_events_witness :
  let event :=
    Scenarios.event_of "checkout.session.async_payment_failed"
      (Examples.session "unpaid") in
  let failed :=
    Stripe.sessionEvent PAYMENT_FAILED (Examples.session "unpaid") "tx-42"
      (Some "Payment failed") in
  Stripe.handleWebhook
    (Stripe.useEventEmitter Examples.emitter (Examples.stripe event))
    "{}" Examples.signed World0
  = (Normal (Some failed), with_emitted World0 [(PAYMENT_FAILED, failed)]).
Proof.
  intros event failed.
  refine (proj2 (stripe_async_payment_events Examples.emitter
                   (Examples.stripe event) "{}" Examples.signed event "tx-42"
                   World0 _ _) _).
  - apply example_verified.
  - reflexivity.
  - reflexivity.
Defined.

(** ** From the checkout to the webhook *)

(** X5. The transaction id given to [checkoutRedirect] comes back: when
    Stripe echoes the metadata of the session the checkout asked for in
    a verified event of a type the handler acts on, the event returned
    carries that transaction id, provided it is not the empty string;
    with an empty transaction id the handler logs a warning and returns
    [null]. *)
Theorem stripe_checkout_webhook_correlation p rawBody options event checkout w :
  Stripe.verified p rawBody options event ->
  Stripe.recognized (Stripe.Event.type event) ->
  Stripe.Session.metadata (Stripe.Event.data_object event)
  = Some (Stripe.SessionCreateParams.metadata (Stripe.checkoutParams checkout)) ->
  let transactionId := RedirectCheckoutOptions.transactionId checkout in
  (transactionId <> EmptyString ->
   exists result,
     fst (Stripe.handleWebhook p rawBody options w) = Normal (Some result)
     /\ PaymentEvent.transactionId result = Some (JSON.JStr transactionId))
  /\ (transactionId = EmptyString ->
      Stripe.handleWebhook p rawBody options w
      = (Normal None,
         with_console w [(Warn, "No transaction ID found in stripe webhook")])).
Proof.
  intros Hv Hrec Hmeta transactionId.
  rewrite (stripe_verified _ _ _ _ Hv).
  assert (Hentry :
            Stripe.truthy_entry
              (Stripe.Session.metadata (Stripe.Event.data_object event))
              "transactionId"
            = if Js.truthy transactionId then Some transactionId else None).
  { rewrite Hmeta. unfold Stripe.truthy_entry, Stripe.checkoutParams.
    simpl Stripe.SessionCreateParams.metadata.
    unfold Stripe.checkoutMetadata. rewrite lookup_insert_eq. reflexivity. }
  split.
  - intros Hne.
    destruct transactionId as [|c s] eqn:Htid; [contradiction|].
    simpl in Hentry. rewrite (handleEvent_correlated _ _ _ _ Hentry). simpl.
    unfold Stripe.normalized. destruct Hrec as [Ht|[Ht|Ht]]; rewrite Ht.
    + destruct (decide (Stripe.Session.payment_status
                          (Stripe.Event.data_object event) = "paid"));
        eexists; split; reflexivity.
    + eexists; split; reflexivity.
    + eexists; split; reflexivity.
  - intros Hempty. rewrite Hempty in Hentry. simpl in Hentry.
    apply (handleEvent_uncorrelated _ _ _ Hrec Hentry).
Qed.

(** A witness of X5: the checkout of the examples, and the session
    Stripe opened for it. *)
Lemma stripe_checkout_webhook_correlation_witness :
  let event :=
    Scenarios.event_of "checkout.session.completed"
      (Scenarios.opened {[ "order" := Examples.a_is_1 ]}) in
  exists result,
    fst (Stripe.handleWebhook (Examples.stripe event) "{}" Examples.signed World0)
    = Normal (Some result)
    /\ PaymentEvent.transactionId result = Some (JSON.JStr "tx-42").
Proof.
  intros event.
  refine (proj1 (stripe_checkout_webhook_correlation
                   (Examples.stripe event) "{}" Examples.signed event
                   (Examples.checkout {[ "order" := Examples.a_is_1 ]}) World0
                   _ _ _) _).
  - apply example_verified.
  - left. reflexivity.
  - reflexivity.
  - discriminate.
Defined.

(** X6. The metadata of the event, as a whole: when Stripe echoes the
    metadata of the session, the handler decodes it to the metadata
    given at checkout (JSON data) with one more entry, "transactionId",
    which holds what [JSON.parse] makes of the transaction id when it
    accepts it, and the transaction id itself otherwise. *)
Theorem stripe_metadata_decoded checkout :
  let metadata :=
    match RedirectCheckoutOptions.metadata checkout with
    | Some metadata => metadata
    | None => ∅
    end in
  let transactionId := RedirectCheckoutOptions.transactionId checkout in
  (forall key v, metadata !! key = Some v -> JSON.well_formed v = true) ->
  Stripe.parseMetadata
    (Some (Stripe.SessionCreateParams.metadata (Stripe.checkoutParams checkout)))
  = <["transactionId" :=
        match JSON.parse transactionId with
        | Some v => v
        | None => JSON.JStr transactionId
        end]> metadata.
Proof.
  intros metadata transactionId Hwf.
  unfold Stripe.checkoutParams. simpl Stripe.SessionCreateParams.metadata.
  unfold Stripe.parseMetadata, Stripe.checkoutMetadata, Stripe.mapValues.
  apply map_eq. intros key. rewrite lookup_fmap.
  destruct (decide (key = "transactionId")) as [->|Hne].
  - rewrite !lookup_insert_eq. reflexivity.
  - rewrite !lookup_insert_ne by congruence.
    assert (Hsame :
              match RedirectCheckoutOptions.metadata checkout with
              | Some o => JSON.stringify <$> o
              | None => ∅
              end !! key
              = JSON.stringify <$> metadata !! key).
    { unfold metadata. destruct (RedirectCheckoutOptions.metadata checkout).
      - apply lookup_fmap.
      - rewrite !lookup_empty. reflexivity. }
    rewrite Hsame.
    destruct (metadata !! key) as [v|] eqn:Hkey; [|reflexivity].
    simpl. rewrite (JsonFacts.parse_stringify v (Hwf _ _ Hkey)). reflexivity.
Qed.

(** A witness of X6: the transaction id "42" shows up in the metadata
    as the number 42. *)
Lemma stripe_metadata_decoded_witness :
  let checkout :=
    {| RedirectCheckoutOptions.amount := Js.of_Z 5000;
       RedirectCheckoutOptions.description := "Order";
       RedirectCheckoutOptions.currency := XOF;
       RedirectCheckoutOptions.transactionId := "42";
       RedirectCheckoutOptions.customer :=
         RedirectCheckoutOptions.customer (Examples.checkout ∅);
       RedirectCheckoutOptions.metadata := Some {[ "order" := Examples.a_is_1 ]};
       RedirectCheckoutOptions.paymentMethod := CREDIT_CARD;
       RedirectCheckoutOptions.successRedirectUrl := "https://shop.example/ok";
       RedirectCheckoutOptions.failureRedirectUrl := "https://shop.example/ko" |} in
  Stripe.parseMetadata
    (Some (Stripe.SessionCreateParams.metadata (Stripe.checkoutParams checkout)))
  = <["transactionId" := JSON.JNum (Js.Dec 42 0)]> {[ "order" := Examples.a_is_1 ]}.
Proof.
  intros checkout.
  apply (stripe_metadata_decoded checkout).
  intros key v Hkey. simpl in Hkey.
  apply lookup_singleton_Some in Hkey as [_ <-]. reflexivity.
Defined.

(** X7. [checkoutRedirect] returns exactly when Stripe opens a session
    with a non-empty URL: the result is then pending, refers to the
    session by its id, redirects to its URL and repeats the transaction
    id, amount and currency of the options. It fails with Stripe's own
    error when the session cannot be opened, and with a PaymentError
    tagged UNKNOWN_ERROR when the session has no URL. *)
Theorem checkoutRedirect_outcome p options :
  (forall result,
      Stripe.checkoutRedirect p options = Normal result ->
      exists session url,
        Stripe.checkout_sessions_create (Stripe.stripe p)
          (Stripe.checkoutParams options) = Normal session
        /\ Stripe.Session.url session = Some url
        /\ url <> EmptyString
        /\ result
           = {| CheckoutResult.transactionAmount :=
                  RedirectCheckoutOptions.amount options;
                CheckoutResult.transactionCurrency :=
                  RedirectCheckoutOptions.currency options;
                CheckoutResult.transactionId :=
                  RedirectCheckoutOptions.transactionId options;
                CheckoutResult.transactionReference := Stripe.Session.id session;
                CheckoutResult.transactionStatus := PENDING;
                CheckoutResult.redirectUrl := Some url |})
  /\ (forall session url,
         Stripe.checkout_sessions_create (Stripe.stripe p)
           (Stripe.checkoutParams options) = Normal session ->
         Stripe.Session.url session = Some url ->
         url <> EmptyString ->
         exists result, Stripe.checkoutRedirect p options = Normal result)
  /\ (forall error,
         Stripe.checkoutRedirect p options = Throw error ->
         Stripe.checkout_sessions_create (Stripe.stripe p)
           (Stripe.checkoutParams options) = Throw error
         \/ error = PaymentError "Stripe did not return a checkout URL"
                      (Some UNKNOWN_ERROR)).
Proof.
  unfold Stripe.checkoutRedirect.
  destruct (Stripe.checkout_sessions_create _ _) as [session|e].
  - destruct (Stripe.Session.url session) as [[|c u]|] eqn:Hurl; simpl.
    + split; [discriminate|]. split.
      * intros s u [= <-] Hu Hne. rewrite Hurl in Hu.
        injection Hu as <-. contradiction.
      * intros error [= <-]. right. reflexivity.
    + split.
      * intros result [= <-]. exists session, (String c u).
        repeat split; auto.
      * split; [eauto|discriminate].
    + split; [discriminate|]. split.
      * intros s u [= <-] Hu. rewrite Hurl in Hu. discriminate.
      * intros error [= <-]. right. reflexivity.
  - split; [discriminate|]. split; [discriminate|].
    intros error [= <-]. left. reflexivity.
Qed.

(** A witness of X7: the checkout of the examples, at a Stripe that
    opens a session for it. *)
Lemma checkoutRedirect_outcome_witness :
  exists result,
    Stripe.checkoutRedirect (Scenarios.checkout_provider (Scenarios.opened ∅))
      (Examples.checkout ∅)
    = Normal result.
Proof.
  refine (proj1 (proj2 (checkoutRedirect_outcome
                          (Scenarios.checkout_provider (Scenarios.opened ∅))
                          (Examples.checkout ∅)))
            (Scenarios.opened ∅) _ _ _ _).
  - reflexivity.
  - reflexivity.
  - discriminate.
Defined.

(** ** Setting the Stripe provider up *)

Lemma find_url_none (url : string) endpoints :
  find (fun webhook =>
          bool_decide (StripeOperations.WebhookEndpoint.url webhook = url))
    endpoints = None ->
  Forall (fun webhook => StripeOperations.WebhookEndpoint.url webhook <> url)
    endpoints.
Proof.
  induction endpoints as [|ep l IH]; simpl; [constructor|].
  case_bool_decide as Hurl; [discriminate|].
  intros Hfind. constructor; auto.
Qed.

Lemma find_url_some (url : string) endpoints :
  Exists (fun webhook => StripeOperations.WebhookEndpoint.url webhook = url)
    endpoints ->
  exists webhook,
    find (fun webhook =>
            bool_decide (StripeOperations.WebhookEndpoint.url webhook = url))
      endpoints = Some webhook.
Proof.
  induction 1 as [ep l Hep|ep l _ IH]; simpl.
  - rewrite bool_decide_eq_true_2 by exact Hep. eauto.
  - case_bool_decide; eauto.
Qed.

(** X8. The constructor never fails, and once [init] has settled the
    provider verifies webhooks either with the configured secret or
    with the secret of an endpoint it has just installed. It installs
    one, subscribed to the four events of [enabled_events], only when a
    webhook URL is configured and no endpoint Stripe lists has that URL;
    the secret of that endpoint then replaces the configured one. In
    every other case the configured secret stays, the requests sent
    are at most the listing and one failed installation, and nothing is
    emitted. *)
Theorem stripe_constructor_settles client api config n :
  exists p n',
    StripeOperations.constructor client api config n = (Normal p, n')
    /\ Stripe.config p = config
    /\ Stripe.stripe p = client
    /\ Stripe.eventEmitter p = None
    /\ emitted (Net.world n') = emitted (Net.world n)
    /\ ((Stripe.webhookSecret p = Stripe.config_webhookSecret config
         /\ (Net.sent n' = Net.sent n
             \/ Net.sent n' = Net.sent n ++ [StripeOperations.ListWebhookEndpoints]
             \/ exists params error,
                 StripeOperations.webhookEndpoints_create api params = Throw error
                 /\ Net.sent n'
                    = Net.sent n
                      ++ [StripeOperations.ListWebhookEndpoints;
                          StripeOperations.CreateWebhookEndpoint params]))
        \/ exists url endpoints installed,
            let params :=
              {| StripeOperations.WebhookEndpointCreateParams.enabled_events :=
                   StripeOperations.enabled_events;
                 StripeOperations.WebhookEndpointCreateParams.url := url |} in
            Stripe.webhookUrl config = Some url
            /\ url <> EmptyString
            /\ StripeOperations.webhookEndpoints_list api = Normal endpoints
            /\ Forall (fun webhook =>
                         StripeOperations.WebhookEndpoint.url webhook <> url)
                 endpoints
            /\ StripeOperations.webhookEndpoints_create api params = Normal installed
            /\ Stripe.webhookSecret p
               = StripeOperations.WebhookEndpoint.secret installed
            /\ Net.world n' = Net.world n
            /\ Net.sent n'
               = Net.sent n
                 ++ [StripeOperations.ListWebhookEndpoints;
                     StripeOperations.CreateWebhookEndpoint params]).
Proof.
  unfold StripeOperations.constructor, StripeOperations.init.
  cbn [Stripe.config Stripe.webhookUrl].
  destruct n as [w sent].
  destruct (Stripe.webhookUrl config) as [url|] eqn:Hurl;
    [destruct (Js.truthy url) eqn:Htruthy|].
  - unfold Net.bind, Net.request, Net.ret, Net.lift. cbn [Net.world Net.sent].
    destruct (StripeOperations.webhookEndpoints_list api) as [endpoints|error]
      eqn:Hlist.
    + destruct (find _ endpoints) as [existing|] eqn:Hfind.
      * do 2 eexists. split; [reflexivity|]. cbn.
        repeat split; auto.
      * destruct (StripeOperations.webhookEndpoints_create api _)
          as [installed|error] eqn:Hcreate.
        -- do 2 eexists. split; [reflexivity|]. cbn.
           repeat (split; [reflexivity|]). right.
           exists url, endpoints, installed. cbn.
           rewrite <- app_assoc.
           repeat split; auto using find_url_none.
           intros ->. discriminate.
        -- do 2 eexists. split; [reflexivity|]. cbn.
           repeat (split; [reflexivity|]). left. split; [reflexivity|].
           right. right. do 2 eexists. split; [exact Hcreate|].
           rewrite <- app_assoc. reflexivity.
    + do 2 eexists. split; [reflexivity|]. cbn.
      repeat split; auto.
  - do 2 eexists. split; [reflexivity|]. cbn. repeat split; auto.
  - do 2 eexists. split; [reflexivity|]. cbn. repeat split; auto.
Qed.

(** X9. A provider configured with a webhook URL but no secret, at a
    Stripe that already lists an endpoint with that URL: the constructor
    installs nothing and has no secret, so the handler drops every
    webhook with a warning, whatever its signature. *)
Theorem stripe_existing_endpoint_without_secret client api config url endpoints n :
  Stripe.webhookUrl config = Some url ->
  url <> EmptyString ->
  Stripe.config_webhookSecret config = None ->
  StripeOperations.webhookEndpoints_list api = Normal endpoints ->
  Exists (fun webhook => StripeOperations.WebhookEndpoint.url webhook = url)
    endpoints ->
  exists p n',
    StripeOperations.constructor client api config n = (Normal p, n')
    /\ Net.sent n' = Net.sent n ++ [StripeOperations.ListWebhookEndpoints]
    /\ forall rawBody options w,
        exists message,
          Stripe.handleWebhook p rawBody options w
          = (Normal None, with_console w [(Warn, message)]).
Proof.
  intros Hurl Hne Hsecret Hlist Hexists.
  destruct (find_url_some url endpoints Hexists) as [existing Hfind].
  unfold StripeOperations.constructor, StripeOperations.init.
  cbn [Stripe.config Stripe.webhookUrl]. rewrite Hurl.
  destruct url as [|c url]; [contradiction|]. cbn [Js.truthy].
  unfold Net.bind, Net.request, Net.ret. rewrite Hlist, Hfind.
  do 2 eexists. split; [reflexivity|]. split; [reflexivity|].
  intros rawBody options w. unfold Stripe.handleWebhook.
  cbn [Stripe.webhookSecret]. rewrite Hsecret.
  destruct (Stripe.truthy_entry _ _); eexists; reflexivity.
Qed.

(** A witness of X9: the signed request of the examples is dropped. *)
Lemma stripe_existing_endpoint_without_secret_witness :
  exists p n',
    StripeOperations.constructor (Examples.client (Examples.completed "paid"))
      (Scenarios.api [Scenarios.endpoint] None) (Scenarios.hooked None)
      (Net.start World0)
    = (Normal p, n')
    /\ Net.sent n' = [StripeOperations.ListWebhookEndpoints]
    /\ forall rawBody options w,
        exists message,
          Stripe.handleWebhook p rawBody options w
          = (Normal None, with_console w [(Warn, message)]).
Proof.
  apply (stripe_existing_endpoint_without_secret
           (Examples.client (Examples.completed "paid"))
           (Scenarios.api [Scenarios.endpoint] None) (Scenarios.hooked None)
           "https://shop.example/webhooks/stripe" [Scenarios.endpoint]
           (Net.start World0)).
  - reflexivity.
  - discriminate.
  - reflexivity.
  - reflexivity.
  - constructor. reflexivity.
Defined.

(** X10. Every event type the handler acts on is among those [init]
    subscribes the endpoint to. The converse fails for one type: the
    endpoint also receives "checkout.session.expired", and a verified
    event of that type yields [null], no event and no log line. *)
Theorem stripe_subscribed_events :
  (forall type,
      Stripe.recognized type
      <-> In type StripeOperations.enabled_events
          /\ type <> "checkout.session.expired")
  /\ (forall p rawBody options event w,
         Stripe.verified p rawBody options event ->
         Stripe.Event.type event = "checkout.session.expired" ->
         Stripe.handleWebhook p rawBody options w = (Normal None, w)).
Proof.
  split.
  - intros type. unfold Stripe.recognized, StripeOperations.enabled_events.
    simpl. split.
    + intros [Ht|[Ht|Ht]]; subst type; split; auto; discriminate.
    + intros [Hin Hne].
      destruct Hin as [Hin|[Hin|[Hin|[Hin|[]]]]]; subst type; auto. contradiction.
  - intros p rawBody options event w Hv Htype.
    rewrite (stripe_verified _ _ _ _ Hv).
    apply handleEvent_unrecognized. rewrite Htype.
    intros [H|[H|H]]; discriminate.
Qed.

(** A witness of X10: the expired session of the examples. *)
Lemma stripe_subscribed_events_witness :
  Stripe.handleWebhook (Examples.stripe Examples.expired) "{}" Examples.signed
    World0
  = (Normal None, World0).
Proof.
  apply (proj2 stripe_subscribed_events _ _ _ Examples.expired).
  - apply example_verified.
  - reflexivity.
Defined.

(** ** Refunds by the Stripe provider *)

(** X11. [refund] looks the session up first, and asks Stripe for at
    most one refund, only after it has found the session and a payment
    intent on it: the refund is then requested on the id of that intent,
    be it given as an id or as an expanded object, for the amount of the
    options and the reason "requested_by_customer". [refund] emits no
    event and logs nothing. *)
Theorem stripe_refund_requests api options n :
  let reference := StripeOperations.RefundOptions.refundedTransactionReference options in
  let run := StripeOperations.refund api options n in
  Net.world (snd run) = Net.world n
  /\ (Net.sent (snd run) = Net.sent n ++ [StripeOperations.RetrieveSession reference]
      \/ exists session intent,
          StripeOperations.checkout_sessions_retrieve api reference
          = Normal (Some session)
          /\ (StripeOperations.RetrievedSession.payment_intent session
              = Some (StripeOperations.IntentId intent)
              \/ StripeOperations.RetrievedSession.payment_intent session
                 = Some (StripeOperations.IntentObject intent))
          /\ Net.sent (snd run)
             = Net.sent n
               ++ [StripeOperations.RetrieveSession reference;
                   StripeOperations.CreateRefund
                     {| StripeOperations.RefundCreateParams.payment_intent := intent;
                        StripeOperations.RefundCreateParams.amount :=
                          StripeOperations.RefundOptions.refundedAmount options;
                        StripeOperations.RefundCreateParams.reason :=
                          "requested_by_customer" |}]).
Proof.
  intros reference run. subst run.
  unfold StripeOperations.refund, Net.bind, Net.request, Net.ret, Net.throw.
  fold reference.
  destruct (StripeOperations.checkout_sessions_retrieve api reference)
    as [[session|]|error] eqn:Hsession; cbn; auto.
  destruct (StripeOperations.intent_id _) as [intent|] eqn:Hintent; cbn; auto.
  assert (Hgiven :
            StripeOperations.RetrievedSession.payment_intent session
            = Some (StripeOperations.IntentId intent)
            \/ StripeOperations.RetrievedSession.payment_intent session
               = Some (StripeOperations.IntentObject intent)).
  { unfold StripeOperations.intent_id in Hintent.
    destruct (StripeOperations.RetrievedSession.payment_intent session)
      as [[id|id]|]; [destruct (Js.truthy id)| |];
      try discriminate; injection Hintent as ->; auto. }
  destruct (StripeOperations.refunds_create api _) as [refund|error]; cbn;
    (split; [reflexivity|]); right; exists session, intent;
    rewrite <- app_assoc; auto.
Qed.

(** X12. What [refund] returns and how it fails. When it returns, the
    result repeats the transaction id of the options, has the status
    SUCCESS, and takes its reference, amount and currency from the
    refund Stripe created, not from the options. A reference Stripe
    finds no session for, and a session without a payment intent ([null]
    or the empty string), make it fail with a PaymentError tagged
    UNKNOWN_ERROR; an error of Stripe is passed on as it is. *)
Theorem stripe_refund_outcome api options n :
  let reference := StripeOperations.RefundOptions.refundedTransactionReference options in
  let outcome := fst (StripeOperations.refund api options n) in
  (forall result,
      outcome = Normal result ->
      exists session intent refund,
        StripeOperations.checkout_sessions_retrieve api reference
        = Normal (Some session)
        /\ StripeOperations.intent_id
             (StripeOperations.RetrievedSession.payment_intent session)
           = Some intent
        /\ StripeOperations.refunds_create api
             (StripeOperations.refundParams options intent)
           = Normal refund
        /\ result
           = {| StripeOperations.RefundResult.transactionId :=
                  StripeOperations.RefundOptions.transactionId options;
                StripeOperations.RefundResult.transactionReference :=
                  StripeOperations.Refund.id refund;
                StripeOperations.RefundResult.transactionStatus := SUCCESS;
                StripeOperations.RefundResult.transactionAmount :=
                  StripeOperations.Refund.amount refund;
                StripeOperations.RefundResult.transactionCurrency :=
                  StripeOperations.Refund.currency refund |})
  /\ (StripeOperations.checkout_sessions_retrieve api reference = Normal None ->
      outcome
      = Throw (PaymentError
                 ("No checkout session found with reference " ++ reference)%string
                 (Some UNKNOWN_ERROR)))
  /\ (forall session,
         StripeOperations.checkout_sessions_retrieve api reference
         = Normal (Some session) ->
         StripeOperations.RetrievedSession.payment_intent session = None
         \/ StripeOperations.RetrievedSession.payment_intent session
            = Some (StripeOperations.IntentId EmptyString) ->
         outcome
         = Throw (PaymentError
                    ("No payment intent found for checkout session "
                     ++ StripeOperations.RetrievedSession.id session)%string
                    (Some UNKNOWN_ERROR)))
  /\ (forall error,
         StripeOperations.checkout_sessions_retrieve api reference = Throw error ->
         outcome = Throw error)
  /\ (forall session intent error,
         StripeOperations.checkout_sessions_retrieve api reference
         = Normal (Some session) ->
         StripeOperations.intent_id
           (StripeOperations.RetrievedSession.payment_intent session)
         = Some intent ->
         StripeOperations.refunds_create api
           (StripeOperations.refundParams options intent)
         = Throw error ->
         outcome = Throw error).
Proof.
  intros reference outcome. subst outcome.
  unfold StripeOperations.refund, Net.bind, Net.request, Net.ret, Net.throw.
  fold reference.
  destruct (StripeOperations.checkout_sessions_retrieve api reference)
    as [[session|]|error] eqn:Hsession; cbn.
  - destruct (StripeOperations.intent_id _) as [intent|] eqn:Hintent; cbn.
    + destruct (StripeOperations.refunds_create api _) as [refund|error]
        eqn:Hrefund; cbn.
      * split; [|split; [discriminate|split; [|split; [discriminate|]]]].
        -- intros result [= <-]. exists session, intent, refund. auto.
        -- intros s [= <-] [Hnone|Hempty].
           ++ rewrite Hnone in Hintent. discriminate.
           ++ rewrite Hempty in Hintent. discriminate.
        -- intros s i e [= <-] Hi. rewrite Hintent in Hi. injection Hi as <-.
           rewrite Hrefund. discriminate.
      * split; [discriminate|split; [discriminate|split; [|split; [discriminate|]]]].
        -- intros s [= <-] [Hnone|Hempty].
           ++ rewrite Hnone in Hintent. discriminate.
           ++ rewrite Hempty in Hintent. discriminate.
        -- intros s i e [= <-] Hi. rewrite Hintent in Hi. injection Hi as <-.
           rewrite Hrefund. intros [= <-]. reflexivity.
    + split; [discriminate|split; [discriminate|split; [|split; [discriminate|]]]].
      * intros s [= <-] _. reflexivity.
      * intros s i e [= <-] Hi. rewrite Hintent in Hi. discriminate.
  - split; [discriminate|split; [reflexivity|split; [discriminate|split; discriminate]]].
  - split; [discriminate|split; [discriminate|split; [discriminate|split]]].
    + intros e [= <-]. reflexivity.
    + discriminate.
Qed.

(** A witness of X12: a refund without an amount, of a session Stripe
    refunds 5000 for. *)
Lemma stripe_refund_outcome_witness :
  exists session intent refund,
    StripeOperations.checkout_sessions_retrieve
      (Scenarios.api [] (Some Scenarios.paid_session)) "cs_test_1"
    = Normal (Some session)
    /\ StripeOperations.intent_id
         (StripeOperations.RetrievedSession.payment_intent session)
       = Some intent
    /\ StripeOperations.refunds_create
         (Scenarios.api [] (Some Scenarios.paid_session))
         (StripeOperations.refundParams (Scenarios.refund_of None) intent)
       = Normal refund
    /\ {| StripeOperations.RefundResult.transactionId := "tx-43";
          StripeOperations.RefundResult.transactionReference := "re_1";
          StripeOperations.RefundResult.transactionStatus := SUCCESS;
          StripeOperations.RefundResult.transactionAmount := Js.of_Z 5000;
          StripeOperations.RefundResult.transactionCurrency := "xof" |}
       = {| StripeOperations.RefundResult.transactionId :=
              StripeOperations.RefundOptions.transactionId (Scenarios.refund_of None);
            StripeOperations.RefundResult.transactionReference :=
              StripeOperations.Refund.id refund;
            StripeOperations.RefundResult.transactionStatus := SUCCESS;
            StripeOperations.RefundResult.transactionAmount :=
              StripeOperations.Refund.amount refund;
            StripeOperations.RefundResult.transactionCurrency :=
              StripeOperations.Refund.currency refund |}.
Proof.
  apply (proj1 (stripe_refund_outcome
                  (Scenarios.api [] (Some Scenarios.paid_session))
                  (Scenarios.refund_of None) (Net.start World0))).
  reflexivity.
Defined.

(** ** The events of the Paydunya handler *)

(** X13. How the Paydunya handler reads the status of a verified body
    of the declared shape: "completed" with the response code "00" is a
    PAYMENT_SUCCESSFUL event without a reason, "cancelled" a
    PAYMENT_CANCELLED event and "failed" a PAYMENT_FAILED event, both
    with the body's [response_text] as the reason; "completed" with any
    other response code is passed over: no event, no log line. *)
Theorem paydunya_status_mapping e p body customer invoice custom_data w :
  Paydunya.verified p body ->
  Paydunya.Body.customer body = Some customer ->
  Paydunya.Body.invoice body = Some invoice ->
  Paydunya.Body.custom_data body = Some custom_data ->
  let run := Paydunya.handleWebhook (Paydunya.useEventEmitter e p) body w in
  let event type reason :=
    Paydunya.eventLiteral type
      (Paydunya.paymentMethod_of (Paydunya.WebhookCustomer.payment_method customer))
      invoice custom_data reason in
  (Paydunya.Body.status body = "completed" ->
   Paydunya.Body.response_code body = "00" ->
   run = (Normal None,
          with_emitted w [(PAYMENT_SUCCESSFUL, event PAYMENT_SUCCESSFUL None)]))
  /\ (Paydunya.Body.status body = "completed" ->
      Paydunya.Body.response_code body <> "00" ->
      run = (Normal None, w))
  /\ (Paydunya.Body.status body = "cancelled" ->
      run = (Normal None,
             with_emitted w
               [(PAYMENT_CANCELLED,
                 event PAYMENT_CANCELLED (Some (Paydunya.Body.response_text body)))]))
  /\ (Paydunya.Body.status body = "failed" ->
      run = (Normal None,
             with_emitted w
               [(PAYMENT_FAILED,
                 event PAYMENT_FAILED (Some (Paydunya.Body.response_text body)))])).
Proof.
  intros Hv Hc Hi Hd run event. subst run event.
  assert (Hv' : Paydunya.verified (Paydunya.useEventEmitter e p) body) by exact Hv.
  rewrite (handleWebhook_well_typed _ _ _ _ _ w Hv' Hc Hi Hd).
  unfold Paydunya.kind. cbn [Paydunya.eventEmitter Paydunya.useEventEmitter].
  split; [|split; [|split]].
  - intros -> ->. reflexivity.
  - intros -> Hcode.
    rewrite (bool_decide_eq_false_2 _ Hcode), andb_false_r. reflexivity.
  - intros ->. reflexivity.
  - intros ->. reflexivity.
Qed.

(** A witness of X13: the declined body is passed over. *)
Lemma paydunya_status_mapping_witness :
  Paydunya.handleWebhook
    (Paydunya.useEventEmitter Examples.emitter Examples.paydunya)
    Scenarios.declined World0
  = (Normal None, World0).
Proof.
  refine (proj1 (proj2 (paydunya_status_mapping Examples.emitter Examples.paydunya
                          Scenarios.declined Examples.wave_customer
                          Examples.invoice Examples.tx42 World0 _ _ _ _)) _ _).
  - exists (Examples.digest "master-key"). repeat split; reflexivity.
  - reflexivity.
  - reflexivity.
  - reflexivity.
  - reflexivity.
  - discriminate.
Defined.

(** X14. The Paydunya handler hands at most one event to the emitter,
    on the channel of the event's type, and builds it from a verified
    body: the invoice's token as the reference, the currency "XOF", the
    whole of [custom_data] as the metadata and its "transaction_id"
    entry as the transaction id, no redirect URL and no provider name.
    The payment method is WAVE for "wave_senegal", ORANGE_MONEY for
    "orange_money_senegal" and [null] for every other method of the
    body, which does not keep the event back. *)
Theorem paydunya_event_provenance p body w :
  exists events,
    emitted (snd (Paydunya.handleWebhook p body w)) = emitted w ++ events
    /\ (length events <= 1)%nat
    /\ Forall
         (fun te =>
            Paydunya.verified p body
            /\ exists customer invoice custom_data,
                Paydunya.Body.customer body = Some customer
                /\ Paydunya.Body.invoice body = Some invoice
                /\ Paydunya.Body.custom_data body = Some custom_data
                /\ PaymentEvent.type (snd te) = fst te
                /\ PaymentEvent.transactionReference (snd te)
                   = Paydunya.Invoice.token invoice
                /\ PaymentEvent.transactionCurrency (snd te) = Some "XOF"
                /\ PaymentEvent.metadata (snd te) = Some custom_data
                /\ PaymentEvent.transactionId (snd te)
                   = custom_data !! "transaction_id"
                /\ PaymentEvent.redirectUrl (snd te) = None
                /\ PaymentEvent.paymentProvider (snd te) = None
                /\ PaymentEvent.paymentMethod (snd te)
                   = (let method := Paydunya.WebhookCustomer.payment_method customer in
                      if decide (method = "wave_senegal") then Some WAVE
                      else if decide (method = "orange_money_senegal")
                           then Some ORANGE_MONEY
                           else None))
         events.
Proof.
  assert (Hnone : forall s : World,
             emitted s = emitted w ->
             exists events,
               emitted s = emitted w ++ events
               /\ (length events <= 1)%nat
               /\ Forall
                    (fun te =>
                       Paydunya.verified p body
                       /\ exists customer invoice custom_data,
                           Paydunya.Body.customer body = Some customer
                           /\ Paydunya.Body.invoice body = Some invoice
                           /\ Paydunya.Body.custom_data body = Some custom_data
                           /\ PaymentEvent.type (snd te) = fst te
                           /\ PaymentEvent.transactionReference (snd te)
                              = Paydunya.Invoice.token invoice
                           /\ PaymentEvent.transactionCurrency (snd te) = Some "XOF"
                           /\ PaymentEvent.metadata (snd te) = Some custom_data
                           /\ PaymentEvent.transactionId (snd te)
                              = custom_data !! "transaction_id"
                           /\ PaymentEvent.redirectUrl (snd te) = None
                           /\ PaymentEvent.paymentProvider (snd te) = None
                           /\ PaymentEvent.paymentMethod (snd te)
                              = (let method :=
                                   Paydunya.WebhookCustomer.payment_method customer in
                                 if decide (method = "wave_senegal") then Some WAVE
                                 else if decide (method = "orange_money_senegal")
                                      then Some ORANGE_MONEY
                                      else None))
                    events).
  { intros s Hs. exists []. rewrite app_nil_r.
    split; [exact Hs|]. split; [simpl; lia|constructor]. }
  destruct (verified_dec p body) as [Hv|Hnot].
  - destruct (Paydunya.Body.customer body) as [customer|] eqn:Hc.
    + destruct (Paydunya.kind body) as [[type reason]|] eqn:Hk.
      * destruct (Paydunya.Body.invoice body) as [invoice|] eqn:Hi;
          [destruct (Paydunya.Body.custom_data body) as [custom_data|] eqn:Hd|].
        -- rewrite (handleWebhook_well_typed _ _ _ _ _ w Hv Hc Hi Hd), Hk.
           destruct (Paydunya.eventEmitter p); [|apply Hnone; reflexivity].
           eexists. split; [reflexivity|]. split; [simpl; lia|].
           repeat constructor; [exact Hv|].
           exists customer, invoice, custom_data. repeat split; reflexivity.
        -- destruct (handleWebhook_without_objects p body customer w Hv Hc)
             as [message ->]; [congruence|auto|].
           apply Hnone. reflexivity.
        -- destruct (handleWebhook_without_objects p body customer w Hv Hc)
             as [message ->]; [congruence|auto|].
           apply Hnone. reflexivity.
      * rewrite (handleWebhook_unrecognized _ _ _ w Hv Hc Hk).
        apply Hnone. reflexivity.
    + destruct (handleWebhook_without_customer p body w Hv Hc) as [message ->].
      apply Hnone. reflexivity.
  - destruct (paydunya_unverified _ _ w Hnot) as [message ->].
    apply Hnone. reflexivity.
Qed.

(** ** Amounts written in decimal digits *)

Lemma span_all p ds :
  Forall (fun c => p c = true) ds -> Chars.span p ds = (ds, []).
Proof.
  intros Hds. rewrite <- (app_nil_r ds) at 1.
  apply NumberFacts.span_stop; [exact Hds|exact I].
Qed.

Lemma digit_not_space c : Chars.is_digit c = true -> Chars.is_js_space c = false.
Proof.
  unfold Chars.is_digit, Chars.is_js_space, Chars.in_range. lia.
Qed.

Lemma trim_start_digit c r :
  Chars.is_digit c = true -> Js.trim_start (c :: r) = c :: r.
Proof.
  intros Hc. unfold Js.trim_start. simpl.
  rewrite (digit_not_space c Hc). reflexivity.
Qed.

Lemma trim_digits ds :
  Forall (fun c => Chars.is_digit c = true) ds -> Js.trim ds = ds.
Proof.
  intros Hds. unfold Js.trim.
  destruct ds as [|c r]; [reflexivity|].
  rewrite trim_start_digit by (inversion Hds; assumption).
  assert (Hrev : Forall (fun c => Chars.is_digit c = true) (rev (c :: r))).
  { apply List.Forall_rev. exact Hds. }
  destruct (rev (c :: r)) as [|c' r'] eqn:Hr.
  - apply (f_equal (@length ascii)) in Hr. rewrite length_rev in Hr. discriminate.
  - rewrite trim_start_digit by (inversion Hrev; assumption).
    rewrite <- Hr. apply rev_involutive.
Qed.

Lemma radix_digits_zero c r : Js.radix_digits 0 (c :: r) = None.
Proof.
  simpl. unfold Js.radix_digit, Chars.hex_val.
  pose proof (CharFacts.code_bounds c).
  repeat match goal with
         | |- context [if ?b then _ else _] => destruct b eqn:?
         end; try reflexivity;
    match goal with
    | H : (_ <? 0) = true |- _ =>
        apply Z.ltb_lt in H; unfold Chars.in_range in *; lia
    end.
Qed.

Lemma non_decimal_digits ds :
  Forall (fun c => Chars.is_digit c = true) ds -> Js.non_decimal_literal ds = None.
Proof.
  intros Hds. unfold Js.non_decimal_literal.
  destruct ds as [|c0 [|p [|c r]]]; try reflexivity;
    try (destruct c0 as [[] [] [] [] [] [] [] []]; reflexivity).
  assert (Hp : Chars.is_digit p = true).
  { inversion Hds as [|? ? _ Hr]. inversion Hr. assumption. }
  apply CharFacts.is_digit_code in Hp.
  destruct (ascii_dec c0 "0") as [->|Hc0].
  - replace ((Chars.code p =? 120) || (Chars.code p =? 88)) with false by lia.
    replace ((Chars.code p =? 111) || (Chars.code p =? 79)) with false by lia.
    replace ((Chars.code p =? 98) || (Chars.code p =? 66)) with false by lia.
    rewrite radix_digits_zero. reflexivity.
  - destruct c0 as [[] [] [] [] [] [] [] []]; try reflexivity.
    contradiction.
Qed.

(** X15. A total amount written in decimal digits, with or without
    leading zeros, whose value is at most [Number.MAX_SAFE_INTEGER]: on
    a verified body of the declared shape with a status the handler acts
    on, the event handed to the emitter has that integer as its
    amount. *)
Theorem paydunya_amount_in_digits e p body customer invoice custom_data w :
  let ds := list_ascii_of_string (Paydunya.Invoice.total_amount invoice) in
  Paydunya.verified p body ->
  Paydunya.recognized body ->
  Paydunya.Body.customer body = Some customer ->
  Paydunya.Body.invoice body = Some invoice ->
  Paydunya.Body.custom_data body = Some custom_data ->
  ds <> [] ->
  Forall (fun c => Chars.is_digit c = true) ds ->
  Chars.dec_value ds <= Js.MAX_SAFE_INTEGER ->
  exists type event,
    Paydunya.handleWebhook (Paydunya.useEventEmitter e p) body w
    = (Normal None, with_emitted w [(type, event)])
    /\ PaymentEvent.transactionAmount event = Js.of_Z (Chars.dec_value ds).
Proof.
  intros ds Hv Hrec Hc Hi Hd Hne Hds _.
  assert (Hv' : Paydunya.verified (Paydunya.useEventEmitter e p) body) by exact Hv.
  rewrite (handleWebhook_well_typed _ _ _ _ _ w Hv' Hc Hi Hd).
  apply kind_recognized in Hrec.
  destruct (Paydunya.kind body) as [[type reason]|]; [|congruence].
  cbn [Paydunya.eventEmitter Paydunya.useEventEmitter].
  do 2 eexists. split; [reflexivity|].
  cbn [Paydunya.eventLiteral PaymentEvent.transactionAmount].
  unfold Js.StringToNumber.
  change (list_ascii_of_string (Paydunya.Invoice.total_amount invoice)) with ds.
  clearbody ds. rewrite (trim_digits ds Hds).
  destruct ds as [|c r]; [contradiction|].
  rewrite (non_decimal_digits _ Hds).
  assert (Hdigit : Chars.is_digit c = true) by (inversion Hds; assumption).
  unfold Js.str_decimal_literal.
  assert (Hsign : match c :: r with
                  | "+"%char :: r0 => (false, r0)
                  | "-"%char :: r0 => (true, r0)
                  | _ => (false, c :: r)
                  end = (false, c :: r)).
  { destruct c as [[] [] [] [] [] [] [] []]; try reflexivity; discriminate. }
  rewrite Hsign.
  destruct (decide (c :: r = list_ascii_of_string "Infinity")) as [Hinf|_].
  { injection Hinf as -> _. discriminate. }
  unfold Js.unsigned_decimal. rewrite (span_all _ _ Hds). simpl Js.exponent_part.
  rewrite app_nil_r. simpl length.
  change (Js.mk_decimal (Chars.dec_value (c :: r)) (0 - Z.of_nat 0))
    with (Js.Dec (Chars.dec_value (c :: r) * 10 ^ 0) 0).
  rewrite Z.pow_0_r, Z.mul_1_r. reflexivity.
Qed.

(** A witness of X15: the amount "007500". *)
Lemma paydunya_amount_in_digits_witness :
  exists type event,
    Paydunya.handleWebhook
      (Paydunya.useEventEmitter Examples.emitter Examples.paydunya)
      Scenarios.padded_body World0
    = (Normal None, with_emitted World0 [(type, event)])
    /\ PaymentEvent.transactionAmount event = Js.of_Z 7500.
Proof.
  apply (paydunya_amount_in_digits Examples.emitter Examples.paydunya
           Scenarios.padded_body Examples.wave_customer Scenarios.padded_invoice
           Examples.tx42 World0).
  - exists (Examples.digest "master-key"). repeat split; reflexivity.
  - left. split; reflexivity.
  - reflexivity.
  - reflexivity.
  - reflexivity.
  - discriminate.
  - repeat constructor.
  - vm_compute. discriminate.
Defined.

(** ** The checkout of the Paydunya provider *)

(** X17. [checkout] hands an event to the emitter exactly when it
    returns: one PAYMENT_INITIATED event, on that channel, with the
    transaction id, amount, currency, payment method and metadata of the
    options, the reference and the redirect URL of the result, and no
    provider name. A checkout that fails emits nothing; no checkout
    writes on the console. *)
Theorem paydunya_checkout_emits_on_success_only env p options n :
  let run := PaydunyaCheckout.checkout env p options n in
  console (Net.world (snd run)) = console (Net.world n)
  /\ digests (Net.world (snd run)) = digests (Net.world n)
  /\ match fst run with
     | Normal result =>
         exists event,
           emitted (Net.world (snd run))
           = emitted (Net.world n)
             ++ match Paydunya.eventEmitter p with
                | Some _ => [(PAYMENT_INITIATED, event)]
                | None => []
                end
           /\ PaymentEvent.type event = PAYMENT_INITIATED
           /\ PaymentEvent.transactionId event
              = Some (JSON.JStr (PaydunyaCheckout.CheckoutOptions.transactionId options))
           /\ PaymentEvent.transactionAmount event
              = PaydunyaCheckout.CheckoutOptions.amount options
           /\ PaymentEvent.transactionCurrency event = Some "XOF"
           /\ PaymentEvent.paymentMethod event
              = Some (PaydunyaCheckout.CheckoutOptions.paymentMethod options)
           /\ PaymentEvent.metadata event
              = PaydunyaCheckout.CheckoutOptions.metadata options
           /\ PaymentEvent.transactionReference event
              = PaydunyaCheckout.Result.transactionReference result
           /\ PaymentEvent.redirectUrl event
              = PaydunyaCheckout.Result.redirectUrl result
           /\ PaymentEvent.paymentProvider event = None
           /\ PaydunyaCheckout.Result.transactionStatus result = PENDING
           /\ PaydunyaCheckout.Result.transactionId result
              = PaydunyaCheckout.CheckoutOptions.transactionId options
     | Throw _ => emitted (Net.world (snd run)) = emitted (Net.world n)
     end.
Proof.
  intros run. subst run.
  unfold PaydunyaCheckout.checkout, PaydunyaCheckout.requestPayment,
    PaydunyaCheckout.conclude, PaydunyaCheckout.paymentError,
    PaydunyaCheckout.post, Net.bind, Net.request, Net.ret, Net.throw, Net.lift, emit.
  destruct n as [w sent]. cbn [Net.world Net.sent].
  repeat (branch; cbn [fst snd Net.world Net.sent]);
    try (repeat split; reflexivity);
    try discriminate.
  all: repeat match goal with
              | H : (_, _) = (_, _) |- _ => injection H as ? ?; subst
              end.
  all: cbn [emitted console digests with_emitted].
  all: try (split; [reflexivity|]; split; [reflexivity|]).
  all: match goal with
       | |- context [PaydunyaCheckout.checkoutResult ?o ?s ?m ?u] =>
           exists (PaydunyaCheckout.paymentInitiatedEvent o s u)
       end.
  all: split; [first [reflexivity | symmetry; apply app_nil_r]|].
  all: unfold PaydunyaCheckout.paymentInitiatedEvent; simpl.
  all: destruct (PaydunyaCheckout.CheckoutOptions.currency options).
  all: repeat split; reflexivity.
Qed.

Lemma post_run env url request n :
  PaydunyaCheckout.post env url request n
  = (match
       PaydunyaCheckout.responseTransform url (PaydunyaCheckout.answer env url request)
     with
     | Normal _ => Normal (PaydunyaCheckout.answer env url request)
     | Throw error => Throw error
     end,
     Net.make (Net.world n) (Net.sent n ++ [(url, request)])).
Proof.
  unfold PaydunyaCheckout.post, Net.bind, Net.request, Net.ret.
  destruct (PaydunyaCheckout.responseTransform _ _); reflexivity.
Qed.

(** X16. A phone number that does not parse, or parses to a number that
    is not valid or not possible, stops [checkout] before anything is
    sent to Paydunya and before anything is emitted: the error of the
    parser is passed on, and the two other cases are PaymentErrors
    tagged INVALID_PHONE_NUMBER. *)
Theorem paydunya_checkout_rejects_phone env p options n :
  let phoneNumber :=
    PaydunyaCheckout.CheckoutCustomer.phoneNumber
      (PaydunyaCheckout.CheckoutOptions.customer options) in
  (forall error,
      PaydunyaCheckout.parsePhoneNumber env phoneNumber "SN" = Throw error ->
      PaydunyaCheckout.checkout env p options n = (Throw error, n))
  /\ (forall parsed,
         PaydunyaCheckout.parsePhoneNumber env phoneNumber "SN" = Normal parsed ->
         PaydunyaCheckout.PhoneNumber.isValid parsed = false ->
         PaydunyaCheckout.checkout env p options n
         = (Throw (PaymentError ("Invalid phone number: " ++ phoneNumber)%string
                     (Some INVALID_PHONE_NUMBER)),
            n))
  /\ (forall parsed,
         PaydunyaCheckout.parsePhoneNumber env phoneNumber "SN" = Normal parsed ->
         PaydunyaCheckout.PhoneNumber.isValid parsed = true ->
         PaydunyaCheckout.PhoneNumber.isPossible parsed = false ->
         PaydunyaCheckout.checkout env p options n
         = (Throw (PaymentError
                     ("Phone number is not possible: " ++ phoneNumber)%string
                     (Some INVALID_PHONE_NUMBER)),
            n)).
Proof.
  intros phoneNumber. unfold PaydunyaCheckout.checkout. fold phoneNumber.
  destruct (PaydunyaCheckout.CheckoutOptions.currency options). simpl.
  split; [|split].
  - intros error ->. reflexivity.
  - intros parsed -> ->. reflexivity.
  - intros parsed -> -> ->. reflexivity.
Qed.

(** A witness of X16: a number the parser finds invalid. *)
Lemma paydunya_checkout_rejects_phone_witness :
  PaydunyaCheckout.checkout
    (Scenarios.environment false Scenarios.invoice_created Scenarios.payment_accepted)
    Examples.paydunya (Scenarios.mobile_checkout WAVE None) (Net.start World0)
  = (Throw (PaymentError "Invalid phone number: +221770000000"
              (Some INVALID_PHONE_NUMBER)),
     Net.start World0).
Proof.
  apply (proj1 (proj2 (paydunya_checkout_rejects_phone
                         (Scenarios.environment false Scenarios.invoice_created
                            Scenarios.payment_accepted)
                         Examples.paydunya (Scenarios.mobile_checkout WAVE None)
                         (Net.start World0)))
           (Scenarios.parsed false)).
  - reflexivity.
  - reflexivity.
Defined.

Lemma requestPayment_sent env options parsed token n :
  PaydunyaCheckout.CheckoutOptions.paymentMethod options <> CREDIT_CARD ->
  let run := PaydunyaCheckout.requestPayment env options parsed token n in
  Net.world (snd run) = Net.world n
  /\ Net.sent (snd run)
     = Net.sent n
       ++ [match PaydunyaCheckout.CheckoutOptions.paymentMethod options with
           | ORANGE_MONEY =>
               ("/softpay/orange-money-senegal",
                PaydunyaCheckout.orangeMoneyRequest options parsed token)
           | _ =>
               ("/softpay/wave-senegal",
                PaydunyaCheckout.waveRequest options parsed token)
           end].
Proof.
  intros Hmethod run. subst run.
  unfold PaydunyaCheckout.requestPayment, PaydunyaCheckout.paymentError, Net.bind.
  destruct (PaydunyaCheckout.CheckoutOptions.paymentMethod options);
    [| |contradiction];
    cbn [PaydunyaCheckout.same_method]; rewrite post_run;
    destruct (PaydunyaCheckout.responseTransform _ _); cbv beta iota;
    unfold Net.throw, Net.ret;
    repeat match goal with
           | |- context [if ?b then _ else _] => destruct b
           | |- context [match ?x with _ => _ end] => destruct x
           end;
    split; reflexivity.
Qed.

Lemma conclude_run p options token response n :
  let run := PaydunyaCheckout.conclude p options token response n in
  Net.sent (snd run) = Net.sent n
  /\ match fst run with
     | Normal result => PaydunyaCheckout.Result.transactionReference result = token
     | Throw _ => True
     end.
Proof.
  intros run. subst run.
  unfold PaydunyaCheckout.conclude, PaydunyaCheckout.paymentError, Net.bind,
    Net.lift, Net.throw, Net.ret, emit.
  destruct (PaydunyaCheckout.Data.truthy response); cbn [negb];
    [|split; [reflexivity|exact I]].
  destruct (PaydunyaCheckout.Data.lookup _ _ _); [|split; [reflexivity|exact I]].
  destruct (Paydunya.eventEmitter p); split; reflexivity.
Qed.

(** X18. What [checkout] sends to Paydunya: nothing, or the creation of
    the invoice alone, or that and one payment request after it. The
    payment request is only sent for a valid phone number, after
    Paydunya has answered the creation with the response code "00" and
    a token; it goes to the endpoint of the payment method and carries
    that token. A checkout that returns has sent both, and refers to the
    transaction by the token. *)
Theorem paydunya_checkout_requests env p options n :
  let run := PaydunyaCheckout.checkout env p options n in
  let create :=
    ("checkout-invoice/create", PaydunyaCheckout.invoiceRequest p options) in
  let created :=
    PaydunyaCheckout.answer env "checkout-invoice/create"
      (PaydunyaCheckout.invoiceRequest p options) in
  (Net.sent (snd run) = Net.sent n
   \/ Net.sent (snd run) = Net.sent n ++ [create]
   \/ exists parsed data token,
       PaydunyaCheckout.parsePhoneNumber env
         (PaydunyaCheckout.CheckoutCustomer.phoneNumber
            (PaydunyaCheckout.CheckoutOptions.customer options)) "SN"
       = Normal parsed
       /\ PaydunyaCheckout.PhoneNumber.isValid parsed = true
       /\ PaydunyaCheckout.PhoneNumber.isPossible parsed = true
       /\ PaydunyaCheckout.ApiResponse.data created
          = PaydunyaCheckout.Data.Object data
       /\ PaydunyaCheckout.ResponseData.response_code data = Some "00"
       /\ PaydunyaCheckout.ResponseData.token data = Some token
       /\ Net.sent (snd run)
          = Net.sent n
            ++ [create;
                match PaydunyaCheckout.CheckoutOptions.paymentMethod options with
                | ORANGE_MONEY =>
                    ("/softpay/orange-money-senegal",
                     PaydunyaCheckout.orangeMoneyRequest options parsed token)
                | _ =>
                    ("/softpay/wave-senegal",
                     PaydunyaCheckout.waveRequest options parsed token)
                end]
       /\ PaydunyaCheckout.CheckoutOptions.paymentMethod options <> CREDIT_CARD
       /\ match fst run with
          | Normal result =>
              PaydunyaCheckout.Result.transactionReference result = token
          | Throw _ => True
          end)
  /\ match fst run with
     | Normal result => length (Net.sent (snd run)) = (length (Net.sent n) + 2)%nat
     | Throw _ => True
     end.
Proof.
  intros run create created. subst run create created.
  unfold PaydunyaCheckout.checkout, PaydunyaCheckout.paymentError, Net.bind.
  destruct (decide (Currency_value
                      (PaydunyaCheckout.CheckoutOptions.currency options) <> "XOF"));
    [split; [left; reflexivity|exact I]|].
  destruct (PaydunyaCheckout.parsePhoneNumber env _ "SN") as [parsed|error];
    [|split; [left; reflexivity|exact I]].
  destruct (PaydunyaCheckout.PhoneNumber.isValid parsed) eqn:Hvalid;
    [|split; [left; reflexivity|exact I]].
  destruct (PaydunyaCheckout.PhoneNumber.isPossible parsed) eqn:Hpossible;
    [|split; [left; reflexivity|exact I]].
  cbn [negb]. rewrite post_run.
  destruct (PaydunyaCheckout.responseTransform "checkout-invoice/create" _);
    [|split; [right; left; reflexivity|exact I]].
  cbv beta iota.
  destruct (PaydunyaCheckout.Data.truthy _); cbn [negb];
    [|split; [right; left; reflexivity|exact I]].
  destruct (decide (PaydunyaCheckout.Data.property
                      PaydunyaCheckout.ResponseData.response_code _ <> Some "00"))
    as [|Hcode]; [split; [right; left; reflexivity|exact I]|].
  apply dec_stable in Hcode.
  destruct (PaydunyaCheckout.ApiResponse.data _) as [| | | | |data] eqn:Hdata;
    try discriminate.
  cbn [PaydunyaCheckout.Data.property PaydunyaCheckout.Data.lookup] in *.
  destruct (PaydunyaCheckout.ResponseData.token data) as [token|] eqn:Htoken;
    [|split; [right; left; reflexivity|exact I]].
  assert (Hcases :
            PaydunyaCheckout.CheckoutOptions.paymentMethod options = CREDIT_CARD
            \/ PaydunyaCheckout.CheckoutOptions.paymentMethod options <> CREDIT_CARD).
  { destruct (PaydunyaCheckout.CheckoutOptions.paymentMethod options);
      [right; discriminate|right; discriminate|left; reflexivity]. }
  destruct Hcases as [Hcard|Hmethod].
  { rewrite Hcard. split; [right; left; reflexivity|exact I]. }
  assert (Hguard :
            negb (PaydunyaCheckout.same_method
                    (PaydunyaCheckout.CheckoutOptions.paymentMethod options) WAVE)
            && negb (PaydunyaCheckout.same_method
                       (PaydunyaCheckout.CheckoutOptions.paymentMethod options)
                       ORANGE_MONEY)
            = false).
  { destruct (PaydunyaCheckout.CheckoutOptions.paymentMethod options);
      [reflexivity|reflexivity|contradiction]. }
  rewrite Hguard.
  pose proof (requestPayment_sent env options parsed token
                (Net.make (Net.world n)
                   (Net.sent n
                    ++ [("checkout-invoice/create",
                         PaydunyaCheckout.invoiceRequest p options)]))
                Hmethod) as [_ Hsent].
  cbv zeta in Hsent. cbn [Net.sent] in Hsent.
  destruct (PaydunyaCheckout.requestPayment env options parsed token _)
    as [[response|error] n'].
  - pose proof (conclude_run p options token response n') as [Hsame Href].
    cbv zeta in Hsame, Href. cbn [snd] in Hsent.
    destruct (PaydunyaCheckout.conclude p options token response n')
      as [outcome n''].
    cbn [fst snd] in *. rewrite Hsame, Hsent, <- app_assoc. split.
    + right. right. exists parsed, data, token. repeat split; auto.
    + destruct outcome; [|exact I]. rewrite length_app. reflexivity.
  - cbn [fst snd] in *. rewrite Hsent, <- app_assoc. split; [|exact I].
    right. right. exists parsed, data, token. repeat split; auto.
Qed.

(** X19. A payment method Paydunya does not offer is only refused
    after the invoice has been created: for a credit card and a valid
    phone number, [checkout] sends the creation of the invoice, then
    fails without a payment request and without an event; once Paydunya
    has created the invoice, the failure is a PaymentError tagged
    UNSUPPORTED_PAYMENT_METHOD. *)
Theorem paydunya_checkout_unsupported_method env p options parsed n :
  PaydunyaCheckout.CheckoutOptions.paymentMethod options = CREDIT_CARD ->
  PaydunyaCheckout.parsePhoneNumber env
    (PaydunyaCheckout.CheckoutCustomer.phoneNumber
       (PaydunyaCheckout.CheckoutOptions.customer options)) "SN"
  = Normal parsed ->
  PaydunyaCheckout.PhoneNumber.isValid parsed = true ->
  PaydunyaCheckout.PhoneNumber.isPossible parsed = true ->
  let run := PaydunyaCheckout.checkout env p options n in
  let created :=
    PaydunyaCheckout.answer env "checkout-invoice/create"
      (PaydunyaCheckout.invoiceRequest p options) in
  Net.sent (snd run)
  = Net.sent n
    ++ [("checkout-invoice/create", PaydunyaCheckout.invoiceRequest p options)]
  /\ Net.world (snd run) = Net.world n
  /\ (exists error, fst run = Throw error)
  /\ (forall data token,
         PaydunyaCheckout.ApiResponse.ok created = true ->
         PaydunyaCheckout.ApiResponse.data created
         = PaydunyaCheckout.Data.Object data ->
         PaydunyaCheckout.ResponseData.response_code data = Some "00" ->
         PaydunyaCheckout.ResponseData.token data = Some token ->
         fst run
         = Throw (PaymentError
                    "Paydunya does not support the payment method: CREDIT_CARD"
                    (Some UNSUPPORTED_PAYMENT_METHOD))).
Proof.
  intros Hmethod Hparsed Hvalid Hpossible run created. subst run created.
  unfold PaydunyaCheckout.checkout, PaydunyaCheckout.paymentError, Net.bind.
  destruct (PaydunyaCheckout.CheckoutOptions.currency options).
  cbn [Currency_value]. destruct (decide ("XOF" <> "XOF")); [congruence|].
  rewrite Hparsed, Hvalid, Hpossible, Hmethod.
  cbn [negb andb PaydunyaCheckout.same_method]. rewrite post_run.
  unfold PaydunyaCheckout.responseTransform.
  change (PaydunyaCheckout.endsWith "checkout-invoice/create"
            "/softpay/orange-money-senegal") with false.
  cbn [andb].
  destruct (PaydunyaCheckout.ApiResponse.ok _) eqn:Hok; cbn [negb];
    destruct (PaydunyaCheckout.ApiResponse.data _) as [|b|d|t|l|data] eqn:Hdata;
    cbn [PaydunyaCheckout.Data.truthy PaydunyaCheckout.Data.property
           PaydunyaCheckout.Data.lookup negb];
    repeat (match goal with
            | |- context [if ?b then _ else _] => destruct b eqn:?
            | |- context [match ?x with _ => _ end] => destruct x eqn:?
            end;
            cbn [negb]);
    cbn [fst snd Net.world Net.sent];
    (split; [reflexivity|]); (split; [reflexivity|]); (split; [eauto|]);
    intros data' token' Hok' Hdata' Hcode' Htoken';
    try discriminate;
    try (injection Hdata' as <-);
    try contradiction;
    try congruence;
    try reflexivity.
Qed.

(** A witness of X19: a credit card checkout at a Paydunya that creates
    the invoice "inv_1". *)
Lemma paydunya_checkout_unsupported_method_witness :
  let env :=
    Scenarios.environment true Scenarios.invoice_created Scenarios.payment_accepted in
  let options := Scenarios.mobile_checkout CREDIT_CARD None in
  let run := PaydunyaCheckout.checkout env Examples.paydunya options (Net.start World0) in
  Net.sent (snd run)
  = [("checkout-invoice/create",
      PaydunyaCheckout.invoiceRequest Examples.paydunya options)]
  /\ fst run
     = Throw (PaymentError "Paydunya does not support the payment method: CREDIT_CARD"
                (Some UNSUPPORTED_PAYMENT_METHOD)).
Proof.
  intros env options run.
  destruct (paydunya_checkout_unsupported_method env Examples.paydunya options
              (Scenarios.parsed true) (Net.start World0))
    as (Hsent & _ & _ & Herror); try reflexivity.
  split; [exact Hsent|].
  eapply Herror; reflexivity.
Defined.

(** X20. The custom data [checkout] attaches to the invoice holds every
    entry of the metadata as it was given, and the transaction id under
    "transaction_id" unless the metadata has an entry of that name,
    which then takes its place. When Paydunya echoes the custom data in
    a verified webhook of a status the handler acts on, the event
    carries the custom data as its metadata, and as its transaction id
    the transaction id of the checkout, or the metadata's
    "transaction_id" entry if there is one. *)
Theorem paydunya_checkout_webhook_correlation e p options body customer invoice w :
  let metadata :=
    match PaydunyaCheckout.CheckoutOptions.metadata options with
    | Some metadata => metadata
    | None => ∅
    end in
  let transactionId := PaydunyaCheckout.CheckoutOptions.transactionId options in
  let custom_data := PaydunyaCheckout.customData options in
  Paydunya.verified p body ->
  Paydunya.recognized body ->
  Paydunya.Body.customer body = Some customer ->
  Paydunya.Body.invoice body = Some invoice ->
  Paydunya.Body.custom_data body = Some custom_data ->
  (forall key v, metadata !! key = Some v -> custom_data !! key = Some v)
  /\ (forall key, key <> "transaction_id" -> custom_data !! key = metadata !! key)
  /\ exists type event,
      Paydunya.handleWebhook (Paydunya.useEventEmitter e p) body w
      = (Normal None, with_emitted w [(type, event)])
      /\ PaymentEvent.metadata event = Some custom_data
      /\ PaymentEvent.transactionId event
         = Some match metadata !! "transaction_id" with
                | Some v => v
                | None => JSON.JStr transactionId
                end.
Proof.
  intros metadata transactionId custom_data Hv Hrec Hc Hi Hd.
  assert (Hlookup : forall key,
             custom_data !! key
             = match metadata !! key with
               | Some v => Some v
               | None =>
                   if decide (key = "transaction_id")
                   then Some (JSON.JStr transactionId) else None
               end).
  { intros key. unfold custom_data, PaydunyaCheckout.customData.
    fold metadata. fold transactionId.
    destruct (metadata !! key) as [v|] eqn:Hkey.
    - apply lookup_union_Some_l. exact Hkey.
    - rewrite lookup_union_r by exact Hkey.
      destruct (decide (key = "transaction_id")) as [->|Hne].
      + apply lookup_singleton_eq.
      + apply lookup_singleton_ne. congruence. }
  split; [|split].
  - intros key v Hkey. rewrite Hlookup, Hkey. reflexivity.
  - intros key Hne. rewrite Hlookup.
    destruct (metadata !! key); [reflexivity|].
    destruct (decide (key = "transaction_id")); [contradiction|reflexivity].
  - assert (Hv' : Paydunya.verified (Paydunya.useEventEmitter e p) body) by exact Hv.
    rewrite (handleWebhook_well_typed _ _ _ _ _ w Hv' Hc Hi Hd).
    apply kind_recognized in Hrec.
    destruct (Paydunya.kind body) as [[type reason]|]; [|congruence].
    cbn [Paydunya.eventEmitter Paydunya.useEventEmitter].
    do 2 eexists. split; [reflexivity|]. split; [reflexivity|].
    cbn [Paydunya.eventLiteral PaymentEvent.transactionId].
    rewrite Hlookup. destruct (metadata !! "transaction_id"); reflexivity.
Qed.

(** A witness of X20: a checkout whose metadata has its own
    "transaction_id", which is the one the event carries. *)
Lemma paydunya_checkout_webhook_correlation_witness :
  let options :=
    Scenarios.mobile_checkout WAVE
      (Some {[ "transaction_id" := JSON.JStr "order-7" ]}) in
  let body :=
    Examples.body (Some (Examples.digest "master-key")) "completed"
      (Some (PaydunyaCheckout.customData options)) (Some Examples.invoice)
      (Some Examples.wave_customer) in
  exists type event,
    Paydunya.handleWebhook
      (Paydunya.useEventEmitter Examples.emitter Examples.paydunya) body World0
    = (Normal None, with_emitted World0 [(type, event)])
    /\ PaymentEvent.metadata event = Some (PaydunyaCheckout.customData options)
    /\ PaymentEvent.transactionId event = Some (JSON.JStr "order-7").
Proof.
  intros options body.
  refine (proj2 (proj2 (paydunya_checkout_webhook_correlation Examples.emitter
                          Examples.paydunya options body Examples.wave_customer
                          Examples.invoice World0 _ _ _ _ _))).
  - exists (Examples.digest "master-key"). repeat split; reflexivity.
  - left. split; reflexivity.
  - reflexivity.
  - reflexivity.
  - reflexivity.
Defined.

(** X21. A Wave checkout that goes through: for a valid phone number,
    when Paydunya creates the invoice with a token and answers the
    payment request with [success] and a non-empty URL, [checkout] sends
    the two requests in that order, hands one PAYMENT_INITIATED event to
    the emitter and returns a pending result that refers to the
    transaction by the token and redirects to that URL. *)
Theorem paydunya_wave_checkout e env p options parsed invoiceData token waveData url n :
  let create := PaydunyaCheckout.invoiceRequest p options in
  let pay := PaydunyaCheckout.waveRequest options parsed token in
  let created := PaydunyaCheckout.answer env "checkout-invoice/create" create in
  let requested := PaydunyaCheckout.answer env "/softpay/wave-senegal" pay in
  PaydunyaCheckout.CheckoutOptions.paymentMethod options = WAVE ->
  PaydunyaCheckout.parsePhoneNumber env
    (PaydunyaCheckout.CheckoutCustomer.phoneNumber
       (PaydunyaCheckout.CheckoutOptions.customer options)) "SN"
  = Normal parsed ->
  PaydunyaCheckout.PhoneNumber.isValid parsed = true ->
  PaydunyaCheckout.PhoneNumber.isPossible parsed = true ->
  PaydunyaCheckout.ApiResponse.ok created = true ->
  PaydunyaCheckout.ApiResponse.data created
  = PaydunyaCheckout.Data.Object invoiceData ->
  PaydunyaCheckout.ResponseData.response_code invoiceData = Some "00" ->
  PaydunyaCheckout.ResponseData.token invoiceData = Some token ->
  PaydunyaCheckout.ApiResponse.ok requested = true ->
  PaydunyaCheckout.ApiResponse.data requested
  = PaydunyaCheckout.Data.Object waveData ->
  PaydunyaCheckout.ResponseData.success waveData = Some true ->
  PaydunyaCheckout.ResponseData.url waveData = Some url ->
  url <> EmptyString ->
  let result :=
    {| PaydunyaCheckout.Result.success := true;
       PaydunyaCheckout.Result.message :=
         PaydunyaCheckout.ResponseData.message waveData;
       PaydunyaCheckout.Result.transactionAmount :=
         PaydunyaCheckout.CheckoutOptions.amount options;
       PaydunyaCheckout.Result.transactionCurrency :=
         PaydunyaCheckout.CheckoutOptions.currency options;
       PaydunyaCheckout.Result.transactionId :=
         PaydunyaCheckout.CheckoutOptions.transactionId options;
       PaydunyaCheckout.Result.transactionReference := token;
       PaydunyaCheckout.Result.transactionStatus := PENDING;
       PaydunyaCheckout.Result.redirectUrl := Some url |} in
  PaydunyaCheckout.checkout env (Paydunya.useEventEmitter e p) options n
  = (Normal result,
     Net.make
       (with_emitted (Net.world n)
          [(PAYMENT_INITIATED,
            PaydunyaCheckout.paymentInitiatedEvent options token (Some url))])
       (Net.sent n
        ++ [("checkout-invoice/create", create); ("/softpay/wave-senegal", pay)])).
Proof.
  intros create pay created requested Hmethod Hparsed Hvalid Hpossible
    Hok Hdata Hcode Htoken Hok' Hdata' Hsuccess Hurl Hne result.
  subst create pay created requested result.
  unfold PaydunyaCheckout.checkout, PaydunyaCheckout.requestPayment,
    PaydunyaCheckout.conclude, PaydunyaCheckout.paymentError, Net.bind.
  destruct (PaydunyaCheckout.CheckoutOptions.currency options) eqn:Hcurrency.
  cbn [Currency_value]. destruct (decide ("XOF" <> "XOF")); [congruence|].
  rewrite Hparsed, Hvalid, Hpossible, Hmethod. cbn [negb].
  change (PaydunyaCheckout.invoiceRequest (Paydunya.useEventEmitter e p) options)
    with (PaydunyaCheckout.invoiceRequest p options).
  rewrite post_run. unfold PaydunyaCheckout.responseTransform at 1.
  change (PaydunyaCheckout.endsWith "checkout-invoice/create"
            "/softpay/orange-money-senegal") with false.
  rewrite Hok. cbn [andb negb]. cbv beta iota. rewrite Hdata.
  cbn [PaydunyaCheckout.Data.truthy PaydunyaCheckout.Data.property
         PaydunyaCheckout.Data.lookup negb].
  destruct (decide (PaydunyaCheckout.ResponseData.response_code invoiceData
                    <> Some "00")); [contradiction|].
  rewrite Htoken. cbn [PaydunyaCheckout.same_method negb andb].
  rewrite post_run. unfold PaydunyaCheckout.responseTransform.
  change (PaydunyaCheckout.endsWith "/softpay/wave-senegal"
            "/softpay/orange-money-senegal") with false.
  rewrite Hok'. cbn [andb negb]. cbv beta iota. rewrite Hdata'.
  cbn [PaydunyaCheckout.Data.truthy PaydunyaCheckout.Data.property
         PaydunyaCheckout.Data.lookup negb].
  rewrite Hsuccess, bool_decide_eq_true_2 by reflexivity. cbn [negb].
  rewrite Hurl. destruct url as [|c u]; [contradiction|].
  unfold Net.lift, Net.ret, emit.
  cbn [PaydunyaCheckout.Data.truthy PaydunyaCheckout.Data.property
         PaydunyaCheckout.Data.lookup negb Net.world Net.sent
         Paydunya.eventEmitter Paydunya.useEventEmitter].
  unfold PaydunyaCheckout.checkoutResult. rewrite Hurl, <- app_assoc, Hcurrency.
  reflexivity.
Qed.

(** A witness of X21: the Wave checkout of the examples. *)
Lemma paydunya_wave_checkout_witness :
  let env :=
    Scenarios.environment true Scenarios.invoice_created Scenarios.payment_accepted in
  let options := Scenarios.mobile_checkout WAVE None in
  PaydunyaCheckout.checkout env
    (Paydunya.useEventEmitter Examples.emitter Examples.paydunya) options
    (Net.start World0)
  = (Normal
       {| PaydunyaCheckout.Result.success := true;
          PaydunyaCheckout.Result.message := Some "Payment initiated";
          PaydunyaCheckout.Result.transactionAmount := Js.of_Z 5000;
          PaydunyaCheckout.Result.transactionCurrency := XOF;
          PaydunyaCheckout.Result.transactionId := "tx-42";
          PaydunyaCheckout.Result.transactionReference := "inv_1";
          PaydunyaCheckout.Result.transactionStatus := PENDING;
          PaydunyaCheckout.Result.redirectUrl := Some "https://pay.wave.com/c/1" |},
     Net.make
       (with_emitted World0
          [(PAYMENT_INITIATED,
            PaydunyaCheckout.paymentInitiatedEvent options "inv_1"
              (Some "https://pay.wave.com/c/1"))])
       [("checkout-invoice/create",
         PaydunyaCheckout.invoiceRequest Examples.paydunya options);
        ("/softpay/wave-senegal",
         PaydunyaCheckout.waveRequest options (Scenarios.parsed true) "inv_1")]).
Proof.
  intros env options.
  apply (paydunya_wave_checkout Examples.emitter env Examples.paydunya options
           (Scenarios.parsed true) Scenarios.invoice_data "inv_1" Scenarios.wave_data
           "https://pay.wave.com/c/1" (Net.start World0));
    try reflexivity.
  discriminate.
Defined.

(** X22. A request Paydunya answers with a failure makes [checkout]
    fail. When the data of the response is an object, the failure is a
    PaymentError without a type tag, whose message is the [message] of
    the object if it has one, else its [response_text] if it has one,
    else a text made of the problem, the HTTP status and the data. Data
    that is [null] or the empty text gives that last text as well, a
    status of [null] being printed as such. Data that is any other text,
    as the page of a gateway is, gives a TypeError instead, thrown by
    the test ["message" in response.data]. When this happens on the
    creation of the invoice, no payment request follows and nothing is
    emitted. *)
Theorem paydunya_checkout_failed_response env p options parsed n :
  let create := PaydunyaCheckout.invoiceRequest p options in
  let created := PaydunyaCheckout.answer env "checkout-invoice/create" create in
  let default :=
    ("Paydunya error: "
     ++ match PaydunyaCheckout.ApiResponse.problem created with
        | Some problem => problem
        | None => "null"
        end
     ++ ". Status: "
     ++ match PaydunyaCheckout.ApiResponse.status created with
        | Some status =>
            string_of_list_ascii (JSON.number_to_string (Js.Dec status 0))
        | None => "null"
        end
     ++ ". Data: "
     ++ PaydunyaCheckout.Data.stringify
          (PaydunyaCheckout.ApiResponse.data created))%string in
  PaydunyaCheckout.parsePhoneNumber env
    (PaydunyaCheckout.CheckoutCustomer.phoneNumber
       (PaydunyaCheckout.CheckoutOptions.customer options)) "SN"
  = Normal parsed ->
  PaydunyaCheckout.PhoneNumber.isValid parsed = true ->
  PaydunyaCheckout.PhoneNumber.isPossible parsed = true ->
  PaydunyaCheckout.ApiResponse.ok created = false ->
  exists error,
    PaydunyaCheckout.checkout env p options n
    = (Throw error,
       Net.make (Net.world n) (Net.sent n ++ [("checkout-invoice/create", create)]))
    /\ (forall data,
           PaydunyaCheckout.ApiResponse.data created
           = PaydunyaCheckout.Data.Object data ->
           error
           = PaymentError
               match PaydunyaCheckout.ResponseData.message data with
               | Some message => message
               | None =>
                   match PaydunyaCheckout.ResponseData.response_text data with
                   | Some response_text => response_text
                   | None => default
                   end
               end
               None)
    /\ (PaydunyaCheckout.ApiResponse.data created = PaydunyaCheckout.Data.Null
        \/ PaydunyaCheckout.ApiResponse.data created
           = PaydunyaCheckout.Data.Text EmptyString ->
        error = PaymentError default None)
    /\ (forall text,
           PaydunyaCheckout.ApiResponse.data created
           = PaydunyaCheckout.Data.Text text ->
           text <> EmptyString ->
           exists message, error = TypeError message).
Proof.
  intros create created default Hparsed Hvalid Hpossible Hok.
  subst create created default.
  unfold PaydunyaCheckout.checkout, Net.bind.
  destruct (PaydunyaCheckout.CheckoutOptions.currency options).
  cbn [Currency_value]. destruct (decide ("XOF" <> "XOF")); [congruence|].
  rewrite Hparsed, Hvalid, Hpossible. cbn [negb]. rewrite post_run.
  unfold PaydunyaCheckout.responseTransform.
  change (PaydunyaCheckout.endsWith "checkout-invoice/create"
            "/softpay/orange-money-senegal") with false.
  rewrite Hok. cbn [andb negb].
  unfold PaydunyaCheckout.defaultErrorMessage, PaydunyaCheckout.text_or,
    PaydunyaCheckout.status_text.
  destruct (PaydunyaCheckout.ApiResponse.data _)
    as [|b|d|[|c t]|l|[code [text|] token success [message|] url json]];
    cbn [PaydunyaCheckout.Data.truthy PaydunyaCheckout.Data.lookup
           PaydunyaCheckout.Data.property Js.truthy];
    repeat match goal with
           | |- context [if ?b then _ else _] => destruct b
           end;
    eexists; (split; [reflexivity|]);
    (split; [intros data' Hdata'; try discriminate;
             injection Hdata' as <-; reflexivity|]);
    (split; [intros [Hdata'|Hdata']; try discriminate; reflexivity|]);
    intros text' Hdata' Hne; try discriminate;
    try (injection Hdata' as <-; contradiction);
    eexists; reflexivity.
Qed.

(** A witness of X22: Paydunya is down when the invoice is to be
    created, and the gateway answers with a page. *)
Lemma paydunya_checkout_failed_response_witness :
  let env :=
    Scenarios.environment true
      (Scenarios.unavailable (PaydunyaCheckout.Data.Text "<h1>503</h1>"))
      Scenarios.payment_accepted in
  let options := Scenarios.mobile_checkout WAVE None in
  exists error,
    PaydunyaCheckout.checkout env Examples.paydunya options (Net.start World0)
    = (Throw error,
       Net.make World0
         [("checkout-invoice/create",
           PaydunyaCheckout.invoiceRequest Examples.paydunya options)])
    /\ exists message, error = TypeError message.
Proof.
  intros env options.
  destruct (paydunya_checkout_failed_response env Examples.paydunya options
              (Scenarios.parsed true) (Net.start World0))
    as (error & Hrun & _ & _ & Htext); try reflexivity.
  exists error. split; [exact Hrun|].
  apply (Htext "<h1>503</h1>"); [reflexivity|discriminate].
Defined.

(** X22 where the response has no data: the message of the error. *)
Example paydunya_checkout_without_data :
  let env :=
    Scenarios.environment true (Scenarios.unavailable PaydunyaCheckout.Data.Null)
      Scenarios.payment_accepted in
  fst (PaydunyaCheckout.checkout env Examples.paydunya
         (Scenarios.mobile_checkout WAVE None) (Net.start World0))
  = Throw (PaymentError "Paydunya error: SERVER_ERROR. Status: 503. Data: null" None).
Proof. reflexivity. Qed.

(** X23. An Orange Money checkout whose one-time code Paydunya refuses,
    with the status 422 and the message "Invalid or expired OTP code!":
    [checkout] fails with a PaymentError that carries this message and
    the tag INVALID_AUTHORIZATION_CODE, after the invoice has been
    created and the payment requested with the authorization code of the
    options, and emits nothing. *)
Theorem paydunya_orange_money_refused_code env p options parsed invoiceData token n :
  let create := PaydunyaCheckout.invoiceRequest p options in
  let pay := PaydunyaCheckout.orangeMoneyRequest options parsed token in
  let created := PaydunyaCheckout.answer env "checkout-invoice/create" create in
  let requested :=
    PaydunyaCheckout.answer env "/softpay/orange-money-senegal" pay in
  PaydunyaCheckout.CheckoutOptions.paymentMethod options = ORANGE_MONEY ->
  PaydunyaCheckout.parsePhoneNumber env
    (PaydunyaCheckout.CheckoutCustomer.phoneNumber
       (PaydunyaCheckout.CheckoutOptions.customer options)) "SN"
  = Normal parsed ->
  PaydunyaCheckout.PhoneNumber.isValid parsed = true ->
  PaydunyaCheckout.PhoneNumber.isPossible parsed = true ->
  PaydunyaCheckout.ApiResponse.ok created = true ->
  PaydunyaCheckout.ApiResponse.data created
  = PaydunyaCheckout.Data.Object invoiceData ->
  PaydunyaCheckout.ResponseData.response_code invoiceData = Some "00" ->
  PaydunyaCheckout.ResponseData.token invoiceData = Some token ->
  PaydunyaCheckout.ApiResponse.status requested = Some 422 ->
  PaydunyaCheckout.Data.property PaydunyaCheckout.ResponseData.message
    (PaydunyaCheckout.ApiResponse.data requested)
  = Some "Invalid or expired OTP code!" ->
  PaydunyaCheckout.checkout env p options n
  = (Throw (PaymentError "Invalid or expired OTP code!"
              (Some INVALID_AUTHORIZATION_CODE)),
     Net.make (Net.world n)
       (Net.sent n
        ++ [("checkout-invoice/create", create);
            ("/softpay/orange-money-senegal", pay)]))
  /\ match pay with
     | PaydunyaCheckout.OrangeMoneyPayment _ _ phone_number authorization_code
         invoice_token =>
         phone_number = PaydunyaCheckout.PhoneNumber.nationalNumber parsed
         /\ authorization_code
            = PaydunyaCheckout.CheckoutOptions.authorizationCode options
         /\ invoice_token = token
     | _ => False
     end.
Proof.
  intros create pay created requested Hmethod Hparsed Hvalid Hpossible
    Hok Hdata Hcode Htoken Hstatus Hmessage.
  subst create pay created requested.
  split; [|repeat split].
  unfold PaydunyaCheckout.checkout, PaydunyaCheckout.requestPayment,
    PaydunyaCheckout.paymentError, Net.bind.
  destruct (PaydunyaCheckout.CheckoutOptions.currency options).
  cbn [Currency_value]. destruct (decide ("XOF" <> "XOF")); [congruence|].
  rewrite Hparsed, Hvalid, Hpossible, Hmethod. cbn [negb]. rewrite post_run.
  unfold PaydunyaCheckout.responseTransform at 1.
  change (PaydunyaCheckout.endsWith "checkout-invoice/create"
            "/softpay/orange-money-senegal") with false.
  rewrite Hok. cbn [andb negb]. cbv beta iota. rewrite Hdata.
  cbn [PaydunyaCheckout.Data.truthy PaydunyaCheckout.Data.property
         PaydunyaCheckout.Data.lookup negb].
  destruct (decide (PaydunyaCheckout.ResponseData.response_code invoiceData
                    <> Some "00")); [contradiction|].
  rewrite Htoken. cbn [PaydunyaCheckout.same_method negb andb].
  rewrite post_run. unfold PaydunyaCheckout.responseTransform.
  change (PaydunyaCheckout.endsWith "/softpay/orange-money-senegal"
            "/softpay/orange-money-senegal") with true.
  rewrite Hstatus, Hmessage.
  rewrite !bool_decide_eq_true_2 by reflexivity. cbn [andb].
  cbn [Net.world Net.sent]. rewrite <- app_assoc. reflexivity.
Qed.

(** A witness of X23: the Orange Money checkout of the examples, with
    a code Paydunya refuses. *)
Lemma paydunya_orange_money_refused_code_witness :
  let env :=
    Scenarios.environment true Scenarios.invoice_created Scenarios.otp_refused in
  let options := Scenarios.mobile_checkout ORANGE_MONEY None in
  PaydunyaCheckout.checkout env Examples.paydunya options (Net.start World0)
  = (Throw (PaymentError "Invalid or expired OTP code!"
              (Some INVALID_AUTHORIZATION_CODE)),
     Net.make World0
       [("checkout-invoice/create",
         PaydunyaCheckout.invoiceRequest Examples.paydunya options);
        ("/softpay/orange-money-senegal",
         PaydunyaCheckout.orangeMoneyRequest options (Scenarios.parsed true)
           "inv_1")]).
Proof.
  intros env options.
  apply (proj1 (paydunya_orange_money_refused_code env Examples.paydunya options
                  (Scenarios.parsed true) Scenarios.invoice_data "inv_1"
                  (Net.start World0) eq_refl eq_refl eq_refl eq_refl eq_refl
                  eq_refl eq_refl eq_refl eq_refl eq_refl)).
Defined.

(** ** The two revisions of the Paydunya handler *)

Lemma earlier_verified p body :
  Paydunya.verified p body ->
  PaydunyaEarlier.handleWebhook p body = PaydunyaEarlier.handleVerified p body.
Proof.
  intros (h & Hh & Ht & ->). unfold PaydunyaEarlier.handleWebhook. rewrite Hh, Ht.
  destruct (decide (Paydunya.masterKeySha512Hash p <> Paydunya.masterKeySha512Hash p));
    [congruence|reflexivity].
Qed.

(** X24. The earlier revision of the handler against the present one.
    Whatever the earlier one hands to the emitter, the present one hands
    over as well. The earlier one acts on completed payments only: on a
    verified body of any other status it does nothing, even when the
    body has no [customer]. And where the present one emits a
    PAYMENT_SUCCESSFUL event without a payment method, for a method that
    is neither "wave_senegal" nor "orange_money_senegal", the earlier one
    logs an error and emits nothing. *)
Theorem paydunya_earlier_handler p body w :
  (emitted (snd (PaydunyaEarlier.handleWebhook p body w)) = emitted w
   \/ emitted (snd (PaydunyaEarlier.handleWebhook p body w))
      = emitted (snd (Paydunya.handleWebhook p body w)))
  /\ (Paydunya.verified p body ->
      ~ (Paydunya.Body.status body = "completed"
         /\ Paydunya.Body.response_code body = "00") ->
      PaydunyaEarlier.handleWebhook p body w = (Normal None, w))
  /\ (forall customer,
         Paydunya.verified p body ->
         Paydunya.Body.status body = "completed" ->
         Paydunya.Body.response_code body = "00" ->
         Paydunya.Body.customer body = Some customer ->
         Paydunya.paymentMethod_of (Paydunya.WebhookCustomer.payment_method customer)
         = None ->
         PaydunyaEarlier.handleWebhook p body w
         = (Normal None,
            with_console w
              [(Error,
                ("Unknown payment method: "
                 ++ Paydunya.WebhookCustomer.payment_method customer)%string)])).
Proof.
  split; [|split].
  - unfold PaydunyaEarlier.handleWebhook, Paydunya.handleWebhook.
    destruct (Paydunya.Body.hash body) as [h|]; [|left; reflexivity].
    destruct (Js.truthy h); [|left; reflexivity].
    destruct (decide (h <> Paydunya.masterKeySha512Hash p)); [left; reflexivity|].
    unfold PaydunyaEarlier.handleVerified, Paydunya.handleVerified,
      Paydunya.bodyEvent, bind, read_of, ret, throw, log, emit.
    destruct (bool_decide _ && bool_decide _); [|left; reflexivity].
    destruct (Paydunya.Body.customer body) as [customer|]; [|left; reflexivity].
    destruct (Paydunya.paymentMethod_of _); [|left; reflexivity].
    destruct (Paydunya.Body.invoice body); [|left; reflexivity].
    destruct (Paydunya.Body.custom_data body); [|left; reflexivity].
    right. destruct (Paydunya.eventEmitter p); reflexivity.
  - intros Hv Hnot. rewrite (earlier_verified _ _ Hv).
    unfold PaydunyaEarlier.handleVerified.
    destruct (bool_decide (Paydunya.Body.status body = "completed")) eqn:H1;
      [|reflexivity].
    destruct (bool_decide (Paydunya.Body.response_code body = "00")) eqn:H2;
      [|reflexivity].
    exfalso. apply Hnot.
    split; [apply (bool_decide_eq_true_1 _ H1)|apply (bool_decide_eq_true_1 _ H2)].
  - intros customer Hv Hstatus Hcode Hc Hmethod. rewrite (earlier_verified _ _ Hv).
    unfold PaydunyaEarlier.handleVerified.
    rewrite Hstatus, Hcode, Hc. cbn [bool_decide andb].
    unfold bind, read_of, ret. rewrite Hmethod. reflexivity.
Qed.

(** A witness of X24: a completed payment by card. *)
Lemma paydunya_earlier_handler_witness :
  PaydunyaEarlier.handleWebhook Examples.paydunya Scenarios.card_body World0
  = (Normal None, with_console World0 [(Error, "Unknown payment method: card")]).
Proof.
  refine (proj2 (proj2 (paydunya_earlier_handler Examples.paydunya
                          Scenarios.card_body World0))
            Scenarios.card_customer _ _ _ _ _).
  - exists (Examples.digest "master-key"). repeat split; reflexivity.
  - reflexivity.
  - reflexivity.
  - reflexivity.
  - reflexivity.
Defined.
